(** * Civic-Hunter: priority scoring, hotspot clustering and the aggregation facade

    A shallow embedding of [server/index.js] (the Express back end) and of
    [services/dataService.ts] (the browser-side data service), followed by
    the properties of the specification that concern them.

    Conventions of the embedding.
    - A finite JavaScript number is the rational [Q] it denotes.  The
      arithmetic of the sources on such numbers (the running totals, the
      divisions, [lat * 10]) is IEEE 754 binary64: the exact result rounded
      to the nearest double, ties to even ([to_double]), and an infinity
      beyond the range ([number]).  A number that may be [NaN] or infinite
      is a [jsnum].  The numbers of a request body are taken to be finite.
    - A string is the sequence of its characters, one [ascii] each.  The
      texts of feeds and requests are taken to be ASCII, on which
      [toLowerCase] changes the letters A-Z and nothing else; the case
      mappings of Unicode beyond them are not modelled.
    - An object property that may be absent ([undefined]) or [null] is an
      [option]; [a || b] and truthiness tests are written out.
    - [Date.now()], [new Date().toISOString()], [Math.random()] and the
      outcome of every network call are inputs of the functions that read
      them.
    - Record fields that are copied to the output and read by no function
      below (urls, addresses, time stamps, provider-specific extras) are
      left out of the records. *)

From Stdlib Require Import ZArith QArith Qround Qminmax Qabs Qpower.
From Stdlib Require Import Bool String Ascii List DecimalString.
From Stdlib Require Import DecimalPos DecimalN.
From Stdlib Require Import Permutation Sorted Lia Lqa.
Import ListNotations.

Local Open Scope string_scope.

(* ================================================================== *)
(** ** ECMAScript primitives used by the sources *)
(* ================================================================== *)

Module Js.

(** Numbers as [parseFloat] and [parseInt] produce them. *)
Inductive jsnum : Type :=
| NaN
| Inf (negative : bool)
| Fin (q : Q).

Definition Qltb (x y : Q) : bool := negb (Qle_bool y x).

(** [ToBoolean] on a number: [NaN] and zero are falsy. *)
Definition truthy (x : jsnum) : bool :=
  match x with
  | NaN => false
  | Inf _ => true
  | Fin q => negb (Qeq_bool q 0)
  end.

(** [x || null] *)
Definition or_null (x : jsnum) : option jsnum :=
  if truthy x then Some x else None.

(** [x || d] for a numeric default [d] *)
Definition or_num (x : jsnum) (d : Q) : jsnum :=
  if truthy x then x else Fin d.

(** truthiness of a property holding a number or [null] *)
Definition truthy_opt (o : option jsnum) : bool :=
  match o with Some x => truthy x | None => false end.

(** [isNaN] on such a property ([isNaN(null)] is [false]) *)
Definition isNaN (o : option jsnum) : bool :=
  match o with Some NaN => true | _ => false end.

(** [x > q] *)
Definition gt (x : jsnum) (q : Q) : bool :=
  match x with
  | NaN => false
  | Inf negative => negb negative
  | Fin v => Qltb q v
  end.

(** truthiness of a rational property that may be absent *)
Definition truthyQ (o : option Q) : bool :=
  match o with Some q => negb (Qeq_bool q 0) | None => false end.

(** [s || d] on strings: absent and empty strings are falsy. *)
Definition str_or (o : option string) (d : string) : string :=
  match o with
  | Some (String c r) => String c r
  | _ => d
  end.

Definition truthy_str (o : option string) : bool :=
  match o with Some (String _ _) => true | _ => false end.

(** [s === lit] on a property that may be absent *)
Definition str_is (o : option string) (lit : string) : bool :=
  match o with Some s => String.eqb s lit | None => false end.

(** [String.prototype.toLowerCase], on the ASCII letters. *)
Definition lower_char (c : ascii) : ascii :=
  let n := nat_of_ascii c in
  if ((65 <=? n) && (n <=? 90))%nat then ascii_of_nat (n + 32) else c.

Fixpoint toLowerCase (s : string) : string :=
  match s with
  | EmptyString => EmptyString
  | String c r => String (lower_char c) (toLowerCase r)
  end.

(** [hay.includes(needle)] *)
Fixpoint includes (hay needle : string) : bool :=
  if prefix needle hay then true
  else match hay with
       | EmptyString => false
       | String _ r => includes r needle
       end.

(** [terms.some(t => a.includes(t) || b.includes(t))] *)
Definition some_in2 (terms : list string) (a b : string) : bool :=
  existsb (fun t => includes a t || includes b t) terms.

(** [terms.some(t => a.includes(t))] *)
Definition some_in (terms : list string) (a : string) : bool :=
  existsb (fun t => includes a t) terms.

(** *** Numbers: IEEE 754 binary64 *)

(** [floor (log2 x)] for a positive [x]. *)
Definition ilog2 (x : Q) : Z :=
  let e := (Z.log2 (Qnum x) - Z.log2 (Zpos (Qden x)))%Z in
  if Qltb x (2 ^ e) then (e - 1)%Z else e.

(** The nearest integer, a tie going to the even one. *)
Definition round_half_even (m : Q) : Z :=
  let f := Qfloor m in
  match Qcompare (m - inject_Z f) (1 # 2) with
  | Lt => f
  | Gt => (f + 1)%Z
  | Eq => if Z.even f then f else (f + 1)%Z
  end.

(** The double nearest to the real [x], as every arithmetic operation
    rounds its exact result: 53 significant bits, or a multiple of
    [2^-1074] below the normal range, ties to even.  The exponent is not
    bounded above here, see [number]. *)
Definition to_double (x : Q) : Q :=
  match Qcompare x 0 with
  | Eq => 0
  | c =>
      let a := Qabs x in
      let e := Z.max (ilog2 a - 52) (-1074) in
      let m := inject_Z (round_half_even (a / 2 ^ e)) * 2 ^ e in
      Qred (match c with Lt => - m | _ => m end)
  end.

(** The Number an operation with exact result [x] yields: the nearest
    double, an infinity when that is [2^1024] or more in magnitude. *)
Definition number (x : Q) : jsnum :=
  let r := to_double x in
  if Qle_bool (2 ^ 1024) (Qabs r) then Inf (Qltb r 0) else Fin r.

(** [x + y] *)
Definition add (x y : jsnum) : jsnum :=
  match x, y with
  | NaN, _ | _, NaN => NaN
  | Inf a, Inf b => if Bool.eqb a b then Inf a else NaN
  | Inf a, Fin _ | Fin _, Inf a => Inf a
  | Fin a, Fin b => number (a + b)
  end.

(** [x / n] for a count [n] that is not zero. *)
Definition div_count (x : jsnum) (n : nat) : jsnum :=
  match x with
  | Fin a => number (a / inject_Z (Z.of_nat n))
  | _ => x
  end.

(** [Math.min(a, x)] for a finite [a]. *)
Definition Math_min (a : Q) (x : jsnum) : jsnum :=
  match x with
  | NaN => NaN
  | Inf negative => if negative then x else Fin a
  | Fin q => Fin (Qmin a q)
  end.

(** The value of a Number that is known to be finite. *)
Definition finite (x : jsnum) : Q :=
  match x with Fin q => q | _ => 0 end.

(** White space skipped by [parseFloat], [parseInt] and [trim]. *)
Definition is_ws (c : ascii) : bool :=
  let n := nat_of_ascii c in
  ((n =? 32) || ((9 <=? n) && (n <=? 13)))%nat.

Fixpoint skip_ws (s : string) : string :=
  match s with
  | String c r => if is_ws c then skip_ws r else s
  | EmptyString => s
  end.

(** [s.trim() !== ''] *)
Definition trim_nonempty (s : string) : bool :=
  match skip_ws s with EmptyString => false | String _ _ => true end.

Definition digit_of (radix : Z) (c : ascii) : option Z :=
  let n := Z.of_nat (nat_of_ascii c) in
  let v := if ((48 <=? n) && (n <=? 57))%Z then Some (n - 48)%Z
           else if ((97 <=? n) && (n <=? 102))%Z then Some (n - 87)%Z
           else if ((65 <=? n) && (n <=? 70))%Z then Some (n - 55)%Z
           else None in
  match v with
  | Some d => if (d <? radix)%Z then Some d else None
  | None => None
  end.

(** The longest run of digits at the head of [s]: its value on top of
    [acc], the number of digits read on top of [n], and what follows. *)
Fixpoint digits (radix : Z) (s : string) (acc : Z) (n : nat)
  : Z * nat * string :=
  match s with
  | String c r =>
      match digit_of radix c with
      | Some d => digits radix r (radix * acc + d)%Z (S n)
      | None => (acc, n, s)
      end
  | EmptyString => (acc, n, s)
  end.

Definition sign (s : string) : bool * string :=
  match s with
  | String "-" r => (true, r)
  | String "+" r => (false, r)
  | _ => (false, s)
  end.

(** An exponent part, when one is complete; otherwise it is not read. *)
Definition exponent (s : string) : Z :=
  match s with
  | String c r =>
      if (Ascii.eqb c "e" || Ascii.eqb c "E")%bool then
        let '(negative, r') := sign r in
        let '(v, n, _) := digits 10 r' 0%Z 0%nat in
        if (n =? 0)%nat then 0%Z else if negative then (- v)%Z else v
      else 0%Z
  | EmptyString => 0%Z
  end.

(** [parseFloat] on a string: leading white space, a sign, then
    [Infinity] or the longest decimal literal. *)
Definition parseFloat_string (s : string) : jsnum :=
  let '(negative, r) := sign (skip_ws s) in
  if prefix "Infinity" r then Inf negative
  else
    let '(ip, ni, r1) := digits 10 r 0%Z 0%nat in
    let '(fp, nf, r2) :=
      match r1 with
      | String "." r' => digits 10 r' 0%Z 0%nat
      | _ => (0%Z, 0%nat, r1)
      end in
    if (ni + nf =? 0)%nat then NaN
    else
      let mantissa := inject_Z ip + inject_Z fp / Qpower 10 (Z.of_nat nf) in
      let v := mantissa * Qpower 10 (exponent r2) in
      number (if negative then - v else v).

(** [parseFloat(x.field)]: an absent field reads as ["undefined"]. *)
Definition parseFloat (o : option string) : jsnum :=
  match o with
  | Some s => parseFloat_string s
  | None => NaN
  end.

(** [parseInt] without a radix: base 16 after [0x], base 10 otherwise. *)
Definition parseInt_string (s : string) : jsnum :=
  let '(negative, r) := sign (skip_ws s) in
  let '(radix, r') :=
    match r with
    | String "0" (String c t) =>
        if (Ascii.eqb c "x" || Ascii.eqb c "X")%bool then (16%Z, t)
        else (10%Z, r)
    | _ => (10%Z, r)
    end in
  let '(v, n, _) := digits radix r' 0%Z 0%nat in
  if (n =? 0)%nat then NaN
  else number (inject_Z (if negative then (- v)%Z else v)).

Definition parseInt (o : option string) : jsnum :=
  match o with
  | Some s => parseInt_string s
  | None => NaN
  end.

(** [Math.round]: the nearest integer, ties towards plus infinity. *)
Definition Math_round (x : Q) : Z := Qfloor (x + (1 # 2)).

(** [Math.floor] *)
Definition Math_floor (x : Q) : Z := Qfloor x.

(** A non-negative integer in a template literal. *)
Definition nat_to_string (n : nat) : string :=
  NilZero.string_of_uint (Nat.to_uint n).

(** [`${n / 10}`] for an integer [n], as [Number::toString] prints a
    value with at most one decimal (in the range where it uses no
    exponent). *)
Definition tenths_to_string (n : Z) : string :=
  let a := Z.abs n in
  let whole := NilZero.string_of_uint (N.to_uint (Z.to_N (a / 10))) in
  let frac := (a mod 10)%Z in
  let body :=
    if (frac =? 0)%Z then whole
    else whole ++ "." ++ NilZero.string_of_uint (N.to_uint (Z.to_N frac)) in
  if (n <? 0)%Z then "-" ++ body else body.

(** [arr.map((x, index) => f(x, index))] *)
Definition mapi {A B : Type} (f : A -> nat -> B) (l : list A) : list B :=
  map (fun p => f (snd p) (fst p)) (combine (seq 0 (length l)) l).

(** [Array.prototype.sort(cmp)].  The sort is stable and [cmp x y <= 0]
    keeps [x] before [y]; for a comparator that is a difference of keys
    the result does not depend on the algorithm, and is the one this
    insertion sort builds. *)
Section Sort.
Context {A : Type} (cmp : A -> A -> Q).

Fixpoint insert (x : A) (l : list A) : list A :=
  match l with
  | [] => [x]
  | y :: t => if Qle_bool (cmp x y) 0 then x :: y :: t else y :: insert x t
  end.

Definition sort (l : list A) : list A := fold_right insert [] l.
End Sort.

(** An object used as a map from strings that are not integer indices
    (here every key contains a comma): [Object.values] lists it in
    insertion order, and a stored object is never falsy. *)
Section Dict.
Context {C : Type}.

Definition dict : Type := list (string * C).

(** [obj[key]] *)
Fixpoint lookup (key : string) (m : dict) : option C :=
  match m with
  | [] => None
  | (k, c) :: t => if String.eqb k key then Some c else lookup key t
  end.

(** An in-place change of the object stored under [key]. *)
Fixpoint update (key : string) (f : C -> C) (m : dict) : dict :=
  match m with
  | [] => []
  | (k, c) :: t =>
      if String.eqb k key then (k, f c) :: t else (k, c) :: update key f t
  end.

(** [if (!obj[key]) obj[key] = fresh] *)
Definition ensure (key : string) (fresh : C) (m : dict) : dict :=
  match lookup key m with
  | Some _ => m
  | None => (m ++ [(key, fresh)])%list
  end.
End Dict.
Arguments dict C : clear implicits.

(** [arr.slice(0, n)] *)
Definition slice0 {A : Type} (n : nat) (l : list A) : list A := firstn n l.

(** [text.match(/\{[\s\S]*\}/)]: from the first opening brace to the last
    closing brace after it. *)
Fixpoint after_open (s : string) : option string :=
  match s with
  | EmptyString => None
  | String c r => if Ascii.eqb c "{" then Some r else after_open r
  end.

Fixpoint upto_last_close (s : string) : option string :=
  match s with
  | EmptyString => None
  | String c r =>
      match upto_last_close r with
      | Some p => Some (String c p)
      | None => if Ascii.eqb c "}" then Some (String c EmptyString) else None
      end
  end.

Definition match_braces (text : string) : option string :=
  match after_open text with
  | Some r =>
      match upto_last_close r with
      | Some p => Some (String "{" p)
      | None => None
      end
  | None => None
  end.

End Js.

(* ================================================================== *)
(** ** server/index.js *)
(* ================================================================== *)

Module Server.
Import Js.

(** The clock of the process: [Date.now()] in milliseconds, the
    milliseconds [new Date(s)] denotes ([None] for an invalid date) and
    [new Date().toISOString()]. *)
Record Clock : Type := mkClock {
  now : Z;
  parseDate : string -> option Z;
  isoNow : string
}.

(** *** Outcome of one upstream call *)

(** What [await response.json()] yields.  For the Socrata feeds [Rows] is
    the top-level array; for the ArcGIS feeds it is [data.features].  A
    [null] element of the array is [None]. *)
Inductive Payload (R : Type) : Type :=
| NotJson
| NotArray
| Rows (data : list (option R)).
Arguments NotJson {R}.
Arguments NotArray {R}.
Arguments Rows {R} data.

(** What [await fetch(url)] yields: a rejection, or a response with its
    [ok] flag and body. *)
Inductive Fetched (R : Type) : Type :=
| NetworkError
| Response (ok : bool) (body : Payload R).
Arguments NetworkError {R}.
Arguments Response {R} ok body.

(** The network call itself failed: rejection or a non-2xx status. *)
Definition call_failed {R : Type} (f : Fetched R) : bool :=
  match f with
  | NetworkError => true
  | Response ok _ => negb ok
  end.

Fixpoint all_some {R : Type} (l : list (option R)) : option (list R) :=
  match l with
  | [] => Some []
  | None :: _ => None
  | Some x :: t =>
      match all_some t with
      | Some t' => Some (x :: t')
      | None => None
      end
  end.

(** The head every adapter shares: [try], the [response.ok] test,
    [response.json()] and the array test.  [None] stands for each path
    that ends in [return []]; reading a property of a [null] element
    throws inside [map] and is caught likewise. *)
Definition rows_of {R : Type} (f : Fetched R) : option (list R) :=
  match f with
  | Response true (Rows data) => all_some data
  | _ => None
  end.

(** *** The common record shape *)

Record Incident : Type := mkIncident {
  id : string;
  title : string;
  description : string;
  lat : option jsnum;
  lng : option jsnum;
  source : string;
  category : option string;
  status : string;
  priority : Z
}.

(** [i => i.lat && i.lng] *)
Definition has_coords (i : Incident) : bool :=
  truthy_opt (lat i) && truthy_opt (lng i).

(** [i => i.lat && i.lng && !isNaN(i.lat) && !isNaN(i.lng)] *)
Definition has_coords_ev (i : Incident) : bool :=
  truthy_opt (lat i) && truthy_opt (lng i)
  && negb (isNaN (lat i)) && negb (isNaN (lng i)).

(** *** NYC 311 *)

Record NYC311Row : Type := mkNYC311Row {
  nyc_unique_key : option string;
  nyc_complaint_type : option string;
  nyc_descriptor : option string;
  nyc_latitude : option string;
  nyc_longitude : option string;
  nyc_status : option string
}.

Definition criticalTerms : list string :=
  ["fire"; "shooting"; "weapon"; "gas leak"; "explosion"; "emergency";
   "assault"; "robbery"; "collapse"].

Definition highTerms : list string :=
  ["accident"; "injury"; "medical"; "hazard"; "dangerous"].

(** [terms.forEach(term => { if (text.includes(term)) priority += inc })] *)
Definition add_per_term (text : string) (inc : Z) (terms : list string)
  (priority : Z) : Z :=
  fold_left (fun p term => if includes text term then (p + inc)%Z else p)
    terms priority.

Definition calculatePriority (incident : NYC311Row) : Z :=
  let priority := 50%Z in
  let text :=
    toLowerCase (str_or (nyc_complaint_type incident) "" ++ " "
                 ++ str_or (nyc_descriptor incident) "") in
  let priority := add_per_term text 40 criticalTerms priority in
  let priority := add_per_term text 20 highTerms priority in
  let priority :=
    if str_is (nyc_status incident) "Open" then (priority + 10)%Z
    else priority in
  Z.min priority 100.

Definition fetchNYC311Incidents (r : Fetched NYC311Row) : list Incident :=
  match rows_of r with
  | None => []
  | Some data =>
      filter has_coords
        (mapi (fun incident index =>
           {| id := "nyc311-"
                    ++ str_or (nyc_unique_key incident) (nat_to_string index);
              title := str_or (nyc_complaint_type incident) "Unknown Incident";
              description := str_or (nyc_descriptor incident) "";
              lat := or_null (parseFloat (nyc_latitude incident));
              lng := or_null (parseFloat (nyc_longitude incident));
              source := "NYC 311";
              category := nyc_complaint_type incident;
              status := str_or (nyc_status incident) "Open";
              priority := calculatePriority incident |}) data)
  end.

(** *** Chicago 311 *)

Record Chi311Row : Type := mkChi311Row {
  c311_sr_type : option string;
  c311_sr_short_code : option string;
  c311_latitude : option string;
  c311_longitude : option string;
  c311_status : option string
}.

Definition fetchChicago311Incidents (r : Fetched Chi311Row) : list Incident :=
  match rows_of r with
  | None => []
  | Some data =>
      filter has_coords
        (mapi (fun incident index =>
           {| id := "chi311-" ++ nat_to_string index;
              title := str_or (c311_sr_type incident) "Incident";
              description := str_or (c311_sr_short_code incident) "";
              lat := or_null (parseFloat (c311_latitude incident));
              lng := or_null (parseFloat (c311_longitude incident));
              source := "Chicago 311";
              category := c311_sr_type incident;
              status := str_or (c311_status incident) "Open";
              priority := 50 |}) data)
  end.

(** *** Chicago crimes *)

(** [arrest] arrives as a JSON boolean or as a string. *)
Inductive Flag : Type :=
| FlagBool (b : bool)
| FlagStr (s : string).

Definition truthy_flag (o : option Flag) : bool :=
  match o with
  | Some (FlagBool b) => b
  | Some (FlagStr s) => truthy_str (Some s)
  | None => false
  end.

Record ChiCrimeRow : Type := mkChiCrimeRow {
  crime_id : option string;
  crime_primary_type : option string;
  crime_description : option string;
  crime_latitude : option string;
  crime_longitude : option string;
  crime_date : option string;
  crime_arrest : option Flag
}.

Definition chicago_critical : list string :=
  ["homicide"; "criminal sexual assault"; "robbery"; "aggravated assault";
   "kidnapping"; "arson"].
Definition chicago_high : list string :=
  ["battery"; "burglary"; "motor vehicle theft"; "weapons violation";
   "narcotics"].
Definition chicago_medium : list string :=
  ["theft"; "criminal damage"; "assault"; "criminal trespass"].

(** [crimeTime > hourAgo]; a comparison with an invalid date is false. *)
Definition within_last_hour (clk : Clock) (date : string) : bool :=
  match parseDate clk date with
  | Some t => (now clk - 3600000 <? t)%Z
  | None => false
  end.

Definition calculateChicagoCrimePriority (clk : Clock) (crime : ChiCrimeRow)
  : Z :=
  let type := toLowerCase (str_or (crime_primary_type crime) "") in
  let desc := toLowerCase (str_or (crime_description crime) "") in
  let priority :=
    if some_in2 chicago_critical type desc then 95%Z
    else if some_in2 chicago_high type desc then 75%Z
    else if some_in2 chicago_medium type desc then 55%Z
    else 50%Z in
  let priority :=
    match crime_date crime with
    | Some (String c r) =>
        if within_last_hour clk (String c r) then (priority + 10)%Z
        else priority
    | _ => priority
    end in
  Z.min priority 100.

Definition fetchChicagoCrimes (clk : Clock) (r : Fetched ChiCrimeRow)
  : list Incident :=
  match rows_of r with
  | None => []
  | Some data =>
      filter has_coords
        (mapi (fun crime index =>
           {| id := "chi-crime-"
                    ++ str_or (crime_id crime) (nat_to_string index);
              title := str_or (crime_primary_type crime) "Crime Reported";
              description := str_or (crime_description crime) "";
              lat := or_null (parseFloat (crime_latitude crime));
              lng := or_null (parseFloat (crime_longitude crime));
              source := "Chicago PD";
              category := crime_primary_type crime;
              status := if truthy_flag (crime_arrest crime)
                        then "Arrest Made" else "Open";
              priority := calculateChicagoCrimePriority clk crime |}) data)
  end.

(** *** Chicago traffic crashes *)

Record ChiCrashRow : Type := mkChiCrashRow {
  crash_record_id : option string;
  crash_first_crash_type : option string;
  crash_prim_contributory_cause : option string;
  crash_latitude : option string;
  crash_longitude : option string;
  crash_injuries_fatal : option string;
  crash_injuries_incapacitating : option string;
  crash_injuries_total : option string;
  crash_hit_and_run_i : option string;
  crash_damage : option string
}.

Definition calculateCrashPriority (crash : ChiCrashRow) : Z :=
  let priority :=
    if gt (parseInt (crash_injuries_fatal crash)) 0 then 100%Z
    else if gt (parseInt (crash_injuries_incapacitating crash)) 0 then 90%Z
    else if gt (parseInt (crash_injuries_total crash)) 2 then 80%Z
    else if gt (parseInt (crash_injuries_total crash)) 0 then 70%Z
    else if str_is (crash_hit_and_run_i crash) "Y" then 75%Z
    else if str_is (crash_damage crash) "OVER $1,500" then 55%Z
    else 45%Z in
  Z.min priority 100.

Definition fetchChicagoTrafficCrashes (r : Fetched ChiCrashRow)
  : list Incident :=
  match rows_of r with
  | None => []
  | Some data =>
      filter has_coords
        (mapi (fun crash index =>
           {| id := "chi-crash-"
                    ++ str_or (crash_record_id crash) (nat_to_string index);
              title := "Traffic Crash: "
                       ++ str_or (crash_first_crash_type crash)
                            "Vehicle Collision";
              description := str_or (crash_prim_contributory_cause crash)
                               "Unknown cause";
              lat := or_null (parseFloat (crash_latitude crash));
              lng := or_null (parseFloat (crash_longitude crash));
              source := "Chicago DOT";
              category := Some "Traffic Crash";
              status := "Reported";
              priority := calculateCrashPriority crash |}) data)
  end.

(** *** Chicago speed and red light cameras, ShotSpotter, buildings *)

Record ViolationRow : Type := mkViolationRow {
  viol_violations : option string;
  viol_latitude : option string;
  viol_longitude : option string
}.

Definition fetchChicagoSpeedViolations (r : Fetched ViolationRow)
  : list Incident :=
  match rows_of r with
  | None => []
  | Some data =>
      filter has_coords
        (mapi (fun violation index =>
           {| id := "chi-speed-" ++ nat_to_string index;
              title := "Speed Camera Violation Zone";
              description := str_or (viol_violations violation) "Multiple"
                             ++ " violations recorded";
              lat := or_null (parseFloat (viol_latitude violation));
              lng := or_null (parseFloat (viol_longitude violation));
              source := "Chicago Speed Cameras";
              category := Some "Traffic Enforcement";
              status := "Active";
              priority := 35 |}) data)
  end.

Definition fetchChicagoRedLightViolations (r : Fetched ViolationRow)
  : list Incident :=
  match rows_of r with
  | None => []
  | Some data =>
      filter has_coords
        (mapi (fun violation index =>
           {| id := "chi-redlight-" ++ nat_to_string index;
              title := "Red Light Violation Zone";
              description := str_or (viol_violations violation) "Multiple"
                             ++ " red light violations";
              lat := or_null (parseFloat (viol_latitude violation));
              lng := or_null (parseFloat (viol_longitude violation));
              source := "Chicago Red Light Cameras";
              category := Some "Traffic Enforcement";
              status := "Active";
              priority := 40 |}) data)
  end.

Record ShotRow : Type := mkShotRow {
  shot_rounds : option string;
  shot_latitude : option string;
  shot_longitude : option string
}.

Definition fetchChicagoShotSpotter (r : Fetched ShotRow) : list Incident :=
  match rows_of r with
  | None => []
  | Some data =>
      filter has_coords
        (mapi (fun alert index =>
           {| id := "chi-shot-" ++ nat_to_string index;
              title := "Gunshot Detection Alert";
              description := str_or (shot_rounds alert) "Unknown"
                             ++ " rounds detected";
              lat := or_null (parseFloat (shot_latitude alert));
              lng := or_null (parseFloat (shot_longitude alert));
              source := "ShotSpotter (Historical)";
              category := Some "Gunshot Detection";
              status := "Historical";
              priority := 85 |}) data)
  end.

Record BuildingRow : Type := mkBuildingRow {
  bldg_violation_code : option string;
  bldg_violation_description : option string;
  bldg_violation_status : option string;
  bldg_latitude : option string;
  bldg_longitude : option string
}.

Definition fetchChicagoBuildingViolations (r : Fetched BuildingRow)
  : list Incident :=
  match rows_of r with
  | None => []
  | Some data =>
      filter has_coords
        (mapi (fun violation index =>
           {| id := "chi-bldg-" ++ nat_to_string index;
              title := "Building Violation: "
                       ++ str_or (bldg_violation_code violation)
                            "Code Violation";
              description := str_or (bldg_violation_description violation) "";
              lat := or_null (parseFloat (bldg_latitude violation));
              lng := or_null (parseFloat (bldg_longitude violation));
              source := "Chicago Buildings";
              category := Some "Building Safety";
              status := str_or (bldg_violation_status violation) "Open";
              priority := 45 |}) data)
  end.

(** *** Evansville (ArcGIS features) *)

Record Geometry : Type := mkGeometry {
  geom_x : option Q;
  geom_y : option Q
}.

(** [let lat = null, lng = null; if (geom && geom.x && geom.y) {...}]:
    the pair [(lat, lng)]. *)
Definition geometry_coords (geom : option Geometry)
  : option jsnum * option jsnum :=
  match geom with
  | Some g =>
      if truthyQ (geom_x g) && truthyQ (geom_y g)
      then (option_map Fin (geom_y g), option_map Fin (geom_x g))
      else (None, None)
  | None => (None, None)
  end.

Record Feature (A : Type) : Type := mkFeature {
  attributes : option A;
  geometry : option Geometry
}.
Arguments mkFeature {A} attributes geometry.
Arguments attributes {A} f.
Arguments geometry {A} f.

(** As [rows_of]; reading a property of an absent [attributes] throws
    too. *)
Definition features_of {A : Type} (f : Fetched (Feature A))
  : option (list (A * option Geometry)) :=
  match rows_of f with
  | Some feats =>
      all_some
        (map (fun feature =>
                option_map (fun attrs => (attrs, geometry feature))
                  (attributes feature)) feats)
  | None => None
  end.

(** A property that is read as a date: a number of milliseconds or a
    text. *)
Inductive DateProp : Type :=
| DateNumber (ms : Q)
| DateText (text : string).

(** [v ? new Date(v).toISOString() : new Date().toISOString()] throws a
    [RangeError] when [v] is truthy and denotes no date: a number beyond
    8.64e15 milliseconds, or a text that does not parse. *)
Definition iso_time_throws (clk : Clock) (v : option DateProp) : bool :=
  match v with
  | Some (DateNumber ms) =>
      negb (Qeq_bool ms 0) && Qltb 8640000000000000 (Qabs ms)
  | Some (DateText (String c r)) =>
      match parseDate clk (String c r) with
      | Some _ => false
      | None => true
      end
  | _ => false
  end.

Record EvCrimeAttrs : Type := mkEvCrimeAttrs {
  ev_inci_id : option string;
  ev_Map_Crime : option string;
  ev_chrgdesc : option string;
  ev_arr_chrg : option string;
  ev_date_occu : option DateProp
}.

Definition evansville_critical : list string :=
  ["homicide"; "murder"; "rape"; "robbery"; "kidnapping"; "arson"].
Definition evansville_high : list string :=
  ["battery"; "burglary"; "theft"; "weapon"; "firearm"; "intimidation";
   "assault"].
Definition evansville_medium : list string :=
  ["criminal mischief"; "fraud"; "forgery"; "trespass"].

Definition calculateEvansvilleCrimePriority (attrs : EvCrimeAttrs) : Z :=
  let crime := toLowerCase (str_or (ev_Map_Crime attrs) "") in
  let desc := toLowerCase (str_or (ev_chrgdesc attrs) "") in
  let priority :=
    if some_in2 evansville_critical crime desc then 95%Z
    else if some_in2 evansville_high crime desc then 75%Z
    else if some_in2 evansville_medium crime desc then 55%Z
    else 50%Z in
  Z.min priority 100.

(** The callback of [map] throws on the first feature whose date is
    invalid, and the adapter returns [[]]. *)
Definition fetchEvansvilleCrimes (clk : Clock)
  (r : Fetched (Feature EvCrimeAttrs)) : list Incident :=
  match features_of r with
  | None => []
  | Some feats =>
    if existsb (fun feature : EvCrimeAttrs * option Geometry =>
                  iso_time_throws clk (ev_date_occu (fst feature))) feats
    then []
    else
      filter has_coords_ev
        (mapi (fun (feature : EvCrimeAttrs * option Geometry) index =>
           let attrs := fst feature in
           let coords := geometry_coords (snd feature) in
           {| id := "ev-crime-"
                    ++ str_or (ev_inci_id attrs) (nat_to_string index);
              title := str_or (ev_Map_Crime attrs) "Crime Reported";
              description := str_or (ev_chrgdesc attrs) "";
              lat := fst coords;
              lng := snd coords;
              source := "Evansville PD";
              category := ev_Map_Crime attrs;
              status := if truthy_str (ev_arr_chrg attrs)
                        then "Arrest Charged" else "Open";
              priority := calculateEvansvilleCrimePriority attrs |}) feats)
  end.

Record EvShotAttrs : Type := mkEvShotAttrs {
  ev_Nature : option string;
  ev_CloseCode : option string;
  ev_CallTime : option DateProp
}.

Definition fetchEvansvilleShotsFired (clk : Clock)
  (r : Fetched (Feature EvShotAttrs)) : list Incident :=
  match features_of r with
  | None => []
  | Some feats =>
    if existsb (fun feature : EvShotAttrs * option Geometry =>
                  iso_time_throws clk (ev_CallTime (fst feature))) feats
    then []
    else
      filter has_coords_ev
        (mapi (fun (feature : EvShotAttrs * option Geometry) index =>
           let attrs := fst feature in
           let coords := geometry_coords (snd feature) in
           let code := ev_CloseCode attrs in
           {| id := "ev-shots-" ++ nat_to_string index;
              title := str_or (ev_Nature attrs) "Shots Fired Report";
              description :=
                "911 call reported - "
                ++ (if str_is code "UNF" then "Unfounded"
                    else if str_is code "ARR" then "Arrest Made"
                    else if str_is code "RPT" then "Report Filed"
                    else "Responded");
              lat := fst coords;
              lng := snd coords;
              source := "Evansville 911";
              category := Some "Shots Fired";
              status := if str_is code "ARR" then "Arrest"
                        else if str_is code "UNF" then "Unfounded"
                        else "Responded";
              priority := 90 |}) feats)
  end.

(** *** GET /api/incidents *)

(** The outcome of every upstream call of one request. *)
Record Upstream : Type := mkUpstream {
  up_nyc311 : Fetched NYC311Row;
  up_chi311 : Fetched Chi311Row;
  up_crimes : Fetched ChiCrimeRow;
  up_crashes : Fetched ChiCrashRow;
  up_speed : Fetched ViolationRow;
  up_redlight : Fetched ViolationRow;
  up_shots : Fetched ShotRow;
  up_bldg : Fetched BuildingRow;
  up_evcrimes : Fetched (Feature EvCrimeAttrs);
  up_evshots : Fetched (Feature EvShotAttrs)
}.

(** [(a, b) => b.priority - a.priority] *)
Definition by_priority (a b : Incident) : Q :=
  inject_Z (priority b - priority a).

(** [req.query.city?.toLowerCase()] *)
Definition city_of (param : option string) : option string :=
  option_map toLowerCase param.

Definition incidents_handler (clk : Clock) (w : Upstream)
  (param : option string) : list Incident :=
  let city := city_of param in
  if str_is city "chicago" then
    let chi311 := fetchChicago311Incidents (up_chi311 w) in
    let chiCrimes := fetchChicagoCrimes clk (up_crimes w) in
    let chiCrashes := fetchChicagoTrafficCrashes (up_crashes w) in
    let chiSpeed := fetchChicagoSpeedViolations (up_speed w) in
    let chiRedLight := fetchChicagoRedLightViolations (up_redlight w) in
    let chiShots := fetchChicagoShotSpotter (up_shots w) in
    let chiBldg := fetchChicagoBuildingViolations (up_bldg w) in
    sort by_priority
      (chiCrimes ++ chiCrashes ++ chi311 ++ chiShots ++ chiSpeed
       ++ chiRedLight ++ chiBldg)
  else if str_is city "evansville" then
    let evCrimes := fetchEvansvilleCrimes clk (up_evcrimes w) in
    let evShots := fetchEvansvilleShotsFired clk (up_evshots w) in
    sort by_priority (evCrimes ++ evShots)
  else
    let nycIncidents := fetchNYC311Incidents (up_nyc311 w) in
    let chi311 := fetchChicago311Incidents (up_chi311 w) in
    let chiCrimes := fetchChicagoCrimes clk (up_crimes w) in
    let chiCrashes := fetchChicagoTrafficCrashes (up_crashes w) in
    sort by_priority (nycIncidents ++ chiCrimes ++ chiCrashes ++ chi311).

(** The adapters by name, to speak of one of them failing. *)
Inductive Adapter : Type :=
| NYC311 | Chi311 | ChiCrimes | ChiCrashes | ChiSpeed | ChiRedLight
| ChiShots | ChiBldg | EvCrimes | EvShots.

Definition Adapter_eq_dec (a b : Adapter) : {a = b} + {a <> b}.
Proof. decide equality. Defined.

(** What adapter [a] returns on the outcomes [w]. *)
Definition run (clk : Clock) (w : Upstream) (a : Adapter) : list Incident :=
  match a with
  | NYC311 => fetchNYC311Incidents (up_nyc311 w)
  | Chi311 => fetchChicago311Incidents (up_chi311 w)
  | ChiCrimes => fetchChicagoCrimes clk (up_crimes w)
  | ChiCrashes => fetchChicagoTrafficCrashes (up_crashes w)
  | ChiSpeed => fetchChicagoSpeedViolations (up_speed w)
  | ChiRedLight => fetchChicagoRedLightViolations (up_redlight w)
  | ChiShots => fetchChicagoShotSpotter (up_shots w)
  | ChiBldg => fetchChicagoBuildingViolations (up_bldg w)
  | EvCrimes => fetchEvansvilleCrimes clk (up_evcrimes w)
  | EvShots => fetchEvansvilleShotsFired clk (up_evshots w)
  end.

(** The network call of adapter [a] failed. *)
Definition failed (w : Upstream) (a : Adapter) : bool :=
  match a with
  | NYC311 => call_failed (up_nyc311 w)
  | Chi311 => call_failed (up_chi311 w)
  | ChiCrimes => call_failed (up_crimes w)
  | ChiCrashes => call_failed (up_crashes w)
  | ChiSpeed => call_failed (up_speed w)
  | ChiRedLight => call_failed (up_redlight w)
  | ChiShots => call_failed (up_shots w)
  | ChiBldg => call_failed (up_bldg w)
  | EvCrimes => call_failed (up_evcrimes w)
  | EvShots => call_failed (up_evshots w)
  end.

(** The adapters a request for [param] fans out to, in merge order. *)
Definition fan_out (param : option string) : list Adapter :=
  let city := city_of param in
  if str_is city "chicago" then
    [ChiCrimes; ChiCrashes; Chi311; ChiShots; ChiSpeed; ChiRedLight; ChiBldg]
  else if str_is city "evansville" then [EvCrimes; EvShots]
  else [NYC311; ChiCrimes; ChiCrashes; Chi311].

(** The five city codes of [CITY_GDELT_QUERIES]. *)
Definition known_city (city : string) : bool :=
  existsb (String.eqb city) ["chicago"; "nyc"; "la"; "dc"; "evansville"].

(** *** CCTV adapters and GET /api/cameras *)

Record Camera : Type := mkCamera {
  cam_id : string;
  cam_name : string;
  cam_location : string;
  cam_lat : jsnum;
  cam_lng : jsnum;
  cam_status : string;
  cam_source : string;
  cam_viewers : Z
}.

Record NYCCamRow : Type := mkNYCCamRow {
  ncam_cameraid : option string;
  ncam_name : option string;
  ncam_borough : option string;
  ncam_latitude : option string;
  ncam_longitude : option string
}.

(** [rnd index] is the value [Math.random()] returns for the element at
    [index]. *)
Definition fetchNYCCameras (rnd : nat -> Q) (r : Fetched NYCCamRow)
  : list Camera :=
  match rows_of r with
  | None => []
  | Some data =>
      mapi (fun cam index =>
        {| cam_id := "nyc-" ++ str_or (ncam_cameraid cam) (nat_to_string index);
           cam_name := str_or (ncam_name cam)
                         ("NYC Camera " ++ nat_to_string (index + 1));
           cam_location := str_or (ncam_borough cam) "New York";
           cam_lat := or_num (parseFloat (ncam_latitude cam)) 40.7128;
           cam_lng := or_num (parseFloat (ncam_longitude cam)) (-74.0060);
           cam_status := "active";
           cam_source := "NYC DOT";
           cam_viewers := Math_floor (rnd index * 150) |}) data
  end.

Record ChiCamRow : Type := mkChiCamRow {
  ccam_intersection : option string;
  ccam_latitude : option string;
  ccam_longitude : option string
}.

Definition fetchChicagoCameras (rnd : nat -> Q) (r : Fetched ChiCamRow)
  : list Camera :=
  match rows_of r with
  | None => []
  | Some data =>
      mapi (fun cam index =>
        {| cam_id := "chi-" ++ nat_to_string index;
           cam_name := str_or (ccam_intersection cam)
                         ("Chicago Camera " ++ nat_to_string (index + 1));
           cam_location := "Chicago, IL";
           cam_lat := or_num (parseFloat (ccam_latitude cam)) 41.8781;
           cam_lng := or_num (parseFloat (ccam_longitude cam)) (-87.6298);
           cam_status := "active";
           cam_source := "Chicago DOT";
           cam_viewers := Math_floor (rnd index * 100) |}) data
  end.

(** An entry of one of the static directories. *)
Record StaticCam : Type := mkStaticCam {
  sc_id : string;
  sc_name : string;
  sc_lat : Q;
  sc_lng : Q;
  sc_location : string;
  sc_source : string
}.

Definition static_cameras (rnd : nat -> Q) (scale offset : Z)
  (source_of : StaticCam -> string) (cams : list StaticCam) : list Camera :=
  mapi (fun cam index =>
    {| cam_id := sc_id cam;
       cam_name := sc_name cam;
       cam_location := sc_location cam;
       cam_lat := Fin (sc_lat cam);
       cam_lng := Fin (sc_lng cam);
       cam_status := "active";
       cam_source := source_of cam;
       cam_viewers := (Math_floor (rnd index * inject_Z scale) + offset)%Z |})
    cams.

Definition caltransCameras : list StaticCam :=
  [ mkStaticCam "ca-1" "I-80 Bay Bridge Toll Plaza" 37.8162 (-122.3560) "San Francisco, CA" "";
    mkStaticCam "ca-2" "US-101 Golden Gate Bridge" 37.8199 (-122.4783) "San Francisco, CA" "";
    mkStaticCam "ca-3" "I-405 LAX Vicinity" 33.9425 (-118.4081) "Los Angeles, CA" "";
    mkStaticCam "ca-4" "I-5 Downtown LA" 34.0522 (-118.2437) "Los Angeles, CA" "";
    mkStaticCam "ca-5" "SR-99 Fresno" 36.7378 (-119.7871) "Fresno, CA" "";
    mkStaticCam "ca-6" "I-15 San Diego" 32.7157 (-117.1611) "San Diego, CA" "";
    mkStaticCam "ca-7" "I-880 Oakland" 37.8044 (-122.2712) "Oakland, CA" "";
    mkStaticCam "ca-8" "US-101 San Jose" 37.3382 (-121.8863) "San Jose, CA" "";
    mkStaticCam "ca-9" "I-10 Santa Monica" 34.0195 (-118.4912) "Santa Monica, CA" "";
    mkStaticCam "ca-10" "I-580 Dublin" 37.7022 (-121.9358) "Dublin, CA" "" ].

Definition fetchCaliforniaCameras (rnd : nat -> Q) : list Camera :=
  static_cameras rnd 80 20 (fun _ => "Caltrans") caltransCameras.

Definition dcCameras : list StaticCam :=
  [ mkStaticCam "dc-1" "Constitution Ave NW" 38.8918 (-77.0261) "Washington, DC" "";
    mkStaticCam "dc-2" "Independence Ave SW" 38.8871 (-77.0134) "Washington, DC" "";
    mkStaticCam "dc-3" "Pennsylvania Ave NW" 38.8977 (-77.0365) "Washington, DC" "";
    mkStaticCam "dc-4" "I-395 Downtown" 38.8752 (-77.0244) "Washington, DC" "";
    mkStaticCam "dc-5" "K Street NW" 38.9024 (-77.0309) "Washington, DC" "";
    mkStaticCam "dc-6" "Georgetown Waterfront" 38.9031 (-77.0654) "Washington, DC" "";
    mkStaticCam "dc-7" "DuPont Circle" 38.9096 (-77.0434) "Washington, DC" "" ].

Definition fetchDCCameras (rnd : nat -> Q) : list Camera :=
  static_cameras rnd 60 10 (fun _ => "DC DOT") dcCameras.

Definition internationalCams : list StaticCam :=
  [ mkStaticCam "uk-1" "Trafalgar Square" 51.5074 (-0.1278) "London, UK" "TfL";
    mkStaticCam "uk-2" "Piccadilly Circus" 51.5099 (-0.1342) "London, UK" "TfL";
    mkStaticCam "uk-3" "Tower Bridge" 51.5055 (-0.0754) "London, UK" "TfL";
    mkStaticCam "jp-1" "Shibuya Crossing" 35.6595 139.7004 "Tokyo, Japan" "Public";
    mkStaticCam "jp-2" "Shinjuku Station" 35.6896 139.7006 "Tokyo, Japan" "Public";
    mkStaticCam "de-1" "Brandenburg Gate" 52.5163 13.3777 "Berlin, Germany" "Public";
    mkStaticCam "fr-1" "Champs-Élysées" 48.8698 2.3078 "Paris, France" "Public";
    mkStaticCam "fr-2" "Place de la Concorde" 48.8656 2.3212 "Paris, France" "Public" ].

Definition fetchInternationalCameras (rnd : nat -> Q) : list Camera :=
  static_cameras rnd 200 50 sc_source internationalCams.

(** Outcomes and random draws of one request for the cameras. *)
Record CamUpstream : Type := mkCamUpstream {
  up_nyc_cams : Fetched NYCCamRow;
  up_chi_cams : Fetched ChiCamRow;
  rnd_nyc : nat -> Q;
  rnd_chi : nat -> Q;
  rnd_ca : nat -> Q;
  rnd_dc : nat -> Q;
  rnd_intl : nat -> Q
}.

(** [(a, b) => b.viewers - a.viewers] *)
Definition by_viewers (a b : Camera) : Q :=
  inject_Z (cam_viewers b - cam_viewers a).

(** The handler does not read [req.query]. *)
Definition cameras_handler (w : CamUpstream) (param : option string)
  : list Camera :=
  let nycCams := fetchNYCCameras (rnd_nyc w) (up_nyc_cams w) in
  let chicagoCams := fetchChicagoCameras (rnd_chi w) (up_chi_cams w) in
  let caCams := fetchCaliforniaCameras (rnd_ca w) in
  let dcCams := fetchDCCameras (rnd_dc w) in
  let intlCams := fetchInternationalCameras (rnd_intl w) in
  sort by_viewers (nycCams ++ chicagoCams ++ caCams ++ dcCams ++ intlCams).

(** *** GET /api/radio-streams *)

Record RadioStream : Type := mkRadioStream {
  rs_id : string;
  rs_name : string;
  rs_type : string;
  rs_city : string;
  rs_listeners : Z
}.

(** One entry; [listeners: Math.floor(Math.random() * scale) + offset]. *)
Definition stream (rnd : nat -> Q) (index : nat) (sid name type city : string)
  (scale offset : Z) : RadioStream :=
  {| rs_id := sid; rs_name := name; rs_type := type; rs_city := city;
     rs_listeners := (Math_floor (rnd index * inject_Z scale) + offset)%Z |}.

Definition allStreams (rnd : nat -> Q) : list RadioStream :=
  [ stream rnd 0 "chicago-pd-zone1" "Chicago PD Zone 1" "police" "chicago" 400 150;
    stream rnd 1 "chicago-pd-zone2" "Chicago PD Zone 2" "police" "chicago" 350 100;
    stream rnd 2 "chicago-pd-zone5" "Chicago PD Zone 5" "police" "chicago" 300 80;
    stream rnd 3 "chicago-pd-zone6" "Chicago PD Zone 6" "police" "chicago" 280 90;
    stream rnd 4 "chicago-pd-zone10" "Chicago PD Zone 10" "police" "chicago" 320 110;
    stream rnd 5 "chicago-fire-main" "Chicago Fire Main" "fire" "chicago" 350 120;
    stream rnd 6 "chicago-fire-englewood" "Chicago Fire Englewood" "fire" "chicago" 200 60;
    stream rnd 7 "chicago-ems" "Chicago EMS" "ems" "chicago" 250 70;
    stream rnd 8 "cook-county-sheriff" "Cook County Sheriff" "police" "chicago" 200 50;
    stream rnd 9 "illinois-state-police" "Illinois State Police" "police" "chicago" 180 40;
    stream rnd 10 "nypd-citywide" "NYPD Citywide" "police" "nyc" 500 100;
    stream rnd 11 "nypd-manhattan" "NYPD Manhattan" "police" "nyc" 300 50;
    stream rnd 12 "fdny-citywide" "FDNY Citywide" "fire" "nyc" 400 80;
    stream rnd 13 "la-county-fire" "LA County Fire" "fire" "la" 250 40;
    stream rnd 14 "lapd-dispatch" "LAPD Dispatch" "police" "la" 300 70 ].

Definition radio_streams_handler (rnd : nat -> Q) (param : option string)
  : list RadioStream :=
  let city := city_of param in
  let streams := allStreams rnd in
  if str_is city "chicago" then
    filter (fun s => String.eqb (rs_city s) "chicago") (allStreams rnd)
  else
    match city with
    | Some (String c r) =>
        filter (fun s => String.eqb (rs_city s) (String c r)) (allStreams rnd)
    | _ => streams
    end.

(** *** Algorithmic hotspot analysis *)

(** Elements of the request body of POST /api/analyze-hotspots, with the
    properties the analysis reads. *)
Record IncidentIn : Type := mkIncidentIn {
  in_lat : option Q;
  in_lng : option Q;
  in_priority : option Q;
  in_title : option string
}.

Record CameraIn : Type := mkCameraIn {
  cin_lat : option Q;
  cin_lng : option Q;
  cin_viewers : option Q
}.

Record NewsIn : Type := mkNewsIn {
  news_title : option string
}.

Record Cluster : Type := mkCluster {
  cl_incidents : list IncidentIn;
  cl_cameras : list CameraIn;
  cl_lat : Q;
  cl_lng : Q;
  totalPriority : jsnum
}.

(** [locationClusters] *)
Definition Clusters : Type := dict Cluster.

(** [`${Math.round(lat * 10) / 10},${Math.round(lng * 10) / 10}`].  The
    product is a double; [Math.round] is exact on doubles; the quotient by
    10 prints as [tenths_to_string] has it while the rounded product is
    below [10^15] in magnitude, which covers every latitude and longitude
    there is. *)
Definition cluster_key (lat lng : Q) : string :=
  tenths_to_string (Math_round (to_double (lat * 10))) ++ ","
  ++ tenths_to_string (Math_round (to_double (lng * 10))).

Definition fresh_cluster (lat lng : Q) : Cluster :=
  {| cl_incidents := []; cl_cameras := []; cl_lat := lat; cl_lng := lng;
     totalPriority := Fin 0 |}.

(** [x || 50] *)
Definition or_50 (o : option Q) : Q :=
  match o with
  | Some q => if Qeq_bool q 0 then 50 else q
  | None => 50
  end.

(** The coordinates of a record when [r && r.lat && r.lng] holds. *)
Definition located (lat lng : option Q) : option (Q * Q) :=
  match lat, lng with
  | Some la, Some ln =>
      if negb (Qeq_bool la 0) && negb (Qeq_bool ln 0) then Some (la, ln)
      else None
  | _, _ => None
  end.

(** Body of the first [forEach]. *)
Definition add_incident (m : Clusters) (incident : option IncidentIn)
  : Clusters :=
  match incident with
  | Some inc =>
      match located (in_lat inc) (in_lng inc) with
      | Some (la, ln) =>
          let key := cluster_key la ln in
          update key
            (fun c =>
               {| cl_incidents := cl_incidents c ++ [inc];
                  cl_cameras := cl_cameras c;
                  cl_lat := cl_lat c;
                  cl_lng := cl_lng c;
                  totalPriority :=
                    add (totalPriority c) (Fin (or_50 (in_priority inc))) |})
            (ensure key (fresh_cluster la ln) m)
      | None => m
      end
  | None => m
  end.

(** [camera.viewers > 50] *)
Definition trending (viewers : option Q) : bool :=
  match viewers with
  | Some v => Qltb 50 v
  | None => false
  end.

Definition viewers_of (cam : CameraIn) : Q :=
  match cin_viewers cam with Some v => v | None => 0 end.

(** Body of the second [forEach]. *)
Definition add_camera (m : Clusters) (camera : option CameraIn) : Clusters :=
  match camera with
  | Some cam =>
      match located (cin_lat cam) (cin_lng cam) with
      | Some (la, ln) =>
          if trending (cin_viewers cam) then
            let key := cluster_key la ln in
            update key
              (fun c =>
                 {| cl_incidents := cl_incidents c;
                    cl_cameras := cl_cameras c ++ [cam];
                    cl_lat := cl_lat c;
                    cl_lng := cl_lng c;
                    totalPriority :=
                      add (totalPriority c) (Fin (viewers_of cam)) |})
              (ensure key (fresh_cluster la ln) m)
          else m
      | None => m
      end
  | None => m
  end.

Definition build_clusters (incidents : list (option IncidentIn))
  (cameras : list (option CameraIn)) : Clusters :=
  fold_left add_camera cameras (fold_left add_incident incidents []).

Record Hotspot : Type := mkHotspot {
  h_lat : Q;
  h_lng : Q;
  intensity : Q;
  incidentCount : nat;
  cameraCount : nat;
  h_description : string;
  topIncident : string
}.

(** [Math.min(100, totalPriority / (incidents.length + cameras.length + 1))] *)
Definition cluster_intensity (cluster : Cluster) : jsnum :=
  Math_min 100
    (div_count (totalPriority cluster)
       (length (cl_incidents cluster) + length (cl_cameras cluster) + 1)).

(** The object pushed for a cluster.  It is built under the test
    [intensity > 30] only, where the intensity is a finite number. *)
Definition hotspot_of (cluster : Cluster) : Hotspot :=
  {| h_lat := cl_lat cluster;
     h_lng := cl_lng cluster;
     intensity := finite (cluster_intensity cluster);
     incidentCount := length (cl_incidents cluster);
     cameraCount := length (cl_cameras cluster);
     h_description :=
       nat_to_string (length (cl_incidents cluster)) ++ " incidents, "
       ++ nat_to_string (length (cl_cameras cluster)) ++ " active cameras";
     topIncident :=
       match cl_incidents cluster with
       | inc :: _ => str_or (in_title inc) "High camera activity"
       | [] => "High camera activity"
       end |}.

(** [Object.values(locationClusters).forEach(...)]: a cluster is pushed
    when its intensity exceeds 30. *)
Definition to_hotspots (m : Clusters) : list Hotspot :=
  flat_map (fun kc =>
              if gt (cluster_intensity (snd kc)) 30
              then [hotspot_of (snd kc)] else []) m.

(** [(a, b) => b.intensity - a.intensity]: the sort reads the sign of the
    difference only, and rounding a difference of two doubles keeps its
    sign. *)
Definition by_intensity (a b : Hotspot) : Q := intensity b - intensity a.

(** The array [hotspots] after [hotspots.sort(...)]. *)
Definition ranked (incidents : list (option IncidentIn))
  (cameras : list (option CameraIn)) : list Hotspot :=
  sort by_intensity (to_hotspots (build_clusters incidents cameras)).

(** [hotspots.length > 0
      ? hotspots.reduce((sum, h) => sum + h.intensity, 0) / hotspots.length
      : 0]: every partial sum and the quotient are doubles.  The
    intensities are at most 100, so nothing leaves the range. *)
Definition avgIntensity (hotspots : list Hotspot) : Q :=
  if (0 <? length hotspots)%nat
  then to_double
         (fold_left (fun sum h => to_double (sum + intensity h)) hotspots 0
          / inject_Z (Z.of_nat (length hotspots)))
  else 0.

Definition threat_of (avg : Q) : string :=
  if Qltb 70 avg then "high"
  else if Qltb 40 avg then "medium"
  else "low".

Record Correlation : Type := mkCorrelation {
  cor_type : string;
  cor_description : string;
  cor_location : Q * Q
}.

Definition correlations_of (hotspots : list Hotspot) : list Correlation :=
  flat_map (fun hotspot =>
              if ((0 <? incidentCount hotspot)
                  && (0 <? cameraCount hotspot))%nat
              then [ {| cor_type := "incident-camera";
                        cor_description :=
                          "High correlation: "
                          ++ nat_to_string (incidentCount hotspot)
                          ++ " incidents near "
                          ++ nat_to_string (cameraCount hotspot)
                          ++ " trending cameras";
                        cor_location := (h_lat hotspot, h_lng hotspot) |} ]
              else [])
    (slice0 5 hotspots).

Record AnalysisResult : Type := mkAnalysisResult {
  hotspots : list Hotspot;
  correlations : list Correlation;
  threatLevel : string;
  summary : string;
  analyzedAt : string
}.

Definition performAlgorithmicAnalysis (clk : Clock)
  (incidents : list (option IncidentIn)) (cameras : list (option CameraIn))
  (news : list (option NewsIn)) : AnalysisResult :=
  let hotspots := ranked incidents cameras in
  let threatLevel := threat_of (avgIntensity hotspots) in
  let correlations := correlations_of hotspots in
  {| hotspots := slice0 20 hotspots;
     correlations := correlations;
     threatLevel := threatLevel;
     summary :=
       "Identified " ++ nat_to_string (length hotspots)
       ++ " potential hotspots. Overall threat level: " ++ threatLevel
       ++ ". " ++ nat_to_string (length correlations)
       ++ " correlations found between camera activity and incidents.";
     analyzedAt := isoNow clk |}.

(** *** POST /api/analyze-hotspots *)

(** [genAI] is created only for a usable [GEMINI_API_KEY]. *)
Definition gemini_configured (key : option string) : bool :=
  match key with
  | Some k =>
      truthy_str (Some k) && negb (String.eqb k "PLACEHOLDER_API_KEY")
      && trim_nonempty k
  | None => false
  end.

(** What the calls on the generative model do for one request: one of
    them throws, or [response.text()] is returned. *)
Inductive Generated : Type :=
| GenThrows
| GenText (text : string).

(** [genAI] at start-up, paired with what its calls will do for the
    request at hand: [null] unless the key is usable. *)
Definition init_genAI (key : option string) (calls : Generated)
  : option Generated :=
  if gemini_configured key then Some calls else None.

Record AnalyzeBody : Type := mkAnalyzeBody {
  body_incidents : option (list (option IncidentIn));
  body_cameras : option (list (option CameraIn));
  body_news : option (list (option NewsIn))
}.

(** [xs || []] *)
Definition or_empty {A : Type} (o : option (list A)) : list A :=
  match o with Some l => l | None => [] end.

(** Lines written to the console. *)
Inductive LogLine : Type :=
| GeminiFailed      (* 'Gemini analysis failed, using algorithmic fallback:' *)
| AnalyzeError.     (* 'Error analyzing hotspots:' *)

Section AnalyzeHotspots.
(** Parsed JSON values and [JSON.parse], [None] when it throws. *)
Context {Json : Type} (JSON_parse : string -> option Json).

(** What [res.json] is given; the status is 200 on every path. *)
Inductive Reply : Type :=
| FromModel (analysis : Json)
| FromAlgorithm (analysis : AnalysisResult).

(** [genAI] is [None] when it is [null]; [body] is [None] when
    [req.body] cannot be destructured. *)
Definition analyze_hotspots_handler (clk : Clock) (genAI : option Generated)
  (body : option AnalyzeBody) : Reply * list LogLine :=
  match body with
  | None =>
      (FromAlgorithm (performAlgorithmicAnalysis clk [] [] []),
       [AnalyzeError])
  | Some b =>
      let fallback :=
        FromAlgorithm
          (performAlgorithmicAnalysis clk
             (or_empty (body_incidents b)) (or_empty (body_cameras b))
             (or_empty (body_news b))) in
      match genAI with
      | None => (fallback, [])
      | Some GenThrows => (fallback, [GeminiFailed])
      | Some (GenText text) =>
          match match_braces text with
          | Some jsonMatch =>
              match JSON_parse jsonMatch with
              | Some analysis => (FromModel analysis, [])
              | None => (fallback, [GeminiFailed])
              end
          | None => (fallback, [])
          end
      end
  end.
End AnalyzeHotspots.
Arguments FromModel {Json} analysis.
Arguments FromAlgorithm {Json} analysis.


(** *** News feed (GDELT) *)

Definition negativeWords : list string :=
  ["crash"; "accident"; "fire"; "shooting"; "emergency"; "death"; "killed";
   "injured"; "explosion"; "attack"; "violence"; "danger"; "warning";
   "alert"; "critical"; "severe"; "breaking"].

Definition positiveWords : list string :=
  ["celebration"; "festival"; "success"; "achievement"; "safe"; "resolved";
   "peaceful"; "improvement"; "recovery"; "community"].

(** [words.forEach(word => { if (lowerText.includes(word)) score += step })] *)
Definition score_words (lowerText : string) (step : Z) (words : list string)
  (score : Z) : Z :=
  fold_left (fun s word => if includes lowerText word then (s + step)%Z else s)
    words score.

Definition analyzeSentimentBasic (text : option string) : string :=
  match text with
  | Some (String c r) =>
      let lowerText := toLowerCase (String c r) in
      let score := score_words lowerText (-1) negativeWords 0%Z in
      let score := score_words lowerText 1 positiveWords score in
      if (score <? -1)%Z then "negative"
      else if (1 <? score)%Z then "positive"
      else "neutral"
  | _ => "neutral"
  end.

Definition cities : list string :=
  ["New York"; "Los Angeles"; "Chicago"; "Houston"; "Phoenix";
   "Philadelphia"; "San Antonio"; "San Diego"; "Dallas"; "San Jose";
   "Austin"; "Jacksonville"; "Fort Worth"; "Columbus"; "Charlotte";
   "San Francisco"; "Indianapolis"; "Seattle"; "Denver"; "Washington";
   "Boston"; "Nashville"; "Baltimore"; "Oklahoma City"; "Portland";
   "Las Vegas"; "Milwaukee"; "Albuquerque"; "Tucson"; "Fresno";
   "Sacramento"; "Kansas City"; "Atlanta"; "Miami"; "London"; "Paris";
   "Tokyo"; "Berlin"; "Brooklyn"; "Manhattan"; "Queens"].

(** [for (const city of cities) if (text.includes(city)) return city] *)
Definition extractLocation (text : option string) : option string :=
  match text with
  | Some (String c r) => find (fun city => includes (String c r) city) cities
  | _ => None
  end.

(** [s.endsWith(suffix)] *)
Fixpoint endsWith (s suffix : string) : bool :=
  String.eqb s suffix
  || match s with
     | EmptyString => false
     | String _ r => endsWith r suffix
     end.

Record GdeltArticle : Type := mkGdeltArticle {
  ga_title : option string;
  ga_domain : option string;
  ga_url : option string;
  ga_seendate : option string;
  ga_socialimage : option string;
  ga_sourcecountry : option string
}.

(** The test of [data.articles.filter(...)]: a source that looks
    American. *)
Definition us_source (article : GdeltArticle) : bool :=
  let domain := toLowerCase (str_or (ga_domain article) "") in
  let country := toLowerCase (str_or (ga_sourcecountry article) "") in
  includes country "united states"
  || endsWith domain ".com" || endsWith domain ".org"
  || endsWith domain ".gov"
  || includes domain "chicago" || includes domain "nyc"
  || includes domain "nytimes" || includes domain "cnn"
  || includes domain "abc" || includes domain "nbc"
  || includes domain "cbs" || includes domain "fox".

Record NewsArticle : Type := mkNewsArticle {
  na_id : string;
  na_title : string;
  na_source : string;
  na_url : option string;
  na_time : string;
  na_imageUrl : option string;
  na_sentiment : string;
  na_location : option string;
  na_category : string;
  na_country : string
}.

(** What [JSON.parse(text)] yields: a value whose [articles] property is
    an array, or any other value. *)
Inductive GdeltBody : Type :=
| GdeltArticles (articles : list (option GdeltArticle))
| GdeltOther.

(** What the request yields: a rejection (a network error, or the abort
    after 8 seconds), or a response with its [ok] flag and its text. *)
Inductive GdeltFetched : Type :=
| GdeltRejected
| GdeltResponse (ok : bool) (text : string).

(** [text.trim().startsWith('{') || text.trim().startsWith('[')] *)
Definition looks_like_json (text : string) : bool :=
  match skip_ws text with
  | String c _ => (Ascii.eqb c "{" || Ascii.eqb c "[")%bool
  | EmptyString => false
  end.

Section GdeltNews.
(** [JSON.parse] on the text of the response, [None] when it throws. *)
Context (JSON_parse : string -> option GdeltBody).

(** The request URL, which depends on the city, is not part of the model:
    it only decides which outcome [r] the request has. *)
Definition fetchGDELTNews (clk : Clock) (r : GdeltFetched) : list NewsArticle :=
  match r with
  | GdeltResponse true text =>
      if looks_like_json text then
        match JSON_parse text with
        | Some (GdeltArticles articles) =>
            match all_some articles with
            | Some articles =>
                let usArticles := filter us_source articles in
                let articlesToUse :=
                  if (5 <? length usArticles)%nat then usArticles
                  else articles in
                mapi (fun article index =>
                  {| na_id := "gdelt-" ++ nat_to_string index;
                     na_title := str_or (ga_title article) "Breaking News";
                     na_source := str_or (ga_domain article) "GDELT";
                     na_url := ga_url article;
                     na_time := str_or (ga_seendate article) (isoNow clk);
                     na_imageUrl :=
                       if truthy_str (ga_socialimage article)
                       then ga_socialimage article else None;
                     na_sentiment := analyzeSentimentBasic (ga_title article);
                     na_location := extractLocation (ga_title article);
                     na_category := "breaking";
                     na_country := str_or (ga_sourcecountry article) "Unknown" |})
                  (slice0 20 articlesToUse)
            | None => []
            end
        | _ => []
        end
      else []
  | _ => []
  end.
End GdeltNews.

End Server.

(* ================================================================== *)
(** ** services/dataService.ts *)
(* ================================================================== *)

Module Client.
Import Js.

(** The [Incident] and [Camera] values the browser holds, with the
    properties the local analysis reads.  A coordinate that is absent,
    [null] or [NaN] is [None]: the three are falsy alike. *)
Record Incident : Type := mkIncident {
  lat : option Q;
  lng : option Q
}.

Record Camera : Type := mkCamera {
  cam_lat : option Q;
  cam_lng : option Q;
  viewers : option Q
}.

Record Cluster : Type := mkCluster {
  cl_incidents : list Incident;
  cl_cameras : list Camera;
  cl_lat : Q;
  cl_lng : Q
}.

(** [clusters] *)
Definition Clusters : Type := dict Cluster.

Definition fresh_cluster (lat lng : Q) : Cluster :=
  {| cl_incidents := []; cl_cameras := []; cl_lat := lat; cl_lng := lng |}.

Definition add_incident (m : Clusters) (inc : Incident) : Clusters :=
  match Server.located (lat inc) (lng inc) with
  | Some (la, ln) =>
      let key := Server.cluster_key la ln in
      update key
        (fun c =>
           {| cl_incidents := cl_incidents c ++ [inc];
              cl_cameras := cl_cameras c;
              cl_lat := cl_lat c;
              cl_lng := cl_lng c |})
        (ensure key (fresh_cluster la ln) m)
  | None => m
  end.

Definition add_camera (m : Clusters) (cam : Camera) : Clusters :=
  match Server.located (cam_lat cam) (cam_lng cam) with
  | Some (la, ln) =>
      let key := Server.cluster_key la ln in
      update key
        (fun c =>
           {| cl_incidents := cl_incidents c;
              cl_cameras := cl_cameras c ++ [cam];
              cl_lat := cl_lat c;
              cl_lng := cl_lng c |})
        (ensure key (fresh_cluster la ln) m)
  | None => m
  end.

(** [cameras.filter(c => c.viewers > 50)] *)
Definition trending_cameras (cameras : list Camera) : list Camera :=
  filter (fun c => Server.trending (viewers c)) cameras.

Definition build_clusters (incidents : list Incident) (cameras : list Camera)
  : Clusters :=
  fold_left add_camera (trending_cameras cameras)
    (fold_left add_incident incidents []).

Record Hotspot : Type := mkHotspot {
  h_lat : Q;
  h_lng : Q;
  intensity : Q;
  h_description : string;
  incidentCount : nat;
  cameraCount : nat
}.

(** [Math.min(100, incidents.length * 20 + cameras.length * 10)] *)
Definition cluster_intensity (cluster : Cluster) : Q :=
  Qmin 100
    (inject_Z (Z.of_nat (length (cl_incidents cluster) * 20
                         + length (cl_cameras cluster) * 10))).

Definition hotspot_of (cluster : Cluster) : Hotspot :=
  {| h_lat := cl_lat cluster;
     h_lng := cl_lng cluster;
     intensity := cluster_intensity cluster;
     h_description :=
       nat_to_string (length (cl_incidents cluster)) ++ " incidents, "
       ++ nat_to_string (length (cl_cameras cluster)) ++ " trending cameras";
     incidentCount := length (cl_incidents cluster);
     cameraCount := length (cl_cameras cluster) |}.

(** A cluster is pushed when its intensity exceeds 20. *)
Definition to_hotspots (m : Clusters) : list Hotspot :=
  flat_map (fun kc =>
              if Qltb 20 (cluster_intensity (snd kc))
              then [hotspot_of (snd kc)] else []) m.

Definition by_intensity (a b : Hotspot) : Q := intensity b - intensity a.

Definition ranked (incidents : list Incident) (cameras : list Camera)
  : list Hotspot :=
  sort by_intensity (to_hotspots (build_clusters incidents cameras)).

Record AnalysisResult : Type := mkAnalysisResult {
  hotspots : list Hotspot;
  correlations : list Server.Correlation;
  threatLevel : string;
  summary : string;
  analyzedAt : string
}.

Definition performLocalAnalysis (clk : Server.Clock)
  (incidents : list Incident) (cameras : list Camera) : AnalysisResult :=
  let hotspots := ranked incidents cameras in
  {| hotspots := slice0 15 hotspots;
     correlations := [];
     threatLevel := if (5 <? length hotspots)%nat then "medium" else "low";
     summary :=
       "Identified " ++ nat_to_string (length hotspots)
       ++ " potential hotspots based on incident and camera activity.";
     analyzedAt := Server.isoNow clk |}.

(** Outcome of the POST to [/analyze-hotspots]: a rejection, or a
    response with its [ok] flag and its parsed body ([None] when
    [response.json()] rejects). *)
Inductive Posted (Json : Type) : Type :=
| PostRejected
| PostResponse (ok : bool) (json : option Json).
Arguments PostRejected {Json}.
Arguments PostResponse {Json} ok json.

Definition analyzeHotspots {Json : Type} (clk : Server.Clock)
  (posted : Posted Json) (incidents : list Incident) (cameras : list Camera)
  : Json + AnalysisResult :=
  match posted with
  | PostResponse true (Some analysis) => inl analysis
  | _ => inr (performLocalAnalysis clk incidents cameras)
  end.

Definition criticalTerms : list string :=
  ["fire"; "shooting"; "weapon"; "gas leak"; "explosion"; "emergency";
   "assault"].

Definition calculatePriority (item : Server.NYC311Row) : Z :=
  let t := toLowerCase (str_or (Server.nyc_complaint_type item) "") in
  let d := toLowerCase (str_or (Server.nyc_descriptor item) "") in
  let score := 50%Z in
  let score := if some_in2 criticalTerms t d then (score + 40)%Z else score in
  let score :=
    if str_is (Server.nyc_status item) "Open" then (score + 10)%Z
    else score in
  Z.min score 100.

Definition critical : list string :=
  ["homicide"; "criminal sexual assault"; "robbery"; "kidnapping"; "arson"].
Definition high : list string :=
  ["battery"; "burglary"; "motor vehicle theft"; "weapons violation"].

Definition calculateChicagoCrimePriority (crime : Server.ChiCrimeRow) : Z :=
  let type := toLowerCase (str_or (Server.crime_primary_type crime) "") in
  let priority :=
    if some_in critical type then 95%Z
    else if some_in high type then 75%Z
    else 50%Z in
  Z.min priority 100.


(** *** Fallback adapters, used when the back end cannot be reached *)

(** [const data = await response.json(); return data.map(...)] inside
    [try]: the status is not looked at, and whatever throws (a rejection,
    a body that is not JSON, a value without [map], a [null] element)
    ends in [return []]. *)
Definition rows_of {R : Type} (f : Server.Fetched R) : option (list R) :=
  match f with
  | Server.Response _ (Server.Rows data) => Server.all_some data
  | _ => None
  end.

Record NYCCamFallbackRow : Type := mkNYCCamFallbackRow {
  fcam_cam_id : option string;
  fcam_location : option string;
  fcam_borough : option string;
  fcam_latitude : option string;
  fcam_longitude : option string
}.

Record FallbackCamera : Type := mkFallbackCamera {
  fb_cam_id : option string;
  fb_cam_name : option string;
  fb_cam_location : option string;
  fb_cam_lat : jsnum;
  fb_cam_lng : jsnum;
  fb_cam_viewers : Z
}.

Definition fetchNYCCamerasFallback (rnd : nat -> Q)
  (r : Server.Fetched NYCCamFallbackRow) : list FallbackCamera :=
  match rows_of r with
  | None => []
  | Some data =>
      mapi (fun cam index =>
        {| fb_cam_id := fcam_cam_id cam;
           fb_cam_name := fcam_location cam;
           fb_cam_location := fcam_borough cam;
           fb_cam_lat := parseFloat (fcam_latitude cam);
           fb_cam_lng := parseFloat (fcam_longitude cam);
           fb_cam_viewers := Math_floor (rnd index * 80) |}) data
  end.

Record FallbackIncident : Type := mkFallbackIncident {
  fb_id : option string;
  fb_title : option string;
  fb_lat : jsnum;
  fb_lng : jsnum;
  fb_source : string;
  fb_category : option string;
  fb_priority : Z
}.

(** [(i: any) => i.lat && i.lng] *)
Definition fb_has_coords (i : FallbackIncident) : bool :=
  truthy (fb_lat i) && truthy (fb_lng i).

Definition fetchChicagoFallback (r : Server.Fetched Server.ChiCrimeRow)
  : list FallbackIncident :=
  match rows_of r with
  | None => []
  | Some data =>
      filter fb_has_coords
        (map (fun item =>
           {| fb_id := Server.crime_id item;
              fb_title := Server.crime_primary_type item;
              fb_lat := or_num (parseFloat (Server.crime_latitude item)) 41.8781;
              fb_lng := or_num (parseFloat (Server.crime_longitude item))
                          (-87.6298);
              fb_source := "Chicago PD";
              fb_category := Server.crime_primary_type item;
              fb_priority := calculateChicagoCrimePriority item |}) data)
  end.

Definition determineCategory (type : option string) : string :=
  match type with
  | Some (String c r) =>
      let t := toLowerCase (String c r) in
      if includes t "fire" || includes t "smoke" then "fire"
      else if includes t "police" || includes t "assault"
              || includes t "shooting" || includes t "illegal" then "police"
      else if includes t "traffic" || includes t "accident"
              || includes t "vehicle" then "traffic"
      else if includes t "medical" || includes t "ambulance" then "medical"
      else if includes t "utility" || includes t "electric"
              || includes t "gas" then "utility"
      else "other"
  | _ => "other"
  end.

Definition fetchNYC311Fallback (r : Server.Fetched Server.NYC311Row)
  : list FallbackIncident :=
  match rows_of r with
  | None => []
  | Some data =>
      map (fun item =>
        {| fb_id := Server.nyc_unique_key item;
           fb_title := Server.nyc_complaint_type item;
           fb_lat := or_num (parseFloat (Server.nyc_latitude item)) 40.7128;
           fb_lng := or_num (parseFloat (Server.nyc_longitude item)) (-74.0060);
           fb_source := "NYC 311";
           fb_category :=
             Some (determineCategory (Server.nyc_complaint_type item));
           fb_priority := calculatePriority item |}) data
  end.


(** *** Relative times *)

(** A positive integer in a template literal. *)
Definition Z_to_string (z : Z) : string := nat_to_string (Z.to_nat z).

(** [now.getTime() - date.getTime()] is [NaN] for an invalid date; every
    comparison with it is false and the last template prints it. *)
Definition formatTimeAgo (clk : Server.Clock) (dateString : option string)
  : string :=
  match dateString with
  | Some (String c r) =>
      match Server.parseDate clk (String c r) with
      | Some t =>
          let diffMs := (Server.now clk - t)%Z in
          let diffMins := (diffMs / 60000)%Z in
          if (diffMins <? 1)%Z then "Just now"
          else if (diffMins <? 60)%Z then Z_to_string diffMins ++ "m ago"
          else
            let diffHours := (diffMins / 60)%Z in
            if (diffHours <? 24)%Z then Z_to_string diffHours ++ "h ago"
            else
              let diffDays := (diffHours / 24)%Z in
              Z_to_string diffDays ++ "d ago"
      | None => "NaNd ago"
      end
  | _ => "Unknown"
  end.

End Client.

(* ================================================================== *)
(** ** Vocabulary of the properties *)
(* ================================================================== *)

Module Spec.
Import Js.

(** A list in descending order of [key]. *)
Definition descending {A : Type} (key : A -> Q) (l : list A) : Prop :=
  StronglySorted (fun a b => key b <= key a) l.

(** The mean of a list of numbers, [0] for the empty list. *)
Definition total (l : list Q) : Q := fold_right Qplus 0 l.

Definition mean (l : list Q) : Q :=
  match l with
  | [] => 0
  | _ :: _ => total l / inject_Z (Z.of_nat (length l))
  end.

(** The sum and the mean of a list of doubles as double arithmetic gives
    them: added up from the left, every partial sum and the final
    quotient rounded to the nearest double. *)
Definition sum_in_doubles (l : list Q) : Q :=
  fold_left (fun sum x => to_double (sum + x)) l 0.

Definition mean_in_doubles (l : list Q) : Q :=
  match l with
  | [] => 0
  | _ :: _ => to_double (sum_in_doubles l / inject_Z (Z.of_nat (length l)))
  end.

(** The threat level for an average: "high" above 70, "medium" above 40,
    "low" otherwise. *)
Definition threat_by (average : Q) : string :=
  match Qcompare average 70 with
  | Gt => "high"
  | _ => match Qcompare average 40 with
         | Gt => "medium"
         | _ => "low"
         end
  end.

(** The threat level of section 4.2, step 6: "high" for a mean above 70,
    "medium" for a mean above 40, "low" otherwise. *)
Definition threat_by_mean (intensities : list Q) : string :=
  match Qcompare (mean intensities) 70 with
  | Gt => "high"
  | _ => match Qcompare (mean intensities) 40 with
         | Gt => "medium"
         | _ => "low"
         end
  end.

(** A record that takes part in the clustering, as the key of its grid
    cell and its own coordinates; nothing for a record without truthy
    coordinates. *)
Definition record_of (lat lng : option Q) : list (string * (Q * Q)) :=
  match Server.located lat lng with
  | Some (la, ln) => [(Server.cluster_key la ln, (la, ln))]
  | None => []
  end.

(** The records of a request in the order the server assigns them to
    cells: the located incidents, then the located cameras with more
    than 50 viewers. *)
Definition server_records (incidents : list (option Server.IncidentIn))
  (cameras : list (option Server.CameraIn)) : list (string * (Q * Q)) :=
  (flat_map (fun o =>
               match o with
               | Some inc => record_of (Server.in_lat inc) (Server.in_lng inc)
               | None => []
               end) incidents
   ++ flat_map (fun o =>
                  match o with
                  | Some cam =>
                      if Server.trending (Server.cin_viewers cam)
                      then record_of (Server.cin_lat cam) (Server.cin_lng cam)
                      else []
                  | None => []
                  end) cameras)%list.

(** The same for the analysis in the browser. *)
Definition client_records (incidents : list Client.Incident)
  (cameras : list Client.Camera) : list (string * (Q * Q)) :=
  (flat_map (fun inc => record_of (Client.lat inc) (Client.lng inc)) incidents
   ++ flat_map (fun cam =>
                  if Server.trending (Client.viewers cam)
                  then record_of (Client.cam_lat cam) (Client.cam_lng cam)
                  else []) cameras)%list.

(** The coordinates of the first record assigned to the cell [key]. *)
Definition first_in_cell (key : string) (records : list (string * (Q * Q)))
  : option (Q * Q) :=
  option_map snd (find (fun r => String.eqb (fst r) key) records).

(** The cells [m] built from [records]: every cell carries the
    coordinates [coords] of the first record with its key, and a key
    without a cell has no record. *)
Definition cells_agree {C : Type} (coords : C -> Q * Q)
  (records : list (string * (Q * Q))) (m : dict C) : Prop :=
  (forall k c, In (k, c) m -> first_in_cell k records = Some (coords c))
  /\ (forall k, lookup k m = None -> first_in_cell k records = None).

(** The coordinates a cluster was created with. *)
Definition server_coords (c : Server.Cluster) : Q * Q :=
  (Server.cl_lat c, Server.cl_lng c).

Definition client_coords (c : Client.Cluster) : Q * Q :=
  (Client.cl_lat c, Client.cl_lng c).

(** A text property that is absent or empty. *)
Definition empty_text (o : option string) : Prop := str_or o "" = "".

(** The crime carries a date that lies within the last hour. *)
Definition dated_within_last_hour (clk : Server.Clock)
  (crime : Server.ChiCrimeRow) : bool :=
  match Server.crime_date crime with
  | Some date => truthy_str (Some date) && Server.within_last_hour clk date
  | None => false
  end.

(** No JSON object is parsed from [text]: whatever the brace pattern
    extracts is rejected by [JSON.parse]. *)
Definition no_parsable_object {Json : Type}
  (JSON_parse : string -> option Json) (text : string) : Prop :=
  forall m, match_braces text = Some m -> JSON_parse m = None.

(** The generative model gives no analysis: it is not configured, a call
    on it throws, or its text holds no parsable JSON object. *)
Definition model_unavailable {Json : Type}
  (JSON_parse : string -> option Json) (key : option string)
  (calls : Server.Generated) : Prop :=
  Server.gemini_configured key = false
  \/ calls = Server.GenThrows
  \/ exists text, calls = Server.GenText text
                  /\ no_parsable_object JSON_parse text.

(** The three lists of a request, [[]] for one that is missing. *)
Definition request_incidents (body : option Server.AnalyzeBody)
  : list (option Server.IncidentIn) :=
  match body with
  | Some b => Server.or_empty (Server.body_incidents b)
  | None => []
  end.

Definition request_cameras (body : option Server.AnalyzeBody)
  : list (option Server.CameraIn) :=
  match body with
  | Some b => Server.or_empty (Server.body_cameras b)
  | None => []
  end.

Definition request_news (body : option Server.AnalyzeBody)
  : list (option Server.NewsIn) :=
  match body with
  | Some b => Server.or_empty (Server.body_news b)
  | None => []
  end.

(** An incident record with both coordinates: numbers that are neither
    [NaN] nor zero. *)
Definition located_incident (i : Server.Incident) : Prop :=
  exists x y, Server.lat i = Some x /\ Server.lng i = Some y
              /\ truthy x = true /\ truthy y = true.

(** The same for a camera record. *)
Definition located_camera (c : Server.Camera) : Prop :=
  truthy (Server.cam_lat c) = true /\ truthy (Server.cam_lng c) = true.

(** The same for a record of a fallback adapter of the browser. *)
Definition located_fallback (i : Client.FallbackIncident) : Prop :=
  truthy (Client.fb_lat i) = true /\ truthy (Client.fb_lng i) = true.

(** The coordinates of a record. *)
Definition incident_coordinates (i : Server.Incident)
  : option jsnum * option jsnum := (Server.lat i, Server.lng i).

Definition camera_coordinates (c : Server.Camera) : jsnum * jsnum :=
  (Server.cam_lat c, Server.cam_lng c).

Definition fallback_coordinates (i : Client.FallbackIncident)
  : jsnum * jsnum := (Client.fb_lat i, Client.fb_lng i).

(** The latitude and the longitude text of a row both parse to a number
    that is neither [NaN] nor zero. *)
Definition texts_locate (lat lng : option string) : bool :=
  truthy (parseFloat lat) && truthy (parseFloat lng).

(** What a feed whose rows without coordinates are filtered out gives, as
    coordinates: those parsed from the rows that have both, in the order
    of the rows. *)
Definition kept_coordinates {R : Type} (lat lng : R -> option string)
  (data : list R) : list (option jsnum * option jsnum) :=
  map (fun row => (Some (parseFloat (lat row)), Some (parseFloat (lng row))))
    (filter (fun row => texts_locate (lat row) (lng row)) data).

(** What a feed whose rows without coordinates are put at a default
    position gives: one position for each row. *)
Definition defaulted_coordinates {R : Type} (lat lng : R -> option string)
  (default_lat default_lng : Q) (data : list R) : list (jsnum * jsnum) :=
  map (fun row => (or_num (parseFloat (lat row)) default_lat,
                   or_num (parseFloat (lng row)) default_lng)) data.

(** The body of an ArcGIS feed with the given attributes and
    geometries. *)
Definition features_body {A : Type}
  (features : list (A * option Server.Geometry))
  : Server.Fetched (Server.Feature A) :=
  Server.Response true
    (Server.Rows
       (map (fun f => Some (Server.mkFeature (Some (fst f)) (snd f)))
          features)).

(** The same for an ArcGIS feed: the positions [(y, x)] of the features
    whose geometry has an [x] and a [y] that are not zero. *)
Definition kept_geometries {A : Type}
  (features : list (A * option Server.Geometry))
  : list (option jsnum * option jsnum) :=
  flat_map (fun f =>
              match snd f with
              | Some g =>
                  if truthyQ (Server.geom_x g) && truthyQ (Server.geom_y g)
                  then [(option_map Fin (Server.geom_y g),
                         option_map Fin (Server.geom_x g))]
                  else []
              | None => []
              end) features.

(** [field] mentions [keyword], whatever the case of [field]. *)
Definition mentions (field : option string) (keyword : string) : bool :=
  includes (toLowerCase (str_or field "")) keyword.

(** How many of [words] occur in [text]. *)
Definition hits (text : string) (words : list string) : nat :=
  length (filter (includes text) words).

(** The values [Math.random()] returns lie in [0, 1). *)
Definition unit_interval (rnd : nat -> Q) : Prop :=
  forall i, 0 <= rnd i /\ rnd i < 1.

(** The body the feed of an adapter answers with holds a [null] row (for
    the ArcGIS feeds: a [null] feature, or one without [attributes]). *)
Definition null_row {R : Type} (f : Server.Fetched R) : Prop :=
  exists ok data, f = Server.Response ok (Server.Rows data) /\ In None data.

Definition null_feature {A : Type} (f : Server.Fetched (Server.Feature A))
  : Prop :=
  exists ok data,
    f = Server.Response ok (Server.Rows data)
    /\ (In None data
        \/ exists feature, In (Some feature) data
                           /\ Server.attributes feature = None).

Definition feed_has_null_row (w : Server.Upstream) (a : Server.Adapter)
  : Prop :=
  match a with
  | Server.NYC311 => null_row (Server.up_nyc311 w)
  | Server.Chi311 => null_row (Server.up_chi311 w)
  | Server.ChiCrimes => null_row (Server.up_crimes w)
  | Server.ChiCrashes => null_row (Server.up_crashes w)
  | Server.ChiSpeed => null_row (Server.up_speed w)
  | Server.ChiRedLight => null_row (Server.up_redlight w)
  | Server.ChiShots => null_row (Server.up_shots w)
  | Server.ChiBldg => null_row (Server.up_bldg w)
  | Server.EvCrimes => null_feature (Server.up_evcrimes w)
  | Server.EvShots => null_feature (Server.up_evshots w)
  end.

(** The [source] tags of the Chicago and of the Evansville adapters. *)
Definition chicago_sources : list string :=
  ["Chicago PD"; "Chicago DOT"; "Chicago 311"; "ShotSpotter (Historical)";
   "Chicago Speed Cameras"; "Chicago Red Light Cameras"; "Chicago Buildings"].

Definition evansville_sources : list string :=
  ["Evansville PD"; "Evansville 911"].

(** The incidents of a request that fall into the cell [key], in request
    order: those with truthy coordinates whose key is [key]. *)
Definition cell_incidents (key : string)
  (incidents : list (option Server.IncidentIn)) : list Server.IncidentIn :=
  flat_map (fun o =>
              match o with
              | Some inc =>
                  match Server.located (Server.in_lat inc) (Server.in_lng inc)
                  with
                  | Some (la, ln) =>
                      if String.eqb (Server.cluster_key la ln) key
                      then [inc] else []
                  | None => []
                  end
              | None => []
              end) incidents.

(** The cameras of a request that fall into the cell [key]: those with
    truthy coordinates and more than 50 viewers whose key is [key]. *)
Definition cell_cameras (key : string)
  (cameras : list (option Server.CameraIn)) : list Server.CameraIn :=
  flat_map (fun o =>
              match o with
              | Some cam =>
                  match Server.located (Server.cin_lat cam)
                          (Server.cin_lng cam) with
                  | Some (la, ln) =>
                      if Server.trending (Server.cin_viewers cam)
                         && String.eqb (Server.cluster_key la ln) key
                      then [cam] else []
                  | None => []
                  end
              | None => []
              end) cameras.

(** The numbers added to the total of the cell [key], in the order in
    which they are added: the priorities of its incidents (50 for one
    without a priority), then the viewers of its cameras. *)
Definition cell_weights (key : string)
  (incidents : list (option Server.IncidentIn))
  (cameras : list (option Server.CameraIn)) : list Q :=
  (map (fun inc => Server.or_50 (Server.in_priority inc))
     (cell_incidents key incidents)
   ++ map Server.viewers_of (cell_cameras key cameras))%list.

(** A total as [+=] accumulates it from 0 in double arithmetic. *)
Definition running_total (weights : list Q) : jsnum :=
  fold_left (fun total w => add total (Fin w)) weights (Fin 0).

Definition cell_total (key : string)
  (incidents : list (option Server.IncidentIn))
  (cameras : list (option Server.CameraIn)) : jsnum :=
  running_total (cell_weights key incidents cameras).

(** The level of the cell [key]: its total divided by the number of its
    records plus one, in double arithmetic, cut at 100. *)
Definition cell_level (key : string)
  (incidents : list (option Server.IncidentIn))
  (cameras : list (option Server.CameraIn)) : jsnum :=
  Math_min 100
    (div_count (cell_total key incidents cameras)
       (length (cell_incidents key incidents)
        + length (cell_cameras key cameras) + 1)).

(** The clusters [m] group the records of [incidents] and [cameras] by
    cell: one cluster per key, holding exactly the records of its cell
    and their running total, and no cell with a record is missing. *)
Definition grouped (incidents : list (option Server.IncidentIn))
  (cameras : list (option Server.CameraIn)) (m : Server.Clusters) : Prop :=
  NoDup (map fst m)
  /\ (forall k c, In (k, c) m ->
        Server.cl_incidents c = cell_incidents k incidents
        /\ Server.cl_cameras c = cell_cameras k cameras
        /\ Server.totalPriority c = cell_total k incidents cameras)
  /\ (forall k, lookup k m = None ->
        cell_incidents k incidents = [] /\ cell_cameras k cameras = []).

(** The character [c] occurs in [s]. *)
Fixpoint occurs (c : ascii) (s : string) : bool :=
  match s with
  | EmptyString => false
  | String a r => Ascii.eqb a c || occurs c r
  end.

(** The position [(lat, lng)] is truthy and rounds to the cell [key]. *)
Definition in_cell (key : string) (lat lng : option Q) : bool :=
  match Server.located lat lng with
  | Some (la, ln) => String.eqb (Server.cluster_key la ln) key
  | None => false
  end.

(** The records of [l] in the cell [key], in the order of [l]. *)
Definition cell_of {A : Type} (lat lng : A -> option Q) (key : string)
  (l : list A) : list A :=
  filter (fun x => in_cell key (lat x) (lng x)) l.

(** The incidents and the trending cameras the browser counts for the
    cell [key]. *)
Definition client_cell_incidents (key : string)
  (incidents : list Client.Incident) : list Client.Incident :=
  cell_of Client.lat Client.lng key incidents.

Definition client_cell_cameras (key : string) (cameras : list Client.Camera)
  : list Client.Camera :=
  cell_of Client.cam_lat Client.cam_lng key (Client.trending_cameras cameras).

(** The clusters [m] of the browser group [incidents] and the cameras
    [assigned] by cell. *)
Definition client_grouped (incidents : list Client.Incident)
  (assigned : list Client.Camera) (m : Client.Clusters) : Prop :=
  NoDup (map fst m)
  /\ (forall k c, In (k, c) m ->
        Client.cl_incidents c = cell_of Client.lat Client.lng k incidents
        /\ Client.cl_cameras c
           = cell_of Client.cam_lat Client.cam_lng k assigned)
  /\ (forall k, lookup k m = None ->
        cell_of Client.lat Client.lng k incidents = []
        /\ cell_of Client.cam_lat Client.cam_lng k assigned = []).

(** What a news article shows of the article it was made from, and what
    an article received from GDELT gives for it: title, source, url, time
    and country, with the stand-ins for what is missing. *)
Definition shown (n : Server.NewsArticle)
  : string * string * option string * string * string :=
  (Server.na_title n, Server.na_source n, Server.na_url n, Server.na_time n,
   Server.na_country n).

Definition received (clk : Server.Clock) (a : Server.GdeltArticle)
  : string * string * option string * string * string :=
  (str_or (Server.ga_title a) "Breaking News",
   str_or (Server.ga_domain a) "GDELT",
   Server.ga_url a,
   str_or (Server.ga_seendate a) (Server.isoNow clk),
   str_or (Server.ga_sourcecountry a) "Unknown").

End Spec.

(* ================================================================== *)
(** ** Facts about the primitives *)
(* ================================================================== *)

Module JsFacts.
Import Js Spec.

Lemma Qltb_lt (x y : Q) : Qltb x y = true <-> x < y.
Proof.
  unfold Qltb. rewrite negb_true_iff. split.
  - intros H. apply Qnot_le_lt. intros Hle.
    apply Qle_bool_iff in Hle. congruence.
  - intros H. destruct (Qle_bool y x) eqn:E; [|reflexivity].
    apply Qle_bool_iff in E. exfalso. exact (Qlt_not_le _ _ H E).
Qed.

Lemma Qltb_ge (x y : Q) : Qltb x y = false <-> y <= x.
Proof.
  unfold Qltb. rewrite negb_false_iff. apply Qle_bool_iff.
Qed.

Section SortFacts.
Context {A : Type} (cmp : A -> A -> Q) (key : A -> Q).
Hypothesis cmp_key : forall x y, cmp x y == key y - key x.

Lemma insert_perm (x : A) (l : list A) :
  Permutation (insert cmp x l) (x :: l).
Proof.
  induction l as [|y t IH]; simpl.
  - apply Permutation_refl.
  - destruct (Qle_bool (cmp x y) 0).
    + apply Permutation_refl.
    + eapply perm_trans; [apply perm_skip, IH | apply perm_swap].
Qed.

Lemma sort_perm (l : list A) : Permutation (sort cmp l) l.
Proof.
  induction l as [|x t IH]; simpl.
  - apply perm_nil.
  - eapply perm_trans; [apply insert_perm | apply perm_skip, IH].
Qed.

Lemma sort_In (l : list A) (x : A) : In x (sort cmp l) <-> In x l.
Proof.
  split; apply Permutation_in;
    [apply sort_perm | apply Permutation_sym, sort_perm].
Qed.

Lemma sort_length (l : list A) : length (sort cmp l) = length l.
Proof. apply Permutation_length, sort_perm. Qed.

Lemma cmp_le (x y : A) : Qle_bool (cmp x y) 0 = true <-> key y <= key x.
Proof.
  rewrite Qle_bool_iff, cmp_key. split; intros H.
  - apply Qle_minus_iff in H.
    apply Qle_minus_iff.
    setoid_replace (key x + - key y) with (0 + - (key y - key x)) by ring.
    exact H.
  - apply Qle_minus_iff.
    apply Qle_minus_iff in H.
    setoid_replace (0 + - (key y - key x)) with (key x + - key y) by ring.
    exact H.
Qed.

Lemma insert_descending (x : A) (l : list A) :
  descending key l -> descending key (insert cmp x l).
Proof.
  unfold descending. induction l as [|y t IH]; simpl; intros Hs.
  - constructor; [constructor | constructor].
  - inversion Hs as [|? ? Ht Hy]; subst.
    destruct (Qle_bool (cmp x y) 0) eqn:E.
    + apply cmp_le in E. constructor; [exact Hs|].
      constructor; [exact E|].
      eapply Forall_impl; [|exact Hy].
      intros z Hz. simpl in Hz. eapply Qle_trans; eassumption.
    + constructor; [apply IH, Ht|].
      eapply Permutation_Forall;
        [apply Permutation_sym, insert_perm|].
      constructor; [|exact Hy].
      destruct (Qlt_le_dec (key x) (key y)) as [Hlt|Hge].
      * apply Qlt_le_weak, Hlt.
      * apply cmp_le in Hge. congruence.
Qed.

Lemma sort_descending (l : list A) : descending key (sort cmp l).
Proof.
  induction l as [|x t IH]; simpl.
  - constructor.
  - apply insert_descending, IH.
Qed.
End SortFacts.

Lemma descending_slice0 {A : Type} (key : A -> Q) (n : nat) (l : list A) :
  descending key l -> descending key (slice0 n l).
Proof.
  unfold descending, slice0. revert n.
  induction l as [|x t IH]; intros [|n] Hs; simpl; try constructor.
  - inversion Hs; subst. apply IH. assumption.
  - inversion Hs as [|? ? _ Hx]; subst.
    rewrite Forall_forall in *. intros z Hz. apply Hx.
    revert Hz. clear. revert n.
    induction t as [|y t IH]; intros [|n]; simpl; try tauto.
    intros [->|H]; [now left | right; eapply IH, H].
Qed.

Lemma In_slice0 {A : Type} (n : nat) (l : list A) (x : A) :
  In x (slice0 n l) -> In x l.
Proof.
  unfold slice0. revert n. induction l as [|y t IH]; intros [|n]; simpl; try tauto.
  intros [->|H]; [now left | right; eapply IH, H].
Qed.

Lemma Forall_slice0 {A : Type} (P : A -> Prop) (n : nat) (l : list A) :
  Forall P l -> Forall P (slice0 n l).
Proof.
  rewrite !Forall_forall. intros H x Hx. apply H. eapply In_slice0, Hx.
Qed.

Lemma length_slice0 {A : Type} (n : nat) (l : list A) :
  (length (slice0 n l) <= n)%nat.
Proof. unfold slice0. apply firstn_le_length. Qed.

Lemma Forall_sort {A : Type} (cmp : A -> A -> Q) (P : A -> Prop)
  (l : list A) : Forall P l -> Forall P (sort cmp l).
Proof.
  apply Permutation_Forall, Permutation_sym, sort_perm.
Qed.

End JsFacts.

(* ================================================================== *)
(** ** Priority Scorer: range of the scores *)
(* ================================================================== *)

Module ScorerFacts.
Import Js.

Lemma add_per_term_ge (text : string) (inc : Z) (terms : list string) :
  (0 <= inc)%Z ->
  forall p, (p <= Server.add_per_term text inc terms p)%Z.
Proof.
  intros Hinc. unfold Server.add_per_term.
  induction terms as [|t ts IH]; intros p; simpl.
  - lia.
  - destruct (includes text t); [|apply IH].
    specialize (IH (p + inc)%Z). lia.
Qed.

Lemma calculatePriority_range (incident : Server.NYC311Row) :
  (50 <= Server.calculatePriority incident <= 100)%Z.
Proof.
  unfold Server.calculatePriority.
  set (text := toLowerCase _).
  pose proof (add_per_term_ge text 40 Server.criticalTerms ltac:(lia) 50%Z) as H1.
  pose proof (add_per_term_ge text 20 Server.highTerms ltac:(lia)
                (Server.add_per_term text 40 Server.criticalTerms 50)) as H2.
  destruct (str_is _ _); lia.
Qed.

Lemma calculateChicagoCrimePriority_range (clk : Server.Clock)
  (crime : Server.ChiCrimeRow) :
  (50 <= Server.calculateChicagoCrimePriority clk crime <= 100)%Z.
Proof.
  unfold Server.calculateChicagoCrimePriority.
  destruct (some_in2 Server.chicago_critical _ _);
    [|destruct (some_in2 Server.chicago_high _ _);
      [|destruct (some_in2 Server.chicago_medium _ _)]];
    (destruct (Server.crime_date crime) as [[|c r]|];
     [|destruct (Server.within_last_hour clk _)|]); lia.
Qed.

Lemma calculateCrashPriority_range (crash : Server.ChiCrashRow) :
  (45 <= Server.calculateCrashPriority crash <= 100)%Z.
Proof.
  unfold Server.calculateCrashPriority.
  repeat match goal with
         | |- context [if ?b then _ else _] => destruct b
         end; lia.
Qed.

Lemma calculateEvansvilleCrimePriority_range (attrs : Server.EvCrimeAttrs) :
  (50 <= Server.calculateEvansvilleCrimePriority attrs <= 100)%Z.
Proof.
  unfold Server.calculateEvansvilleCrimePriority.
  repeat match goal with
         | |- context [if ?b then _ else _] => destruct b
         end; lia.
Qed.

Lemma client_calculatePriority_range (item : Server.NYC311Row) :
  (50 <= Client.calculatePriority item <= 100)%Z.
Proof.
  unfold Client.calculatePriority.
  repeat match goal with
         | |- context [if ?b then _ else _] => destruct b
         end; lia.
Qed.

Lemma client_calculateChicagoCrimePriority_range (crime : Server.ChiCrimeRow) :
  (50 <= Client.calculateChicagoCrimePriority crime <= 100)%Z.
Proof.
  unfold Client.calculateChicagoCrimePriority.
  repeat match goal with
         | |- context [if ?b then _ else _] => destruct b
         end; lia.
Qed.

(** On empty texts no keyword of any table matches. *)
Lemma blank_text_matches_nothing :
  (forall inc p, Server.add_per_term " " inc Server.criticalTerms p = p)
  /\ (forall inc p, Server.add_per_term " " inc Server.highTerms p = p)
  /\ some_in2 Client.criticalTerms "" "" = false
  /\ some_in2 Server.chicago_critical "" "" = false
  /\ some_in2 Server.chicago_high "" "" = false
  /\ some_in2 Server.chicago_medium "" "" = false
  /\ some_in2 Server.evansville_critical "" "" = false
  /\ some_in2 Server.evansville_high "" "" = false
  /\ some_in2 Server.evansville_medium "" "" = false
  /\ some_in Client.critical "" = false
  /\ some_in Client.high "" = false.
Proof.
  repeat split; intros; vm_compute; reflexivity.
Qed.

Lemma toLowerCase_blank :
  toLowerCase ("" ++ " " ++ "") = " " /\ toLowerCase "" = "".
Proof. split; reflexivity. Qed.

End ScorerFacts.

(* ================================================================== *)
(** ** Hotspot Clusterer: shape of the ranked list *)
(* ================================================================== *)

Module ClustererFacts.
Import Js Spec JsFacts.

(** Every hotspot the server pushes has an intensity above 30 and at
    most 100. *)
Lemma gt_Math_min (a q : Q) (x : jsnum) :
  gt (Math_min a x) q = true ->
  exists v, Math_min a x = Fin v /\ q < v /\ v <= a.
Proof.
  destruct x as [|[|]|v]; simpl; try discriminate; intros H.
  - exists a. split; [reflexivity|]. split; [apply Qltb_lt, H | apply Qle_refl].
  - exists (Qmin a v). split; [reflexivity|].
    split; [apply Qltb_lt, H | apply Q.le_min_l].
Qed.

(** A cluster that passes the test has a finite intensity. *)
Lemma pushed_intensity (c : Server.Cluster) :
  gt (Server.cluster_intensity c) 30 = true ->
  Server.cluster_intensity c = Fin (Server.intensity (Server.hotspot_of c))
  /\ 30 < Server.intensity (Server.hotspot_of c)
  /\ Server.intensity (Server.hotspot_of c) <= 100.
Proof.
  intros H. cbn [Server.hotspot_of Server.intensity].
  unfold Server.cluster_intensity in *.
  destruct (gt_Math_min _ _ _ H) as (v & -> & H1 & H2).
  repeat split; assumption.
Qed.

Lemma server_to_hotspots_range (m : Server.Clusters) :
  Forall (fun h => 30 < Server.intensity h /\ Server.intensity h <= 100)
    (Server.to_hotspots m).
Proof.
  unfold Server.to_hotspots.
  induction m as [|[k c] t IH]; cbn [flat_map snd].
  - constructor.
  - destruct (gt (Server.cluster_intensity c) 30) eqn:E.
    + constructor; [|exact IH]. apply (pushed_intensity c E).
    + exact IH.
Qed.

Lemma server_ranked_range (incidents : list (option Server.IncidentIn))
  (cameras : list (option Server.CameraIn)) :
  Forall (fun h => 30 < Server.intensity h /\ Server.intensity h <= 100)
    (Server.ranked incidents cameras).
Proof. apply Forall_sort, server_to_hotspots_range. Qed.

Lemma server_ranked_descending (incidents : list (option Server.IncidentIn))
  (cameras : list (option Server.CameraIn)) :
  descending Server.intensity (Server.ranked incidents cameras).
Proof.
  apply sort_descending. intros x y. reflexivity.
Qed.

(** Every hotspot the browser pushes has an intensity above 20 and at
    most 100. *)
Lemma client_to_hotspots_range (m : Client.Clusters) :
  Forall (fun h => 20 < Client.intensity h /\ Client.intensity h <= 100)
    (Client.to_hotspots m).
Proof.
  unfold Client.to_hotspots.
  induction m as [|[k c] t IH]; simpl.
  - constructor.
  - destruct (Qltb 20 (Client.cluster_intensity c)) eqn:E; simpl.
    + constructor; [|exact IH]. simpl. split.
      * apply Qltb_lt, E.
      * apply Q.le_min_l.
    + exact IH.
Qed.

Lemma client_ranked_range (incidents : list Client.Incident)
  (cameras : list Client.Camera) :
  Forall (fun h => 20 < Client.intensity h /\ Client.intensity h <= 100)
    (Client.ranked incidents cameras).
Proof. apply Forall_sort, client_to_hotspots_range. Qed.

Lemma client_ranked_descending (incidents : list Client.Incident)
  (cameras : list Client.Camera) :
  descending Client.intensity (Client.ranked incidents cameras).
Proof.
  apply sort_descending. intros x y. reflexivity.
Qed.

(** Every hotspot is the hotspot of one of the clusters. *)
Lemma server_to_hotspots_origin (m : Server.Clusters) :
  Forall (fun h => exists kc, In kc m /\ h = Server.hotspot_of (snd kc))
    (Server.to_hotspots m).
Proof.
  apply Forall_forall. intros h Hh. unfold Server.to_hotspots in Hh.
  apply in_flat_map in Hh. destruct Hh as [kc [Hin Hh]].
  exists kc. split; [exact Hin|].
  destruct (gt _ 30); simpl in Hh; [|tauto].
  destruct Hh as [->|[]]. reflexivity.
Qed.

Lemma client_to_hotspots_origin (m : Client.Clusters) :
  Forall (fun h => exists kc, In kc m /\ h = Client.hotspot_of (snd kc))
    (Client.to_hotspots m).
Proof.
  apply Forall_forall. intros h Hh. unfold Client.to_hotspots in Hh.
  apply in_flat_map in Hh. destruct Hh as [kc [Hin Hh]].
  exists kc. split; [exact Hin|].
  destruct (Qltb 20 _); simpl in Hh; [|tauto].
  destruct Hh as [->|[]]. reflexivity.
Qed.

Lemma Forall_and {A : Type} (P R : A -> Prop) (l : list A) :
  Forall P l -> Forall R l -> Forall (fun x => P x /\ R x) l.
Proof.
  rewrite !Forall_forall. intros HP HR x Hx. split; [apply HP | apply HR]; exact Hx.
Qed.

(** The average of [reduce] and the division is the mean in doubles. *)
Lemma fold_left_map_sum {A : Type} (f : A -> Q) (l : list A) (a : Q) :
  fold_left (fun sum h => to_double (sum + f h)) l a
  = fold_left (fun sum x => to_double (sum + x)) (map f l) a.
Proof.
  revert a. induction l as [|x t IH]; intros a; simpl; [reflexivity|].
  apply IH.
Qed.

Lemma avgIntensity_mean (hs : list Server.Hotspot) :
  Server.avgIntensity hs = mean_in_doubles (map Server.intensity hs).
Proof.
  unfold Server.avgIntensity, mean_in_doubles, sum_in_doubles.
  destruct hs as [|h t]; [reflexivity|].
  rewrite fold_left_map_sum, length_map. reflexivity.
Qed.

Lemma Qltb_compare (x y : Q) : Qltb x y = true <-> Qcompare y x = Gt.
Proof. rewrite Qltb_lt. apply Qgt_alt. Qed.

Lemma Qltb_compare_false (x y : Q) : Qltb x y = false -> Qcompare y x <> Gt.
Proof.
  intros H Hc. apply Qltb_compare in Hc. congruence.
Qed.

Lemma threat_of_by (avg : Q) : Server.threat_of avg = threat_by avg.
Proof.
  unfold Server.threat_of, threat_by.
  destruct (Qltb 70 avg) eqn:E70.
  - apply Qltb_compare in E70. rewrite E70. reflexivity.
  - apply Qltb_compare_false in E70.
    destruct (Qltb 40 avg) eqn:E40.
    + apply Qltb_compare in E40. rewrite E40.
      destruct (Qcompare avg 70); congruence.
    + apply Qltb_compare_false in E40.
      destruct (Qcompare avg 70); try congruence;
        destruct (Qcompare avg 40); congruence.
Qed.

(** The browser pushes one hotspot for each cluster above its threshold. *)
Lemma client_ranked_length (incidents : list Client.Incident)
  (cameras : list Client.Camera) :
  length (Client.ranked incidents cameras)
  = length (filter (fun kc => Qltb 20 (Client.cluster_intensity (snd kc)))
              (Client.build_clusters incidents cameras)).
Proof.
  unfold Client.ranked. rewrite sort_length. unfold Client.to_hotspots.
  induction (Client.build_clusters incidents cameras) as [|kc t IH]; simpl.
  - reflexivity.
  - destruct (Qltb 20 _); simpl; rewrite IH; reflexivity.
Qed.

(** *** The coordinates a cell carries *)

Section CellCoordinates.
Context {C : Type} (coords : C -> Q * Q).

Lemma first_in_cell_app (k : string) (r1 r2 : list (string * (Q * Q))) :
  first_in_cell k (r1 ++ r2)
  = match first_in_cell k r1 with
    | Some x => Some x
    | None => first_in_cell k r2
    end.
Proof.
  unfold first_in_cell. induction r1 as [|[k1 x1] t IH]; simpl.
  - reflexivity.
  - destruct (String.eqb k1 k); [reflexivity | exact IH].
Qed.

Lemma lookup_app (k : string) (m1 m2 : dict C) :
  lookup k (m1 ++ m2)%list
  = match lookup k m1 with
    | Some c => Some c
    | None => lookup k m2
    end.
Proof.
  induction m1 as [|[k1 c1] t IH]; simpl.
  - reflexivity.
  - destruct (String.eqb k1 k); [reflexivity | exact IH].
Qed.

Lemma lookup_update_None (k key : string) (f : C -> C) (m : dict C) :
  lookup k (update key f m) = None -> lookup k m = None.
Proof.
  induction m as [|[k1 c1] t IH]; simpl; [tauto|].
  destruct (String.eqb k1 key) eqn:E1; simpl;
    destruct (String.eqb k1 k) eqn:E2; try discriminate; auto.
Qed.

Lemma In_update (k key : string) (c : C) (f : C -> C) (m : dict C) :
  (forall c0, coords (f c0) = coords c0) ->
  In (k, c) (update key f m) ->
  exists c0, In (k, c0) m /\ coords c = coords c0.
Proof.
  intros Hf. induction m as [|[k1 c1] t IH]; simpl; [tauto|].
  destruct (String.eqb k1 key); simpl.
  - intros [H|H].
    + inversion H; subst. exists c1. split; [now left | apply Hf].
    + exists c. split; [now right | reflexivity].
  - intros [H|H].
    + inversion H; subst. exists c. split; [now left | reflexivity].
    + destruct (IH H) as [c0 [Hin Hc]]. exists c0. split; [now right | exact Hc].
Qed.

(** One record more: its cell is created from it when it is the first of
    its key, and no cell changes its coordinates. *)
Lemma cells_agree_step (records : list (string * (Q * Q))) (m : dict C)
  (key : string) (la ln : Q) (fresh : C) (f : C -> C) :
  (forall c0, coords (f c0) = coords c0) ->
  coords fresh = (la, ln) ->
  cells_agree coords records m ->
  cells_agree coords (records ++ [(key, (la, ln))])
    (update key f (ensure key fresh m)).
Proof.
  intros Hf Hfresh [Hin Hnone]. split.
  - intros k c Hc.
    destruct (In_update _ _ _ _ _ Hf Hc) as [c0 [Hc0 Heq]].
    rewrite Heq, first_in_cell_app. unfold ensure in Hc0.
    destruct (lookup key m) eqn:El.
    + rewrite (Hin _ _ Hc0). reflexivity.
    + apply in_app_or in Hc0. destruct Hc0 as [Hc0|[Hc0|[]]].
      * rewrite (Hin _ _ Hc0). reflexivity.
      * inversion Hc0; subst. rewrite (Hnone _ El).
        unfold first_in_cell. simpl. rewrite String.eqb_refl. simpl.
        rewrite Hfresh. reflexivity.
  - intros k Hk. apply lookup_update_None in Hk.
    rewrite first_in_cell_app. unfold ensure in Hk.
    destruct (lookup key m) eqn:El.
    + rewrite (Hnone _ Hk). unfold first_in_cell. simpl.
      destruct (String.eqb key k) eqn:E; [|reflexivity].
      apply String.eqb_eq in E. subst. congruence.
    + rewrite lookup_app in Hk. destruct (lookup k m) eqn:Ek; [discriminate|].
      rewrite (Hnone _ Ek). simpl in Hk. unfold first_in_cell. simpl.
      destruct (String.eqb key k); [discriminate | reflexivity].
Qed.

Lemma cells_agree_nil : cells_agree coords [] [].
Proof. split; [intros k c [] | reflexivity]. Qed.

(** A pass of [forEach] whose body either leaves the cells alone, and
    then contributes no record, or assigns one record to its cell. *)
Lemma cells_agree_fold {A : Type} (step : dict C -> A -> dict C)
  (record : A -> list (string * (Q * Q))) :
  (forall records m a,
      cells_agree coords records m ->
      cells_agree coords (records ++ record a) (step m a)) ->
  forall l records m,
    cells_agree coords records m ->
    cells_agree coords (records ++ flat_map record l) (fold_left step l m).
Proof.
  intros Hstep. induction l as [|a t IH]; intros records m H; simpl.
  - rewrite app_nil_r. exact H.
  - rewrite app_assoc. apply IH, Hstep, H.
Qed.
End CellCoordinates.

Lemma record_of_located (lat lng : option Q) :
  record_of lat lng
  = match Server.located lat lng with
    | Some (la, ln) => [(Server.cluster_key la ln, (la, ln))]
    | None => []
    end.
Proof. reflexivity. Qed.

Lemma server_build_clusters_agree
  (incidents : list (option Server.IncidentIn))
  (cameras : list (option Server.CameraIn)) :
  cells_agree server_coords (server_records incidents cameras)
    (Server.build_clusters incidents cameras).
Proof.
  unfold server_records, Server.build_clusters.
  apply cells_agree_fold.
  - intros records m [cam|] H; simpl; [|rewrite app_nil_r; exact H].
    unfold Server.add_camera. rewrite record_of_located.
    destruct (Server.located _ _) as [[la ln]|];
      destruct (Server.trending _);
      try (rewrite app_nil_r; exact H).
    apply cells_agree_step; [reflexivity | reflexivity | exact H].
  - change (flat_map ?f incidents) with ([] ++ flat_map f incidents)%list.
    apply cells_agree_fold; [|apply cells_agree_nil].
    intros records m [inc|] H; simpl; [|rewrite app_nil_r; exact H].
    unfold Server.add_incident. rewrite record_of_located.
    destruct (Server.located _ _) as [[la ln]|];
      [|rewrite app_nil_r; exact H].
    apply cells_agree_step; [reflexivity | reflexivity | exact H].
Qed.

Lemma flat_map_filter {A B : Type} (p : A -> bool) (f : A -> list B)
  (l : list A) :
  flat_map f (filter p l) = flat_map (fun a => if p a then f a else []) l.
Proof.
  induction l as [|a t IH]; simpl; [reflexivity|].
  destruct (p a); simpl; rewrite IH; reflexivity.
Qed.

Lemma client_build_clusters_agree (incidents : list Client.Incident)
  (cameras : list Client.Camera) :
  cells_agree client_coords (client_records incidents cameras)
    (Client.build_clusters incidents cameras).
Proof.
  unfold client_records, Client.build_clusters, Client.trending_cameras.
  rewrite <- (flat_map_filter (fun cam => Server.trending (Client.viewers cam))
                (fun cam => record_of (Client.cam_lat cam) (Client.cam_lng cam))).
  apply cells_agree_fold.
  - intros records m cam H.
    unfold Client.add_camera. rewrite record_of_located.
    destruct (Server.located _ _) as [[la ln]|];
      [|rewrite app_nil_r; exact H].
    apply cells_agree_step; [reflexivity | reflexivity | exact H].
  - change (flat_map ?f incidents) with ([] ++ flat_map f incidents)%list.
    apply cells_agree_fold; [|apply cells_agree_nil].
    intros records m inc H.
    unfold Client.add_incident. rewrite record_of_located.
    destruct (Server.located _ _) as [[la ln]|];
      [|rewrite app_nil_r; exact H].
    apply cells_agree_step; [reflexivity | reflexivity | exact H].
Qed.

(** The list each analysis returns is the head of its ranked list. *)
Lemma server_hotspots (clk : Server.Clock)
  (incidents : list (option Server.IncidentIn))
  (cameras : list (option Server.CameraIn)) (news : list (option Server.NewsIn)) :
  Server.hotspots (Server.performAlgorithmicAnalysis clk incidents cameras news)
  = slice0 20 (Server.ranked incidents cameras).
Proof. reflexivity. Qed.

Lemma client_hotspots (clk : Server.Clock) (incidents : list Client.Incident)
  (cameras : list Client.Camera) :
  Client.hotspots (Client.performLocalAnalysis clk incidents cameras)
  = slice0 15 (Client.ranked incidents cameras).
Proof. reflexivity. Qed.

End ClustererFacts.


(* ================================================================== *)
(** ** Aggregation Facade: merge of the adapters *)
(* ================================================================== *)

Module FacadeFacts.
Import Js Spec JsFacts.

(** The handler sorts the concatenation of what the adapters of its
    fan-out return. *)
Lemma incidents_handler_merge (clk : Server.Clock) (w : Server.Upstream)
  (param : option string) :
  Server.incidents_handler clk w param
  = sort Server.by_priority
      (flat_map (Server.run clk w) (Server.fan_out param)).
Proof.
  unfold Server.incidents_handler, Server.fan_out.
  destruct (str_is (Server.city_of param) "chicago");
    [|destruct (str_is (Server.city_of param) "evansville")];
    cbn [flat_map Server.run]; rewrite app_nil_r; reflexivity.
Qed.

Lemma rows_of_failed {R : Type} (f : Server.Fetched R) :
  Server.call_failed f = true -> Server.rows_of f = None.
Proof.
  destruct f as [|[|] body]; simpl; intros H;
    [reflexivity | discriminate | reflexivity].
Qed.

Lemma features_of_failed {A : Type} (f : Server.Fetched (Server.Feature A)) :
  Server.call_failed f = true -> Server.features_of f = None.
Proof.
  intros H. unfold Server.features_of. rewrite (rows_of_failed _ H).
  reflexivity.
Qed.

(** An adapter whose call failed returns the empty list. *)
Lemma run_failed (clk : Server.Clock) (w : Server.Upstream)
  (a : Server.Adapter) :
  Server.failed w a = true -> Server.run clk w a = [].
Proof.
  destruct a; simpl; intros H;
    first [ unfold Server.fetchNYC311Incidents, Server.fetchChicago311Incidents,
              Server.fetchChicagoCrimes, Server.fetchChicagoTrafficCrashes,
              Server.fetchChicagoSpeedViolations,
              Server.fetchChicagoRedLightViolations,
              Server.fetchChicagoShotSpotter,
              Server.fetchChicagoBuildingViolations;
            rewrite (rows_of_failed _ H); reflexivity
          | unfold Server.fetchEvansvilleCrimes, Server.fetchEvansvilleShotsFired;
            rewrite (features_of_failed _ H); reflexivity ].
Qed.

Lemma flat_map_remove_nil {A B : Type}
  (eq_dec : forall x y : A, {x = y} + {x <> y}) (f : A -> list B) (a : A)
  (l : list A) :
  f a = [] -> flat_map f l = flat_map f (remove eq_dec a l).
Proof.
  intros Ha. induction l as [|x t IH]; simpl; [reflexivity|].
  destruct (eq_dec a x) as [<-|Hne]; simpl; rewrite IH; [|reflexivity].
  rewrite Ha. reflexivity.
Qed.

Lemma by_priority_key (x y : Server.Incident) :
  Server.by_priority x y
  == inject_Z (Server.priority y) - inject_Z (Server.priority x).
Proof.
  unfold Server.by_priority, Z.sub, Qminus.
  rewrite inject_Z_plus, inject_Z_opp. reflexivity.
Qed.

Lemma descending_priority (l : list Server.Incident) :
  descending (fun i => inject_Z (Server.priority i)) l ->
  StronglySorted
    (fun a b => (Server.priority b <= Server.priority a)%Z) l.
Proof.
  unfold descending. induction 1 as [|x t Ht IH Hx]; constructor.
  - exact IH.
  - eapply Forall_impl; [|exact Hx]. intros y Hy. rewrite Zle_Qle. exact Hy.
Qed.

Lemma incidents_handler_sorted (clk : Server.Clock) (w : Server.Upstream)
  (param : option string) :
  StronglySorted (fun a b => (Server.priority b <= Server.priority a)%Z)
    (Server.incidents_handler clk w param).
Proof.
  rewrite incidents_handler_merge.
  apply descending_priority, sort_descending, by_priority_key.
Qed.

Lemma filter_none {A : Type} (p : A -> bool) (l : list A) :
  Forall (fun x => p x = false) l -> filter p l = [].
Proof.
  induction 1 as [|x t Hx _ IH]; simpl; [reflexivity|].
  rewrite Hx. exact IH.
Qed.

(** The streams are tagged with three city codes only. *)
Lemma allStreams_cities (rnd : nat -> Q) :
  Forall (fun s => In (Server.rs_city s) ["chicago"; "nyc"; "la"])
    (Server.allStreams rnd).
Proof.
  unfold Server.allStreams, Server.stream.
  repeat (constructor; [cbn [Server.rs_city In]; tauto|]). constructor.
Qed.

Lemma no_stream_of_unknown_city (rnd : nat -> Q) (city : string) :
  Server.known_city city = false ->
  filter (fun s => String.eqb (Server.rs_city s) city) (Server.allStreams rnd)
  = [].
Proof.
  intros H. apply filter_none.
  eapply Forall_impl; [|apply allStreams_cities].
  intros s Hs. cbn beta in *. apply String.eqb_neq. intros E.
  rewrite E in Hs.
  assert (Hk : Server.known_city city = true); [|congruence].
  unfold Server.known_city. apply existsb_exists. exists city.
  split; [|apply String.eqb_refl].
  cbn [In] in *. tauto.
Qed.

Lemma unknown_city_not (city lit : string) :
  Server.known_city city = false ->
  In lit ["chicago"; "nyc"; "la"; "dc"; "evansville"] ->
  String.eqb city lit = false.
Proof.
  intros H Hin. apply String.eqb_neq. intros ->.
  assert (Hk : Server.known_city lit = true); [|congruence].
  unfold Server.known_city. apply existsb_exists. exists lit.
  split; [exact Hin | apply String.eqb_refl].
Qed.

End FacadeFacts.


(* ================================================================== *)
(** ** Source Adapters: coordinates of the records *)
(* ================================================================== *)

Module AdapterFacts.
Import Js Spec JsFacts.

Lemma truthy_or_null (x : jsnum) : truthy_opt (or_null x) = truthy x.
Proof. unfold or_null. destruct (truthy x) eqn:E; simpl; [exact E | reflexivity]. Qed.

Lemma truthy_or_num (x : jsnum) (d : Q) :
  ~ d == 0 -> truthy (or_num x d) = true.
Proof.
  intros Hd. unfold or_num. destruct (truthy x) eqn:E; [exact E|].
  simpl. apply negb_true_iff. destruct (Qeq_bool d 0) eqn:Ed; [|reflexivity].
  apply Qeq_bool_eq in Ed. contradiction.
Qed.

Lemma all_some_map_Some {R : Type} (data : list R) :
  Server.all_some (map Some data) = Some data.
Proof.
  induction data as [|x t IH]; simpl; [reflexivity|]. rewrite IH. reflexivity.
Qed.

Lemma mapi_from_length {A B : Type} (f : A -> nat -> B) (l : list A) (s : nat) :
  length (map (fun p => f (snd p) (fst p)) (combine (seq s (length l)) l))
  = length l.
Proof.
  rewrite length_map, length_combine, length_seq. apply Nat.min_id.
Qed.

Lemma mapi_length {A B : Type} (f : A -> nat -> B) (l : list A) :
  length (mapi f l) = length l.
Proof. apply mapi_from_length. Qed.

Lemma mapi_Forall {A B : Type} (f : A -> nat -> B) (P : B -> Prop)
  (l : list A) :
  (forall x i, P (f x i)) -> Forall P (mapi f l).
Proof.
  intros H. unfold mapi. apply Forall_forall. intros y Hy.
  apply in_map_iff in Hy. destruct Hy as [[i x] [<- _]]. apply H.
Qed.

Lemma has_coords_located (i : Server.Incident) :
  Server.has_coords i = true -> located_incident i.
Proof.
  unfold Server.has_coords, located_incident. intros H.
  apply andb_true_iff in H. destruct H as [Hx Hy].
  destruct (Server.lat i) as [x|]; [|discriminate].
  destruct (Server.lng i) as [y|]; [|discriminate].
  exists x, y. auto.
Qed.

Lemma has_coords_ev_located (i : Server.Incident) :
  Server.has_coords_ev i = true -> located_incident i.
Proof.
  unfold Server.has_coords_ev. intros H.
  apply andb_true_iff in H. destruct H as [H _].
  apply andb_true_iff in H. destruct H as [H _].
  apply has_coords_located, H.
Qed.

Lemma filter_located (p : Server.Incident -> bool) (l : list Server.Incident) :
  (forall i, p i = true -> located_incident i) ->
  Forall located_incident (filter p l).
Proof.
  intros H. apply Forall_forall. intros i Hi.
  apply filter_In in Hi. apply H, Hi.
Qed.

(** Every record an incident adapter returns has both coordinates. *)
Lemma run_located (clk : Server.Clock) (w : Server.Upstream)
  (a : Server.Adapter) :
  Forall located_incident (Server.run clk w a).
Proof.
  destruct a; simpl;
    unfold Server.fetchNYC311Incidents, Server.fetchChicago311Incidents,
      Server.fetchChicagoCrimes, Server.fetchChicagoTrafficCrashes,
      Server.fetchChicagoSpeedViolations,
      Server.fetchChicagoRedLightViolations,
      Server.fetchChicagoShotSpotter,
      Server.fetchChicagoBuildingViolations,
      Server.fetchEvansvilleCrimes, Server.fetchEvansvilleShotsFired;
    match goal with
    | |- Forall _ match ?r with _ => _ end => destruct r
    end;
    try (constructor; fail);
    try match goal with
        | |- Forall _ (if ?b then _ else _) => destruct b
        end;
    try (constructor; fail);
    first [ apply filter_located, has_coords_located
          | apply filter_located, has_coords_ev_located ].
Qed.

Lemma map_mapi {A B D : Type} (f : A -> nat -> B) (g : B -> D) (h : A -> D)
  (l : list A) :
  (forall x i, g (f x i) = h x) -> map g (mapi f l) = map h l.
Proof.
  intros H. unfold mapi. generalize 0%nat.
  induction l as [|x t IH]; intros s; simpl; [reflexivity|].
  rewrite H, IH. reflexivity.
Qed.

Lemma filter_all {A : Type} (p : A -> bool) (l : list A) :
  Forall (fun x => p x = true) l -> filter p l = l.
Proof.
  induction 1 as [|x t Hx _ IH]; simpl; [reflexivity|].
  rewrite Hx, IH. reflexivity.
Qed.

(** Once the defaults are in, the coordinate filter of the Chicago
    fallback keeps every record. *)
Lemma chicago_fallback_all_located (data : list Server.ChiCrimeRow) :
  Forall (fun i => Client.fb_has_coords i = true)
    (map (fun item =>
       {| Client.fb_id := Server.crime_id item;
          Client.fb_title := Server.crime_primary_type item;
          Client.fb_lat :=
            or_num (parseFloat (Server.crime_latitude item)) 41.8781;
          Client.fb_lng :=
            or_num (parseFloat (Server.crime_longitude item)) (-87.6298);
          Client.fb_source := "Chicago PD";
          Client.fb_category := Server.crime_primary_type item;
          Client.fb_priority := Client.calculateChicagoCrimePriority item |})
       data).
Proof.
  apply Forall_forall. intros i Hi. apply in_map_iff in Hi.
  destruct Hi as [item [<- _]]. unfold Client.fb_has_coords. simpl.
  rewrite !truthy_or_num by discriminate. reflexivity.
Qed.

(** The coordinates of what a filtering adapter keeps. *)
Lemma filter_mapi_coordinates {R : Type} (build : R -> nat -> Server.Incident)
  (lat lng : R -> option string) (data : list R) :
  (forall row i,
      Server.lat (build row i) = or_null (parseFloat (lat row))
      /\ Server.lng (build row i) = or_null (parseFloat (lng row))) ->
  map incident_coordinates (filter Server.has_coords (mapi build data))
  = kept_coordinates lat lng data.
Proof.
  intros H. unfold mapi, kept_coordinates. generalize 0%nat.
  induction data as [|row t IH]; intros s; [reflexivity|].
  cbn [length seq combine map filter fst snd].
  destruct (H row s) as [Hlat Hlng].
  unfold Server.has_coords at 1, texts_locate at 1.
  rewrite Hlat, Hlng, !truthy_or_null.
  destruct (truthy (parseFloat (lat row))) eqn:E1;
    destruct (truthy (parseFloat (lng row))) eqn:E2;
    cbn [andb map]; rewrite IH; try reflexivity.
  unfold incident_coordinates. rewrite Hlat, Hlng. unfold or_null.
  rewrite E1, E2. reflexivity.
Qed.

Lemma all_some_map {A B : Type} (g : A -> B) (l : list A) :
  Server.all_some (map (fun x => Some (g x)) l) = Some (map g l).
Proof.
  induction l as [|x t IH]; simpl; [reflexivity|]. rewrite IH. reflexivity.
Qed.

Lemma features_of_body {A : Type}
  (features : list (A * option Server.Geometry)) :
  Server.features_of (features_body features) = Some features.
Proof.
  unfold Server.features_of, features_body. cbn [Server.rows_of].
  rewrite (all_some_map (fun f => Server.mkFeature (Some (fst f)) (snd f))).
  rewrite map_map. cbn [Server.attributes Server.geometry option_map].
  rewrite (all_some_map (fun f => (fst f, snd f))). f_equal.
  rewrite <- (map_id features) at 2.
  apply map_ext. intros [attrs geom]. reflexivity.
Qed.

Lemma filter_mapi_geometries {A : Type}
  (build : A * option Server.Geometry -> nat -> Server.Incident)
  (features : list (A * option Server.Geometry)) :
  (forall f i,
      Server.lat (build f i) = fst (Server.geometry_coords (snd f))
      /\ Server.lng (build f i) = snd (Server.geometry_coords (snd f))) ->
  map incident_coordinates
    (filter Server.has_coords_ev (mapi build features))
  = kept_geometries features.
Proof.
  intros H. unfold mapi, kept_geometries. generalize 0%nat.
  induction features as [|f t IH]; intros s; [reflexivity|].
  cbn [length seq combine map filter fst snd flat_map].
  destruct (H f s) as [Hlat Hlng]. rewrite <- (IH (S s)).
  set (rest := filter Server.has_coords_ev _).
  assert (E : Server.has_coords_ev (build f s)
              = match snd f with
                | Some g =>
                    truthyQ (Server.geom_x g) && truthyQ (Server.geom_y g)
                | None => false
                end).
  { unfold Server.has_coords_ev. rewrite Hlat, Hlng.
    unfold Server.geometry_coords.
    destruct (snd f) as [[[x|] [y|]]|]; cbn;
      repeat match goal with
             | |- context [Qeq_bool ?a 0] =>
                 let E := fresh "E" in
                 destruct (Qeq_bool a 0) eqn:E; cbn; rewrite ?E
             end;
      first [reflexivity | congruence]. }
  rewrite E. destruct (snd f) as [g|] eqn:Eg; [|reflexivity].
  destruct (truthyQ (Server.geom_x g) && truthyQ (Server.geom_y g)) eqn:Et;
    [|reflexivity].
  cbn [map app]. f_equal. unfold incident_coordinates.
  rewrite Hlat, Hlng. unfold Server.geometry_coords. rewrite Et.
  reflexivity.
Qed.

End AdapterFacts.

(* ================================================================== *)
(** ** Properties of the specification *)
(* ================================================================== *)

Import Js Spec JsFacts.

(** C1.  Whatever the incident and camera lists hold (priorities and viewer
    counts of either sign included), every score of every Priority Scorer
    function and the intensity of every hotspot the Hotspot Clusterer
    returns, on the server and in the browser, lie within [0,100]. *)
Theorem C1_scores_and_intensities_within_0_100 :
  (forall incident, 0 <= Server.calculatePriority incident <= 100)%Z
  /\ (forall clk crime,
        0 <= Server.calculateChicagoCrimePriority clk crime <= 100)%Z
  /\ (forall crash, 0 <= Server.calculateCrashPriority crash <= 100)%Z
  /\ (forall attrs, 0 <= Server.calculateEvansvilleCrimePriority attrs <= 100)%Z
  /\ (forall item, 0 <= Client.calculatePriority item <= 100)%Z
  /\ (forall crime, 0 <= Client.calculateChicagoCrimePriority crime <= 100)%Z
  /\ (forall clk incidents cameras news,
        Forall (fun h => 0 <= Server.intensity h /\ Server.intensity h <= 100)
          (Server.hotspots
             (Server.performAlgorithmicAnalysis clk incidents cameras news)))
  /\ (forall clk incidents cameras,
        Forall (fun h => 0 <= Client.intensity h /\ Client.intensity h <= 100)
          (Client.hotspots (Client.performLocalAnalysis clk incidents cameras))).
Proof.
  repeat split.
  - pose proof (ScorerFacts.calculatePriority_range incident). lia.
  - apply ScorerFacts.calculatePriority_range.
  - pose proof (ScorerFacts.calculateChicagoCrimePriority_range clk crime). lia.
  - apply ScorerFacts.calculateChicagoCrimePriority_range.
  - pose proof (ScorerFacts.calculateCrashPriority_range crash). lia.
  - apply ScorerFacts.calculateCrashPriority_range.
  - pose proof (ScorerFacts.calculateEvansvilleCrimePriority_range attrs). lia.
  - apply ScorerFacts.calculateEvansvilleCrimePriority_range.
  - pose proof (ScorerFacts.client_calculatePriority_range item). lia.
  - apply ScorerFacts.client_calculatePriority_range.
  - pose proof (ScorerFacts.client_calculateChicagoCrimePriority_range crime). lia.
  - apply ScorerFacts.client_calculateChicagoCrimePriority_range.
  - intros. rewrite ClustererFacts.server_hotspots. apply Forall_slice0.
    eapply Forall_impl; [|apply ClustererFacts.server_ranked_range].
    intros h [H1 H2]. split; [|exact H2].
    apply Qlt_le_weak. eapply Qle_lt_trans; [|exact H1]. discriminate.
  - intros. rewrite ClustererFacts.client_hotspots. apply Forall_slice0.
    eapply Forall_impl; [|apply ClustererFacts.client_ranked_range].
    intros h [H1 H2]. split; [|exact H2].
    apply Qlt_le_weak. eapply Qle_lt_trans; [|exact H1]. discriminate.
Qed.

(** C2.  Whenever the generative model gives no analysis (it is not
    configured, a call on it throws, or no JSON object is parsed from its
    text), the reply of POST /api/analyze-hotspots is the result of the
    local algorithm on the incidents, cameras and news of the request.  The
    reply carries nothing else: the failure shows up in the log only, and
    only in the log. *)
Theorem C2_fallback_to_local_algorithm {Json : Type}
  (JSON_parse : string -> option Json) (clk : Server.Clock)
  (key : option string) (calls : Server.Generated)
  (body : option Server.AnalyzeBody) :
  model_unavailable JSON_parse key calls ->
  fst (Server.analyze_hotspots_handler JSON_parse clk
         (Server.init_genAI key calls) body)
  = Server.FromAlgorithm
      (Server.performAlgorithmicAnalysis clk (request_incidents body)
         (request_cameras body) (request_news body)).
Proof.
  intros H. unfold Server.analyze_hotspots_handler, Server.init_genAI.
  destruct body as [b|]; [|reflexivity]. simpl.
  destruct (Server.gemini_configured key) eqn:Ekey; [|reflexivity].
  destruct H as [H|[->|[text [-> H]]]]; [congruence | reflexivity |].
  destruct (match_braces text) as [m|] eqn:Em; [|reflexivity].
  rewrite (H m Em). reflexivity.
Qed.

(** The fallback at work: the model is configured and answers, but its
    text holds nothing that parses. *)
Lemma C2_fallback_to_local_algorithm_witness :
  let clk := Server.mkClock 0 (fun _ => None) "2026-01-01T00:00:00.000Z" in
  let parse := fun _ : string => @None unit in
  let calls := Server.GenText "no analysis today {sorry}" in
  let body :=
    Some (Server.mkAnalyzeBody
            (Some [Some (Server.mkIncidentIn (Some 41.87) (Some (-87.63))
                           (Some 95) (Some "ROBBERY"))])
            None None) in
  model_unavailable parse (Some "a-key") calls
  /\ fst (Server.analyze_hotspots_handler parse clk
            (Server.init_genAI (Some "a-key") calls) body)
     = Server.FromAlgorithm
         (Server.performAlgorithmicAnalysis clk (request_incidents body)
            (request_cameras body) (request_news body)).
Proof.
  intros clk parse calls body.
  assert (H : model_unavailable parse (Some "a-key") calls).
  { right. right. exists "no analysis today {sorry}".
    split; [reflexivity | intros m _; reflexivity]. }
  split; [exact H|].
  apply (C2_fallback_to_local_algorithm parse clk (Some "a-key") calls body H).
Defined.

(** A reply of the model is used when, and only when, it parses. *)
Remark model_reply_is_used {Json : Type} (JSON_parse : string -> option Json)
  (clk : Server.Clock) (body : Server.AnalyzeBody) (text m : string)
  (analysis : Json) :
  match_braces text = Some m ->
  JSON_parse m = Some analysis ->
  Server.analyze_hotspots_handler JSON_parse clk
    (Some (Server.GenText text)) (Some body)
  = (Server.FromModel analysis, []).
Proof.
  intros Hm Hp. unfold Server.analyze_hotspots_handler.
  rewrite Hm, Hp. reflexivity.
Qed.

(** The browser has a fallback of its own: when the POST is rejected, is
    answered with a non-2xx status or has an unreadable body, it runs its
    local analysis on the same incidents and cameras. *)
Remark browser_falls_back_to_local_analysis {Json : Type}
  (clk : Server.Clock) (posted : Client.Posted Json)
  (incidents : list Client.Incident) (cameras : list Client.Camera) :
  posted = Client.PostRejected
  \/ (exists json, posted = Client.PostResponse false json)
  \/ (exists ok, posted = Client.PostResponse ok None) ->
  Client.analyzeHotspots clk posted incidents cameras
  = inr (Client.performLocalAnalysis clk incidents cameras).
Proof.
  intros [->|[[json ->]|[[|] ->]]]; reflexivity.
Qed.

(** C3.  One incident at (41.87, -87.63) with priority 95 and no camera:
    the server returns exactly one hotspot; it is the hotspot of the grid
    cell whose key is "41.9,-87.6", the only cell there is; it counts one
    incident and no camera, and its intensity is min(100, 95/2) = 47.5.
    Its [lat]/[lng] fields hold the coordinates of the incident. *)
Theorem C3_single_incident_hotspot (clk : Server.Clock)
  (title : option string) (news : list (option Server.NewsIn)) :
  let incident :=
    Server.mkIncidentIn (Some 41.87) (Some (-87.63)) (Some 95) title in
  let result :=
    Server.performAlgorithmicAnalysis clk [Some incident] [] news in
  exists h,
    Server.hotspots result = [h]
    /\ map fst (Server.build_clusters [Some incident] []) = ["41.9,-87.6"]
    /\ Server.cluster_key (Server.h_lat h) (Server.h_lng h) = "41.9,-87.6"
    /\ Server.incidentCount h = 1%nat
    /\ Server.cameraCount h = 0%nat
    /\ Server.intensity h == 47.5
    /\ Server.intensity h == Qmin 100 (95 / 2)
    /\ Server.h_lat h = 41.87 /\ Server.h_lng h = (-87.63).
Proof.
  intros incident result. eexists.
  split; [vm_compute; reflexivity|].
  repeat split; vm_compute; reflexivity.
Qed.

(** The analysis of the browser does not read priorities: on the same
    input its single cell has intensity 20, which is not above its
    threshold, and no hotspot is returned. *)
Example browser_analysis_of_single_incident :
  let clk := Server.mkClock 0 (fun _ => None) "2026-01-01T00:00:00.000Z" in
  let incident := Client.mkIncident (Some 41.87) (Some (-87.63)) in
  map (fun kc => (fst kc, Client.cluster_intensity (snd kc)))
    (Client.build_clusters [incident] []) = [("41.9,-87.6", 20)]
  /\ Client.hotspots (Client.performLocalAnalysis clk [incident] []) = [].
Proof. split; reflexivity. Qed.

(** C4.  The hotspot list the Hotspot Clusterer returns holds only hotspots
    of grid cells whose intensity is above the threshold (30 on the server,
    20 in the browser), is in descending order of intensity, and has at
    most 20 (server) or 15 (browser) elements. *)
Theorem C4_hotspots_filtered_sorted_capped :
  (forall clk incidents cameras news,
      let hs :=
        Server.hotspots
          (Server.performAlgorithmicAnalysis clk incidents cameras news) in
      Forall (fun h =>
                (exists kc, In kc (Server.build_clusters incidents cameras)
                            /\ h = Server.hotspot_of (snd kc))
                /\ 30 < Server.intensity h) hs
      /\ descending Server.intensity hs
      /\ (length hs <= 20)%nat)
  /\ (forall clk incidents cameras,
         let hs :=
           Client.hotspots
             (Client.performLocalAnalysis clk incidents cameras) in
         Forall (fun h =>
                   (exists kc, In kc (Client.build_clusters incidents cameras)
                               /\ h = Client.hotspot_of (snd kc))
                   /\ 20 < Client.intensity h) hs
         /\ descending Client.intensity hs
         /\ (length hs <= 15)%nat).
Proof.
  split.
  - intros clk incidents cameras news hs. subst hs.
    rewrite ClustererFacts.server_hotspots. repeat split.
    + apply Forall_slice0, Forall_sort, ClustererFacts.Forall_and.
      * apply ClustererFacts.server_to_hotspots_origin.
      * eapply Forall_impl; [|apply ClustererFacts.server_to_hotspots_range].
        intros h [H _]. exact H.
    + apply descending_slice0, ClustererFacts.server_ranked_descending.
    + apply length_slice0.
  - intros clk incidents cameras hs. subst hs.
    rewrite ClustererFacts.client_hotspots. repeat split.
    + apply Forall_slice0, Forall_sort, ClustererFacts.Forall_and.
      * apply ClustererFacts.client_to_hotspots_origin.
      * eapply Forall_impl; [|apply ClustererFacts.client_to_hotspots_range].
        intros h [H _]. exact H.
    + apply descending_slice0, ClustererFacts.client_ranked_descending.
    + apply length_slice0.
Qed.

(** C5, as stated, fails in the browser: six incidents in one grid cell give
    a single hotspot of intensity 100, so the mean intensity of the kept
    hotspots is 100 > 70, and the threat level returned is "low". *)
Lemma C5_counterexample_browser_analysis :
  let clk := Server.mkClock 0 (fun _ => None) "2026-01-01T00:00:00.000Z" in
  let incident := Client.mkIncident (Some 41.87) (Some (-87.63)) in
  let result := Client.performLocalAnalysis clk (repeat incident 6) [] in
  map Client.intensity (Client.hotspots result) = [100]
  /\ threat_by_mean (map Client.intensity (Client.hotspots result)) = "high"
  /\ Client.threatLevel result = "low"
  /\ Client.threatLevel result
     <> threat_by_mean (map Client.intensity (Client.hotspots result)).
Proof.
  repeat split; try reflexivity. vm_compute. discriminate.
Qed.

(** C5, as the sources have it.  On the server the threat level is decided
    by the average the code computes in double arithmetic over all
    hotspots above the threshold (the ranked list before it is cut to 20):
    their intensities added up from the left, the sum divided by their
    number, every result rounded to the nearest double, and 0 when there
    is no hotspot.  The level is "high" when this average exceeds 70,
    "medium" when it exceeds 40, "low" otherwise; when at most 20 cells are
    above the threshold it is the average over the returned hotspots.  In
    the browser the threat level does not depend on the intensities: it is
    "medium" when more than five cells are above the threshold and "low"
    otherwise. *)
Theorem C5_threat_level_rules :
  (forall clk incidents cameras news,
      let result :=
        Server.performAlgorithmicAnalysis clk incidents cameras news in
      Server.threatLevel result
      = threat_by
          (mean_in_doubles
             (map Server.intensity (Server.ranked incidents cameras)))
      /\ ((length (Server.ranked incidents cameras) <=? 20)%nat = true ->
          Server.threatLevel result
          = threat_by
              (mean_in_doubles
                 (map Server.intensity (Server.hotspots result)))))
  /\ (forall clk incidents cameras,
         let kept :=
           filter (fun kc => Qltb 20 (Client.cluster_intensity (snd kc)))
             (Client.build_clusters incidents cameras) in
         Client.threatLevel (Client.performLocalAnalysis clk incidents cameras)
         = if (5 <? length kept)%nat then "medium" else "low").
Proof.
  split.
  - intros clk incidents cameras news result.
    assert (H : Server.threatLevel result
                = threat_by
                    (mean_in_doubles
                       (map Server.intensity
                          (Server.ranked incidents cameras)))).
    { subst result. unfold Server.performAlgorithmicAnalysis.
      cbn [Server.threatLevel].
      rewrite ClustererFacts.threat_of_by, ClustererFacts.avgIntensity_mean.
      reflexivity. }
    split; [exact H|].
    intros Hlen. rewrite H. subst result.
    rewrite ClustererFacts.server_hotspots. unfold slice0.
    rewrite firstn_all2; [reflexivity|].
    apply Nat.leb_le, Hlen.
  - intros clk incidents cameras kept. subst kept.
    rewrite <- ClustererFacts.client_ranked_length. reflexivity.
Qed.

(** The server rule at work on the single incident of C3. *)
Lemma C5_threat_level_rules_witness :
  let clk := Server.mkClock 0 (fun _ => None) "2026-01-01T00:00:00.000Z" in
  let incidents :=
    [Some (Server.mkIncidentIn (Some 41.87) (Some (-87.63)) (Some 95) None)] in
  let result := Server.performAlgorithmicAnalysis clk incidents [] [] in
  (length (Server.ranked incidents []) <=? 20)%nat = true
  /\ Server.threatLevel result
     = threat_by
         (mean_in_doubles (map Server.intensity (Server.hotspots result))).
Proof.
  intros clk incidents result.
  assert (H : (length (Server.ranked incidents []) <=? 20)%nat = true)
    by (vm_compute; reflexivity).
  split; [exact H|].
  exact (proj2 (proj1 C5_threat_level_rules clk incidents [] []) H).
Defined.

(** What [threat_by] says, case by case. *)
Remark threat_by_cases (average : Q) :
  (70 < average -> threat_by average = "high")
  /\ (40 < average -> average <= 70 -> threat_by average = "medium")
  /\ (average <= 40 -> threat_by average = "low").
Proof.
  unfold threat_by. repeat split.
  - intros H. apply Qltb_lt, ClustererFacts.Qltb_compare in H.
    rewrite H. reflexivity.
  - intros H40 H70. apply Qltb_lt, ClustererFacts.Qltb_compare in H40.
    apply Qltb_ge, ClustererFacts.Qltb_compare_false in H70.
    rewrite H40. destruct (Qcompare average 70); congruence.
  - intros H40. assert (H70 : average <= 70).
    { eapply Qle_trans; [exact H40 | discriminate]. }
    apply Qltb_ge, ClustererFacts.Qltb_compare_false in H40.
    apply Qltb_ge, ClustererFacts.Qltb_compare_false in H70.
    destruct (Qcompare average 70); try congruence;
      destruct (Qcompare average 40); congruence.
Qed.

(** The average is the one of double arithmetic, not the exact mean.
    Three cells with one incident each, of priorities
    80.00000000000001 (the double next to 80), 80 and 80, give hotspots of
    intensities 40.00000000000001, 40 and 40.  Their mean is above 40,
    but the sum of the first two is a tie that rounds to 80, the computed
    average is 40, and the level is "low". *)
Example computed_average_is_in_doubles :
  let clk := Server.mkClock 0 (fun _ => None) "2026-01-01T00:00:00.000Z" in
  let incidents :=
    [Some (Server.mkIncidentIn (Some 41.87) (Some (-87.63))
             (Some (5629499534213121 # 70368744177664)) None);
     Some (Server.mkIncidentIn (Some 40.71) (Some (-74.0)) (Some 80) None);
     Some (Server.mkIncidentIn (Some 34.05) (Some (-118.24)) (Some 80)
             None)] in
  let result := Server.performAlgorithmicAnalysis clk incidents [] [] in
  let kept := map Server.intensity (Server.hotspots result) in
  kept = [5629499534213121 # 140737488355328; 40 # 1; 40 # 1]
  /\ 40 < mean kept
  /\ mean_in_doubles kept = 40 # 1
  /\ threat_by_mean kept = "medium"
  /\ Server.threatLevel result = "low".
Proof.
  vm_compute. repeat split.
Qed.

(** C6, as stated, fails: a 311 record with empty complaint type and
    descriptor whose status is 'Open' scores 60, not 50. *)
Lemma C6_counterexample_open_status :
  let incident :=
    Server.mkNYC311Row (Some "1") (Some "") (Some "")
      (Some "40.7") (Some "-74.0") (Some "Open") in
  empty_text (Server.nyc_complaint_type incident)
  /\ empty_text (Server.nyc_descriptor incident)
  /\ Server.calculatePriority incident = 60%Z
  /\ Server.calculatePriority incident <> 50%Z.
Proof.
  repeat split; try reflexivity. vm_compute. discriminate.
Qed.

(** C6, as the sources have it.  On a record whose category and description
    texts are both empty no keyword matches, and the score is the baseline
    50 plus the status or recency bonus alone: the 311 scorers return 60
    when the status is 'Open' and 50 otherwise, the Chicago crime scorer
    returns 60 when the crime is dated within the last hour and 50
    otherwise, the Evansville scorer and the Chicago scorer of the browser
    return 50.  None returns less than 50. *)
Theorem C6_empty_text_scores :
  (forall incident,
      empty_text (Server.nyc_complaint_type incident) ->
      empty_text (Server.nyc_descriptor incident) ->
      Server.calculatePriority incident
      = (if str_is (Server.nyc_status incident) "Open" then 60 else 50)%Z
      /\ Client.calculatePriority incident
         = (if str_is (Server.nyc_status incident) "Open" then 60 else 50)%Z)
  /\ (forall clk crime,
         empty_text (Server.crime_primary_type crime) ->
         empty_text (Server.crime_description crime) ->
         Server.calculateChicagoCrimePriority clk crime
         = (if dated_within_last_hour clk crime then 60 else 50)%Z
         /\ Client.calculateChicagoCrimePriority crime = 50%Z)
  /\ (forall attrs,
         empty_text (Server.ev_Map_Crime attrs) ->
         empty_text (Server.ev_chrgdesc attrs) ->
         Server.calculateEvansvilleCrimePriority attrs = 50%Z)
  /\ (forall incident, (50 <= Server.calculatePriority incident)%Z)
  /\ (forall clk crime,
         (50 <= Server.calculateChicagoCrimePriority clk crime)%Z)
  /\ (forall attrs, (50 <= Server.calculateEvansvilleCrimePriority attrs)%Z)
  /\ (forall item, (50 <= Client.calculatePriority item)%Z)
  /\ (forall crime, (50 <= Client.calculateChicagoCrimePriority crime)%Z).
Proof.
  unfold empty_text.
  destruct ScorerFacts.blank_text_matches_nothing
    as (Hc & Hh & Hcc & Hc1 & Hc2 & Hc3 & He1 & He2 & He3 & Hb1 & Hb2).
  destruct ScorerFacts.toLowerCase_blank as [Hblank Hempty].
  split; [|split; [|split; [|repeat split]]].
  - intros incident Ht Hd.
    unfold Server.calculatePriority, Client.calculatePriority.
    rewrite Ht, Hd, Hblank, Hempty, Hc, Hh, Hcc.
    destruct (str_is (Server.nyc_status incident) "Open"); split; reflexivity.
  - intros clk crime Ht Hd.
    unfold Server.calculateChicagoCrimePriority,
      Client.calculateChicagoCrimePriority, dated_within_last_hour.
    rewrite Ht, Hd, Hempty, Hc1, Hc2, Hc3, Hb1, Hb2.
    destruct (Server.crime_date crime) as [[|c r]|];
      try (split; reflexivity).
    cbn [truthy_str andb].
    destruct (Server.within_last_hour clk (String c r)); split; reflexivity.
  - intros attrs Ht Hd. unfold Server.calculateEvansvilleCrimePriority.
    rewrite Ht, Hd, Hempty, He1, He2, He3. reflexivity.
  - apply ScorerFacts.calculatePriority_range.
  - apply ScorerFacts.calculateChicagoCrimePriority_range.
  - apply ScorerFacts.calculateEvansvilleCrimePriority_range.
  - apply ScorerFacts.client_calculatePriority_range.
  - apply ScorerFacts.client_calculateChicagoCrimePriority_range.
Qed.

(** The baseline at work: empty texts and a status other than 'Open'. *)
Lemma C6_empty_text_scores_witness :
  let closed :=
    Server.mkNYC311Row (Some "1") None (Some "")
      (Some "40.7") (Some "-74.0") (Some "Closed") in
  empty_text (Server.nyc_complaint_type closed)
  /\ empty_text (Server.nyc_descriptor closed)
  /\ Server.calculatePriority closed = 50%Z.
Proof.
  intros closed.
  assert (Ht : empty_text (Server.nyc_complaint_type closed)) by reflexivity.
  assert (Hd : empty_text (Server.nyc_descriptor closed)) by reflexivity.
  split; [exact Ht|]. split; [exact Hd|].
  exact (proj1 (proj1 C6_empty_text_scores closed Ht Hd)).
Defined.

(** C7.  When the network call of one adapter of the fan-out fails, the
    merged result of GET /api/incidents holds nothing of that adapter (it
    contributes the empty list), holds exactly the records the other
    adapters return, each as often as it is returned, and is in descending
    order of priority. *)
Theorem C7_failing_adapter_is_left_out (clk : Server.Clock)
  (w : Server.Upstream) (param : option string) (a : Server.Adapter) :
  In a (Server.fan_out param) ->
  Server.failed w a = true ->
  let merged := Server.incidents_handler clk w param in
  Server.run clk w a = []
  /\ Permutation merged
       (flat_map (Server.run clk w)
          (remove Server.Adapter_eq_dec a (Server.fan_out param)))
  /\ StronglySorted
       (fun x y => (Server.priority y <= Server.priority x)%Z) merged.
Proof.
  intros _ Hfail merged.
  pose proof (FacadeFacts.run_failed clk w a Hfail) as Hnil.
  split; [exact Hnil|]. split.
  - subst merged. rewrite FacadeFacts.incidents_handler_merge.
    rewrite <- (FacadeFacts.flat_map_remove_nil Server.Adapter_eq_dec
                  (Server.run clk w) a _ Hnil).
    apply sort_perm.
  - apply FacadeFacts.incidents_handler_sorted.
Qed.

(** The merge at work: the NYC 311 call is rejected, two Chicago feeds
    answer with one row each. *)
Lemma C7_failing_adapter_is_left_out_witness :
  let clk := Server.mkClock 0 (fun _ => None) "2026-01-01T00:00:00.000Z" in
  let pothole :=
    Server.mkChi311Row (Some "Pothole") None (Some "41.88") (Some "-87.63")
      None in
  let robbery :=
    Server.mkChiCrimeRow (Some "7") (Some "ROBBERY") (Some "ARMED")
      (Some "41.87") (Some "-87.62") None None in
  let w :=
    Server.mkUpstream Server.NetworkError
      (Server.Response true (Server.Rows [Some pothole]))
      (Server.Response true (Server.Rows [Some robbery]))
      (Server.Response true (Server.Rows []))
      (Server.Response true (Server.Rows []))
      (Server.Response true (Server.Rows []))
      (Server.Response true (Server.Rows []))
      (Server.Response true (Server.Rows []))
      (Server.Response true (Server.Rows []))
      (Server.Response true (Server.Rows [])) in
  In Server.NYC311 (Server.fan_out None)
  /\ Server.failed w Server.NYC311 = true
  /\ map Server.priority (Server.incidents_handler clk w None) = [95; 50]%Z
  /\ Permutation (Server.incidents_handler clk w None)
       (flat_map (Server.run clk w)
          (remove Server.Adapter_eq_dec Server.NYC311 (Server.fan_out None))).
Proof.
  intros clk pothole robbery w.
  assert (Hin : In Server.NYC311 (Server.fan_out None)) by (simpl; tauto).
  assert (Hfail : Server.failed w Server.NYC311 = true) by reflexivity.
  split; [exact Hin|]. split; [exact Hfail|]. split; [reflexivity|].
  exact (proj1 (proj2
           (C7_failing_adapter_is_left_out clk w None Server.NYC311 Hin Hfail))).
Defined.

(** C8, as stated, fails for the camera adapters: a camera row without
    latitude and longitude is not excluded; it is returned at the default
    coordinates of the city. *)
Lemma C8_counterexample_camera_without_coordinates :
  let cam :=
    Server.mkNYCCamRow (Some "42") (Some "Broadway") (Some "Manhattan")
      None None in
  let out :=
    Server.fetchNYCCameras (fun _ => 1 # 2)
      (Server.Response true (Server.Rows [Some cam])) in
  parseFloat (Server.ncam_latitude cam) = NaN
  /\ parseFloat (Server.ncam_longitude cam) = NaN
  /\ map (fun c => (Server.cam_id c, Server.cam_lat c, Server.cam_lng c)) out
     = [("nyc-42", Fin 40.7128, Fin (-74.0060))]
  /\ out <> [].
Proof.
  repeat split; try reflexivity. vm_compute. discriminate.
Qed.

(** C8, as the sources have it.  Every incident adapter of the back end
    filters on the coordinates: each record it returns has a [lat] and a
    [lng] that are numbers, neither [NaN] nor zero, and what it returns
    for a feed are the rows whose latitude and longitude both parse to
    such numbers (for the two Evansville feeds: the features whose
    geometry has an [x] and a [y] that are not zero), one record each, in
    the order of the feed and with these coordinates.  A row without them
    is excluded.  The camera adapters of the back end and the two incident
    fallbacks of the browser exclude nothing: they return one record per
    row, at the coordinates of the row where they parse to such numbers
    and at the default coordinates of the city where they do not, so their
    records have numeric coordinates too. *)
Theorem C8_adapter_coordinates :
  (forall clk w a, Forall located_incident (Server.run clk w a))
  /\ (forall data,
         map incident_coordinates
           (Server.fetchNYC311Incidents
              (Server.Response true (Server.Rows (map Some data))))
         = kept_coordinates Server.nyc_latitude Server.nyc_longitude data)
  /\ (forall data,
         map incident_coordinates
           (Server.fetchChicago311Incidents
              (Server.Response true (Server.Rows (map Some data))))
         = kept_coordinates Server.c311_latitude Server.c311_longitude data)
  /\ (forall clk data,
         map incident_coordinates
           (Server.fetchChicagoCrimes clk
              (Server.Response true (Server.Rows (map Some data))))
         = kept_coordinates Server.crime_latitude Server.crime_longitude
             data)
  /\ (forall data,
         map incident_coordinates
           (Server.fetchChicagoTrafficCrashes
              (Server.Response true (Server.Rows (map Some data))))
         = kept_coordinates Server.crash_latitude Server.crash_longitude
             data)
  /\ (forall data,
         map incident_coordinates
           (Server.fetchChicagoSpeedViolations
              (Server.Response true (Server.Rows (map Some data))))
         = kept_coordinates Server.viol_latitude Server.viol_longitude data)
  /\ (forall data,
         map incident_coordinates
           (Server.fetchChicagoRedLightViolations
              (Server.Response true (Server.Rows (map Some data))))
         = kept_coordinates Server.viol_latitude Server.viol_longitude data)
  /\ (forall data,
         map incident_coordinates
           (Server.fetchChicagoShotSpotter
              (Server.Response true (Server.Rows (map Some data))))
         = kept_coordinates Server.shot_latitude Server.shot_longitude data)
  /\ (forall data,
         map incident_coordinates
           (Server.fetchChicagoBuildingViolations
              (Server.Response true (Server.Rows (map Some data))))
         = kept_coordinates Server.bldg_latitude Server.bldg_longitude data)
  /\ (forall clk features,
         map incident_coordinates
           (Server.fetchEvansvilleCrimes clk (features_body features))
         = if existsb (fun f =>
                         Server.iso_time_throws clk
                           (Server.ev_date_occu (fst f))) features
           then [] else kept_geometries features)
  /\ (forall clk features,
         map incident_coordinates
           (Server.fetchEvansvilleShotsFired clk (features_body features))
         = if existsb (fun f =>
                         Server.iso_time_throws clk
                           (Server.ev_CallTime (fst f))) features
           then [] else kept_geometries features)
  /\ (forall rnd r, Forall located_camera (Server.fetchNYCCameras rnd r))
  /\ (forall rnd r, Forall located_camera (Server.fetchChicagoCameras rnd r))
  /\ (forall rnd data,
         map camera_coordinates
           (Server.fetchNYCCameras rnd
              (Server.Response true (Server.Rows (map Some data))))
         = defaulted_coordinates Server.ncam_latitude Server.ncam_longitude
             40.7128 (-74.0060) data)
  /\ (forall rnd data,
         map camera_coordinates
           (Server.fetchChicagoCameras rnd
              (Server.Response true (Server.Rows (map Some data))))
         = defaulted_coordinates Server.ccam_latitude Server.ccam_longitude
             41.8781 (-87.6298) data)
  /\ (forall rnd,
         Forall located_camera (Server.fetchCaliforniaCameras rnd)
         /\ Forall located_camera (Server.fetchDCCameras rnd)
         /\ Forall located_camera (Server.fetchInternationalCameras rnd))
  /\ (forall r, Forall located_fallback (Client.fetchChicagoFallback r))
  /\ (forall r, Forall located_fallback (Client.fetchNYC311Fallback r))
  /\ (forall ok data,
         map fallback_coordinates
           (Client.fetchChicagoFallback
              (Server.Response ok (Server.Rows (map Some data))))
         = defaulted_coordinates Server.crime_latitude
             Server.crime_longitude 41.8781 (-87.6298) data)
  /\ (forall ok data,
         map fallback_coordinates
           (Client.fetchNYC311Fallback
              (Server.Response ok (Server.Rows (map Some data))))
         = defaulted_coordinates Server.nyc_latitude Server.nyc_longitude
             40.7128 (-74.0060) data).
Proof.
  split; [exact AdapterFacts.run_located|].
  repeat match goal with
         | |- (forall data : list _,
                 map incident_coordinates _ = kept_coordinates _ _ _) /\ _ =>
             split;
             [intros data;
              unfold Server.fetchNYC311Incidents,
                Server.fetchChicago311Incidents,
                Server.fetchChicagoTrafficCrashes,
                Server.fetchChicagoSpeedViolations,
                Server.fetchChicagoRedLightViolations,
                Server.fetchChicagoShotSpotter,
                Server.fetchChicagoBuildingViolations;
              cbn [Server.rows_of];
              rewrite AdapterFacts.all_some_map_Some;
              apply AdapterFacts.filter_mapi_coordinates;
              intros row i; split; reflexivity|]
         | |- (forall (clk : Server.Clock) (data : list _),
                 map incident_coordinates _ = kept_coordinates _ _ _) /\ _ =>
             split;
             [intros clk data; unfold Server.fetchChicagoCrimes;
              cbn [Server.rows_of];
              rewrite AdapterFacts.all_some_map_Some;
              apply AdapterFacts.filter_mapi_coordinates;
              intros row i; split; reflexivity|]
         end.
  split.
  { intros clk features. unfold Server.fetchEvansvilleCrimes.
    rewrite AdapterFacts.features_of_body.
    destruct (existsb _ features); [reflexivity|].
    apply AdapterFacts.filter_mapi_geometries.
    intros f i. split; reflexivity. }
  split.
  { intros clk features. unfold Server.fetchEvansvilleShotsFired.
    rewrite AdapterFacts.features_of_body.
    destruct (existsb _ features); [reflexivity|].
    apply AdapterFacts.filter_mapi_geometries.
    intros f i. split; reflexivity. }
  split.
  { intros rnd r. unfold Server.fetchNYCCameras.
    destruct (Server.rows_of r); [|constructor].
    apply AdapterFacts.mapi_Forall. intros cam i. split; simpl;
      apply AdapterFacts.truthy_or_num; discriminate. }
  split.
  { intros rnd r. unfold Server.fetchChicagoCameras.
    destruct (Server.rows_of r); [|constructor].
    apply AdapterFacts.mapi_Forall. intros cam i. split; simpl;
      apply AdapterFacts.truthy_or_num; discriminate. }
  split.
  { intros rnd data. unfold Server.fetchNYCCameras. cbn [Server.rows_of].
    rewrite AdapterFacts.all_some_map_Some.
    apply AdapterFacts.map_mapi. reflexivity. }
  split.
  { intros rnd data. unfold Server.fetchChicagoCameras. cbn [Server.rows_of].
    rewrite AdapterFacts.all_some_map_Some.
    apply AdapterFacts.map_mapi. reflexivity. }
  split.
  { intros rnd. repeat split;
      unfold Server.fetchCaliforniaCameras, Server.fetchDCCameras,
        Server.fetchInternationalCameras, Server.static_cameras, mapi;
      cbn [length seq combine map fst snd Server.caltransCameras
           Server.dcCameras Server.internationalCams];
      repeat (constructor; [split; reflexivity|]); constructor. }
  split.
  { intros r. unfold Client.fetchChicagoFallback.
    destruct (Client.rows_of r) as [data|]; [|constructor].
    rewrite AdapterFacts.filter_all
      by apply AdapterFacts.chicago_fallback_all_located.
    apply Forall_forall. intros i Hi. apply in_map_iff in Hi.
    destruct Hi as [item [<- _]]. split; simpl;
      apply AdapterFacts.truthy_or_num; discriminate. }
  split.
  { intros r. unfold Client.fetchNYC311Fallback.
    destruct (Client.rows_of r) as [data|]; [|constructor].
    apply Forall_forall. intros i Hi. apply in_map_iff in Hi.
    destruct Hi as [item [<- _]]. split; simpl;
      apply AdapterFacts.truthy_or_num; discriminate. }
  split.
  { intros ok data. unfold Client.fetchChicagoFallback.
    cbn [Client.rows_of].
    rewrite AdapterFacts.all_some_map_Some.
    rewrite AdapterFacts.filter_all
      by apply AdapterFacts.chicago_fallback_all_located.
    rewrite map_map. reflexivity. }
  intros ok data. unfold Client.fetchNYC311Fallback. cbn [Client.rows_of].
  rewrite AdapterFacts.all_some_map_Some, map_map. reflexivity.
Qed.

(** The incident filter at work: of two 311 rows, the one without
    coordinates is dropped. *)
Example nyc311_row_without_coordinates_is_dropped :
  let located :=
    Server.mkNYC311Row (Some "1") (Some "Noise") None
      (Some "40.71") (Some "-74.01") (Some "Closed") in
  let unlocated :=
    Server.mkNYC311Row (Some "2") (Some "Noise") None None None
      (Some "Closed") in
  map Server.id
    (Server.fetchNYC311Incidents
       (Server.Response true (Server.Rows [Some unlocated; Some located])))
  = ["nyc311-1"].
Proof. reflexivity. Qed.

(** The camera fallback of the browser is not covered by C8: unlike every
    other adapter it neither filters nor puts a default, and a row without
    coordinates comes back with [NaN] for both. *)
Example camera_fallback_passes_NaN_on :
  let row :=
    Client.mkNYCCamFallbackRow (Some "7") (Some "Broadway") (Some "Manhattan")
      None None in
  map (fun c => (Client.fb_cam_lat c, Client.fb_cam_lng c))
    (Client.fetchNYCCamerasFallback (fun _ => 1 # 2)
       (Server.Response true (Server.Rows [Some row])))
  = [(NaN, NaN)].
Proof. reflexivity. Qed.

(** C9, as stated, fails for the radio streams: the unknown city code
    "paris" gives the empty list, not the default list of 15 streams. *)
Lemma C9_counterexample_radio_unknown_city :
  let rnd := fun _ : nat => 1 # 2 in
  Server.known_city (toLowerCase "paris") = false
  /\ Server.radio_streams_handler rnd (Some "paris") = []
  /\ length (Server.radio_streams_handler rnd None) = 15%nat
  /\ Server.radio_streams_handler rnd (Some "paris")
     <> Server.radio_streams_handler rnd None.
Proof.
  repeat split; try reflexivity. vm_compute. discriminate.
Qed.

(** C9, as the sources have it.  For a city code that is none of the five
    predefined codes, GET /api/incidents returns its default result (all
    cities) and GET /api/cameras, which does not read the code, returns
    the full list; GET /api/radio-streams returns the streams tagged with
    that code, which is the empty list, and returns the whole list only
    when the code is absent or empty. *)
Theorem C9_unknown_city_code (city : string) :
  Server.known_city (toLowerCase city) = false ->
  (forall clk w,
      Server.incidents_handler clk w (Some city)
      = Server.incidents_handler clk w None)
  /\ (forall w, Server.cameras_handler w (Some city)
                = Server.cameras_handler w None)
  /\ (forall rnd,
         Server.radio_streams_handler rnd (Some city)
         = match city with
           | EmptyString => Server.allStreams rnd
           | String _ _ => []
           end)
  /\ (forall rnd, Server.radio_streams_handler rnd None = Server.allStreams rnd).
Proof.
  intros H.
  assert (Hchi : String.eqb (toLowerCase city) "chicago" = false)
    by (apply FacadeFacts.unknown_city_not; [exact H | cbn [In]; tauto]).
  assert (Hev : String.eqb (toLowerCase city) "evansville" = false)
    by (apply FacadeFacts.unknown_city_not; [exact H | cbn [In]; tauto]).
  split; [|split; [|split]].
  - intros clk w. unfold Server.incidents_handler, Server.city_of.
    cbn [option_map str_is]. rewrite Hchi, Hev. reflexivity.
  - intros w. reflexivity.
  - intros rnd. unfold Server.radio_streams_handler, Server.city_of.
    cbn [option_map str_is]. rewrite Hchi.
    destruct city as [|c r]; [reflexivity|].
    cbn [toLowerCase].
    change (String (lower_char c) (toLowerCase r))
      with (toLowerCase (String c r)).
    apply FacadeFacts.no_stream_of_unknown_city, H.
  - intros rnd. reflexivity.
Qed.

(** The radio filter at work on an unknown code. *)
Lemma C9_unknown_city_code_witness :
  let rnd := fun _ : nat => 1 # 2 in
  Server.known_city (toLowerCase "Paris") = false
  /\ Server.radio_streams_handler rnd (Some "Paris") = [].
Proof.
  intros rnd.
  assert (H : Server.known_city (toLowerCase "Paris") = false) by reflexivity.
  split; [exact H|].
  exact (proj1 (proj2 (proj2 (C9_unknown_city_code "Paris" H))) rnd).
Defined.

(** C10.  Every hotspot the Hotspot Clusterer returns, on the server and in
    the browser, is the hotspot of a grid cell and carries as [lat]/[lng]
    the coordinates, as they were received, of the first record assigned to
    that cell: incidents in request order, then the cameras with more than
    50 viewers. *)
Theorem C10_hotspot_carries_first_record_coordinates :
  (forall clk incidents cameras news,
      Forall (fun h =>
                exists key cluster,
                  In (key, cluster) (Server.build_clusters incidents cameras)
                  /\ h = Server.hotspot_of cluster
                  /\ first_in_cell key (server_records incidents cameras)
                     = Some (Server.h_lat h, Server.h_lng h))
        (Server.hotspots
           (Server.performAlgorithmicAnalysis clk incidents cameras news)))
  /\ (forall clk incidents cameras,
         Forall (fun h =>
                   exists key cluster,
                     In (key, cluster) (Client.build_clusters incidents cameras)
                     /\ h = Client.hotspot_of cluster
                     /\ first_in_cell key (client_records incidents cameras)
                        = Some (Client.h_lat h, Client.h_lng h))
           (Client.hotspots
              (Client.performLocalAnalysis clk incidents cameras))).
Proof.
  split.
  - intros clk incidents cameras news.
    rewrite ClustererFacts.server_hotspots.
    apply Forall_slice0, Forall_sort.
    eapply Forall_impl; [|apply ClustererFacts.server_to_hotspots_origin].
    intros h [[key cluster] [Hin ->]]. exists key, cluster.
    split; [exact Hin|]. split; [reflexivity|].
    apply (proj1 (ClustererFacts.server_build_clusters_agree incidents cameras)
             _ _ Hin).
  - intros clk incidents cameras.
    rewrite ClustererFacts.client_hotspots.
    apply Forall_slice0, Forall_sort.
    eapply Forall_impl; [|apply ClustererFacts.client_to_hotspots_origin].
    intros h [[key cluster] [Hin ->]]. exists key, cluster.
    split; [exact Hin|]. split; [reflexivity|].
    apply (proj1 (ClustererFacts.client_build_clusters_agree incidents cameras)
             _ _ Hin).
Qed.

(** The coordinates are not those of the cell: the hotspot of the cell
    "41.9,-87.6" built from one incident at (41.87, -87.63) sits at
    (41.87, -87.63). *)
Example hotspot_keeps_unrounded_coordinates :
  let clk := Server.mkClock 0 (fun _ => None) "2026-01-01T00:00:00.000Z" in
  let incidents :=
    [Some (Server.mkIncidentIn (Some 41.87) (Some (-87.63)) (Some 95) None)] in
  map (fun h => (Server.h_lat h, Server.h_lng h))
    (Server.hotspots (Server.performAlgorithmicAnalysis clk incidents [] []))
  = [(41.87, -87.63)]
  /\ ~ 41.87 == 41.9 /\ ~ -87.63 == -87.6.
Proof.
  split; [reflexivity | split; discriminate].
Qed.

(* ================================================================== *)
(** ** Further facts about the primitives *)
(* ================================================================== *)

Module TextFacts.
Import Js Spec JsFacts.

Lemma lower_char_idem (c : ascii) : lower_char (lower_char c) = lower_char c.
Proof.
  destruct c as [[] [] [] [] [] [] [] []]; vm_compute; reflexivity.
Qed.

Lemma toLowerCase_idem (s : string) : toLowerCase (toLowerCase s) = toLowerCase s.
Proof.
  induction s as [|c r IH]; simpl; [reflexivity|].
  rewrite lower_char_idem, IH. reflexivity.
Qed.

Lemma toLowerCase_app (a b : string) :
  toLowerCase (a ++ b) = toLowerCase a ++ toLowerCase b.
Proof.
  induction a as [|c r IH]; simpl; [reflexivity|]. rewrite IH. reflexivity.
Qed.

Lemma prefix_app (t a b : string) :
  prefix t a = true -> prefix t (a ++ b) = true.
Proof.
  revert a. induction t as [|c t IH]; intros a H;
    [destruct (a ++ b); reflexivity|].
  destruct a as [|d a]; simpl in *; [discriminate|].
  destruct (Ascii.ascii_dec c d); [apply IH, H | discriminate].
Qed.

Lemma includes_eq (hay needle : string) :
  includes hay needle
  = (prefix needle hay
     || match hay with
        | EmptyString => false
        | String _ r => includes r needle
        end)%bool.
Proof.
  destruct hay as [|c r]; simpl;
    [destruct (prefix needle "") | destruct (prefix needle (String c r))];
    reflexivity.
Qed.

Lemma includes_app_l (a b t : string) :
  includes a t = true -> includes (a ++ b) t = true.
Proof.
  induction a as [|c a IH]; rewrite includes_eq; intros H.
  - rewrite orb_false_r in H. rewrite includes_eq.
    change ("" ++ b) with b. destruct t; [|destruct b; discriminate].
    destruct b; reflexivity.
  - apply orb_true_iff in H. rewrite includes_eq.
    change (String c a ++ b) with (String c (a ++ b)).
    apply orb_true_iff. destruct H as [H|H].
    + left. change (String c (a ++ b)) with (String c a ++ b).
      apply prefix_app, H.
    + right. apply IH, H.
Qed.

Lemma includes_app_r (a b t : string) :
  includes b t = true -> includes (a ++ b) t = true.
Proof.
  intros H. induction a as [|c a IH]; [exact H|].
  rewrite includes_eq. change (String c a ++ b) with (String c (a ++ b)).
  apply orb_true_iff. right. exact IH.
Qed.

End TextFacts.

Module KeyFacts.
Import Js Spec JsFacts.

Lemma chars_app (a b : string) :
  list_ascii_of_string (a ++ b)
  = (list_ascii_of_string a ++ list_ascii_of_string b)%list.
Proof.
  induction a as [|c a IH]; simpl; [reflexivity|]. rewrite IH. reflexivity.
Qed.

Lemma uint_chars (d : Decimal.uint) (c : ascii) :
  In c (list_ascii_of_string (NilEmpty.string_of_uint d)) ->
  (48 <= nat_of_ascii c <= 57)%nat.
Proof.
  induction d; simpl; intros H; try contradiction;
    (destruct H as [<-|H]; [vm_compute; split; lia | apply IHd, H]).
Qed.

Lemma to_uint_nonnil (n : N) : N.to_uint n <> Decimal.Nil.
Proof.
  destruct n as [|p]; simpl; [discriminate|].
  apply DecimalPos.Unsigned.to_uint_nonnil.
Qed.

Lemma N_string_eq (n : N) :
  NilZero.string_of_uint (N.to_uint n) = NilEmpty.string_of_uint (N.to_uint n).
Proof.
  pose proof (to_uint_nonnil n) as H.
  destruct (N.to_uint n); [contradiction | reflexivity ..].
Qed.

Lemma N_string_inj (n m : N) :
  NilZero.string_of_uint (N.to_uint n) = NilZero.string_of_uint (N.to_uint m) ->
  n = m.
Proof.
  rewrite !N_string_eq. intros H.
  apply DecimalN.Unsigned.to_uint_inj.
  pose proof (NilEmpty.usu (N.to_uint n)) as Hn.
  pose proof (NilEmpty.usu (N.to_uint m)) as Hm.
  rewrite H in Hn. congruence.
Qed.

Lemma N_string_chars (n : N) (c : ascii) :
  In c (list_ascii_of_string (NilZero.string_of_uint (N.to_uint n))) ->
  (48 <= nat_of_ascii c <= 57)%nat.
Proof. rewrite N_string_eq. apply uint_chars. Qed.

(** Two strings cut at the first occurrence of a separator. *)
Lemma app_sep_inj (c : ascii) (a a' r r' : string) :
  ~ In c (list_ascii_of_string a) ->
  ~ In c (list_ascii_of_string a') ->
  a ++ String c r = a' ++ String c r' ->
  a = a' /\ r = r'.
Proof.
  revert a'. induction a as [|x a IH]; intros [|y a'] Ha Ha' H; simpl in *.
  - inversion H. auto.
  - inversion H; subst. exfalso. apply Ha'. now left.
  - inversion H; subst. exfalso. apply Ha. now left.
  - inversion H; subst.
    destruct (IH a') as [-> ->]; auto.
Qed.

(** The digits printed for [a / 10], with one decimal when there is
    one. *)
Lemma tenths_body_chars (a : Z) (c : ascii) :
  In c (list_ascii_of_string
          (if (a mod 10 =? 0)%Z
           then NilZero.string_of_uint (N.to_uint (Z.to_N (a / 10)))
           else NilZero.string_of_uint (N.to_uint (Z.to_N (a / 10))) ++ "."
                ++ NilZero.string_of_uint (N.to_uint (Z.to_N (a mod 10))))) ->
  (48 <= nat_of_ascii c <= 57)%nat \/ c = "."%char.
Proof.
  destruct (a mod 10 =? 0)%Z.
  - intros H. left. eapply N_string_chars, H.
  - rewrite chars_app. intros H. apply in_app_or in H.
    destruct H as [H|H]; [left; eapply N_string_chars, H|].
    simpl in H. destruct H as [<-|H]; [now right|].
    left. eapply N_string_chars, H.
Qed.

Lemma tenths_body_inj (a b : Z) :
  (0 <= a)%Z -> (0 <= b)%Z ->
  (if (a mod 10 =? 0)%Z
   then NilZero.string_of_uint (N.to_uint (Z.to_N (a / 10)))
   else NilZero.string_of_uint (N.to_uint (Z.to_N (a / 10))) ++ "."
        ++ NilZero.string_of_uint (N.to_uint (Z.to_N (a mod 10))))
  = (if (b mod 10 =? 0)%Z
     then NilZero.string_of_uint (N.to_uint (Z.to_N (b / 10)))
     else NilZero.string_of_uint (N.to_uint (Z.to_N (b / 10))) ++ "."
          ++ NilZero.string_of_uint (N.to_uint (Z.to_N (b mod 10)))) ->
  a = b.
Proof.
  intros Ha Hb.
  assert (Hqa : (0 <= a / 10)%Z) by (apply Z.div_pos; lia).
  assert (Hqb : (0 <= b / 10)%Z) by (apply Z.div_pos; lia).
  pose proof (Z.mod_pos_bound a 10 ltac:(lia)) as Hra.
  pose proof (Z.mod_pos_bound b 10 ltac:(lia)) as Hrb.
  pose proof (Z.div_mod a 10 ltac:(lia)) as Ea.
  pose proof (Z.div_mod b 10 ltac:(lia)) as Eb.
  assert (Hdot : forall n m r,
             NilZero.string_of_uint (N.to_uint n)
             <> NilZero.string_of_uint (N.to_uint m) ++ String "." r).
  { intros n m r E.
    assert (Hin : In "."%char
                    (list_ascii_of_string
                       (NilZero.string_of_uint (N.to_uint n)))).
    { rewrite E, chars_app. apply in_or_app. right. now left. }
    apply N_string_chars in Hin. vm_compute in Hin. lia. }
  assert (Hno : forall n, ~ In "."%char
             (list_ascii_of_string (NilZero.string_of_uint (N.to_uint n)))).
  { intros n Hin. apply N_string_chars in Hin. vm_compute in Hin. lia. }
  destruct (a mod 10 =? 0)%Z eqn:Za; destruct (b mod 10 =? 0)%Z eqn:Zb;
    intros E.
  - apply N_string_inj, Z2N.inj in E; try assumption.
    apply Z.eqb_eq in Za, Zb. lia.
  - exfalso. exact (Hdot _ _ _ E).
  - exfalso. symmetry in E. exact (Hdot _ _ _ E).
  - apply app_sep_inj in E; [|apply Hno|apply Hno].
    destruct E as [E1 E2].
    apply N_string_inj, Z2N.inj in E1; try assumption.
    apply N_string_inj, Z2N.inj in E2; try lia.
Qed.

Lemma tenths_to_string_chars (n : Z) (c : ascii) :
  In c (list_ascii_of_string (tenths_to_string n)) ->
  (48 <= nat_of_ascii c <= 57)%nat \/ c = "."%char \/ c = "-"%char.
Proof.
  unfold tenths_to_string. cbv zeta.
  destruct (n <? 0)%Z.
  - simpl. intros [<-|H]; [auto|].
    apply tenths_body_chars in H. tauto.
  - intros H. apply tenths_body_chars in H. tauto.
Qed.

(** Distinct integers print differently. *)
Lemma tenths_to_string_inj (n m : Z) :
  tenths_to_string n = tenths_to_string m -> n = m.
Proof.
  unfold tenths_to_string. cbv zeta.
  assert (Hminus : forall a r,
             String "-" r
             <> (if (a mod 10 =? 0)%Z
                 then NilZero.string_of_uint (N.to_uint (Z.to_N (a / 10)))
                 else NilZero.string_of_uint (N.to_uint (Z.to_N (a / 10)))
                      ++ "."
                      ++ NilZero.string_of_uint
                           (N.to_uint (Z.to_N (a mod 10))))).
  { intros a r E.
    assert (Hin : In "-"%char (list_ascii_of_string (String "-" r)))
      by now left.
    rewrite E in Hin. apply tenths_body_chars in Hin.
    destruct Hin as [Hin|Hin]; [vm_compute in Hin; lia | discriminate]. }
  destruct (n <? 0)%Z eqn:Hn; destruct (m <? 0)%Z eqn:Hm; intros E.
  - apply Z.ltb_lt in Hn, Hm. simpl in E. inversion E as [E'].
    apply tenths_body_inj in E'; lia.
  - exfalso. exact (Hminus _ _ E).
  - exfalso. symmetry in E. exact (Hminus _ _ E).
  - apply Z.ltb_ge in Hn, Hm. apply tenths_body_inj in E; lia.
Qed.

Lemma cluster_key_inj (la ln la' ln' : Q) :
  Server.cluster_key la ln = Server.cluster_key la' ln' ->
  Math_round (to_double (la * 10)) = Math_round (to_double (la' * 10))
  /\ Math_round (to_double (ln * 10)) = Math_round (to_double (ln' * 10)).
Proof.
  unfold Server.cluster_key. intros E.
  assert (Hno : forall n, ~ In ","%char
                            (list_ascii_of_string (tenths_to_string n))).
  { intros n Hin. apply tenths_to_string_chars in Hin.
    destruct Hin as [Hin|[Hin|Hin]];
      [vm_compute in Hin; lia | discriminate | discriminate]. }
  apply app_sep_inj in E; [|apply Hno|apply Hno].
  destruct E as [E1 E2]. split; apply tenths_to_string_inj; assumption.
Qed.

End KeyFacts.

Module StableFacts.
Import Js Spec JsFacts.

Section Stable.
Context {A : Type} (cmp : A -> A -> Q) (key : A -> Q).
Hypothesis cmp_key : forall x y, cmp x y == key y - key x.

(** Inserting [x] changes the elements of key [p] only by [x] itself, put
    in front of them. *)
Lemma insert_stable (p : Q) (x : A) (l : list A) :
  filter (fun y => Qeq_bool (key y) p) (insert cmp x l)
  = filter (fun y => Qeq_bool (key y) p) (x :: l).
Proof.
  induction l as [|y t IH]; [reflexivity|].
  cbn [insert]. destruct (Qle_bool (cmp x y) 0) eqn:E; [reflexivity|].
  assert (Hlt : key x < key y).
  { apply Qnot_le_lt. intros Hle.
    apply (cmp_le cmp key cmp_key) in Hle. congruence. }
  cbn [filter] in *. rewrite IH.
  destruct (Qeq_bool (key x) p) eqn:Ex; [|reflexivity].
  destruct (Qeq_bool (key y) p) eqn:Ey; [|reflexivity].
  apply Qeq_bool_eq in Ex, Ey. exfalso.
  rewrite Ex, Ey in Hlt. exact (Qlt_irrefl _ Hlt).
Qed.

Lemma sort_stable (p : Q) (l : list A) :
  filter (fun y => Qeq_bool (key y) p) (sort cmp l)
  = filter (fun y => Qeq_bool (key y) p) l.
Proof.
  induction l as [|x t IH]; [reflexivity|].
  cbn [sort fold_right]. fold (sort cmp t). rewrite insert_stable.
  cbn [filter]. rewrite IH. reflexivity.
Qed.

(** Sorting a list that is in order already changes nothing. *)
Lemma insert_descending_head (x : A) (l : list A) :
  Forall (fun y => key y <= key x) l -> insert cmp x l = x :: l.
Proof.
  intros H. destruct l as [|y t]; [reflexivity|].
  cbn [insert]. inversion H; subst.
  rewrite (proj2 (cmp_le cmp key cmp_key x y)); auto.
Qed.

Lemma sort_descending_id (l : list A) : descending key l -> sort cmp l = l.
Proof.
  unfold descending. induction 1 as [|x t Ht IH Hx]; [reflexivity|].
  cbn [sort fold_right]. fold (sort cmp t). rewrite IH.
  apply insert_descending_head, Hx.
Qed.
End Stable.

Lemma Qeq_bool_inject_Z (a b : Z) :
  Qeq_bool (inject_Z a) (inject_Z b) = (a =? b)%Z.
Proof.
  unfold Qeq_bool, inject_Z. simpl. rewrite !Z.mul_1_r. reflexivity.
Qed.

End StableFacts.

(* ================================================================== *)
(** ** Priority Scorer: keywords *)
(* ================================================================== *)

Module KeywordFacts.
Import Js Spec JsFacts.

(** The loops over a keyword table add their step once per keyword that
    occurs. *)
Lemma add_per_term_hits (text : string) (inc : Z) (terms : list string)
  (p : Z) :
  Server.add_per_term text inc terms p
  = (p + inc * Z.of_nat (hits text terms))%Z.
Proof.
  unfold Server.add_per_term, hits. revert p.
  induction terms as [|t ts IH]; intros p; simpl; [lia|].
  destruct (includes text t); rewrite IH; simpl length; lia.
Qed.

Lemma score_words_hits (text : string) (step : Z) (words : list string)
  (s : Z) :
  Server.score_words text step words s
  = (s + step * Z.of_nat (hits text words))%Z.
Proof. apply (add_per_term_hits text step words s). Qed.

Lemma hits_one (text : string) (words : list string) (w : string) :
  In w words -> includes text w = true -> (1 <= hits text words)%nat.
Proof.
  intros Hin Hw. unfold hits.
  assert (H : In w (filter (includes text) words))
    by (apply filter_In; auto).
  destruct (filter (includes text) words); [contradiction | simpl; lia].
Qed.

Lemma hits_two (text : string) (words : list string) (v w : string) :
  In v words -> In w words -> v <> w ->
  includes text v = true -> includes text w = true ->
  (2 <= hits text words)%nat.
Proof.
  intros Hv Hw Hne Ev Ew. unfold hits.
  assert (H1 : In v (filter (includes text) words))
    by (apply filter_In; auto).
  assert (H2 : In w (filter (includes text) words))
    by (apply filter_In; auto).
  destruct (filter (includes text) words) as [|a [|b l]]; simpl in *.
  - contradiction.
  - destruct H1 as [<-|[]]. destruct H2 as [<-|[]]. contradiction.
  - lia.
Qed.

Lemma some_in2_hit (terms : list string) (a b t : string) :
  In t terms -> includes a t = true \/ includes b t = true ->
  some_in2 terms a b = true.
Proof.
  intros Hin H. unfold some_in2. apply existsb_exists. exists t.
  split; [exact Hin|]. apply orb_true_iff, H.
Qed.

(** The text the back end searches holds both fields. *)
Lemma joined_text_includes (a b t : string) :
  includes (toLowerCase a) t = true \/ includes (toLowerCase b) t = true ->
  includes (toLowerCase (a ++ " " ++ b)) t = true.
Proof.
  rewrite !TextFacts.toLowerCase_app. intros [H|H].
  - apply TextFacts.includes_app_l, H.
  - apply TextFacts.includes_app_r, TextFacts.includes_app_r, H.
Qed.

Lemma client_terms_are_critical (t : string) :
  In t Client.criticalTerms -> In t Server.criticalTerms.
Proof.
  unfold Client.criticalTerms, Server.criticalTerms. simpl. tauto.
Qed.

Lemma gt_2_gt_0 (x : jsnum) : gt x 2 = true -> gt x 0 = true.
Proof.
  destruct x as [|neg|q]; simpl; auto.
  intros H. apply Qltb_lt in H. apply Qltb_lt.
  eapply Qlt_trans; [|exact H]. reflexivity.
Qed.

End KeywordFacts.

(* ================================================================== *)
(** ** Further properties of the sources *)
(* ================================================================== *)

(** X1.  A 311 record whose complaint type or descriptor mentions a
    critical term scores at least 90 on the back end; it scores 100 when
    its status is 'Open' as well, or when it mentions two different
    critical terms. *)
Theorem X1_critical_term_scores (incident : Server.NYC311Row)
  (term : string) :
  In term Server.criticalTerms ->
  mentions (Server.nyc_complaint_type incident) term = true
  \/ mentions (Server.nyc_descriptor incident) term = true ->
  (90 <= Server.calculatePriority incident)%Z
  /\ (str_is (Server.nyc_status incident) "Open" = true ->
      Server.calculatePriority incident = 100%Z)
  /\ (forall other,
         In other Server.criticalTerms -> other <> term ->
         mentions (Server.nyc_complaint_type incident) other = true
         \/ mentions (Server.nyc_descriptor incident) other = true ->
         Server.calculatePriority incident = 100%Z).
Proof.
  intros Hin Hm. unfold mentions in *.
  apply KeywordFacts.joined_text_includes in Hm.
  unfold Server.calculatePriority.
  set (text := toLowerCase _) in *.
  rewrite !KeywordFacts.add_per_term_hits.
  pose proof (KeywordFacts.hits_one text _ _ Hin Hm) as H1.
  split; [|split].
  - destruct (str_is _ _); lia.
  - intros ->. lia.
  - intros other Hin' Hne Hm'.
    apply KeywordFacts.joined_text_includes in Hm'. fold text in Hm'.
    pose proof (KeywordFacts.hits_two text _ _ _ Hin' Hin Hne Hm' Hm) as H2.
    destruct (str_is _ _); lia.
Qed.

(** X1 at work: a gas leak reported with an explosion. *)
Lemma X1_critical_term_scores_witness :
  let incident :=
    Server.mkNYC311Row (Some "9") (Some "Gas Leak") (Some "Explosion heard")
      (Some "40.7") (Some "-74.0") (Some "Closed") in
  In "gas leak" Server.criticalTerms
  /\ mentions (Server.nyc_complaint_type incident) "gas leak" = true
  /\ (90 <= Server.calculatePriority incident)%Z.
Proof.
  intros incident.
  assert (Hin : In "gas leak" Server.criticalTerms) by (simpl; tauto).
  assert (Hm : mentions (Server.nyc_complaint_type incident) "gas leak" = true)
    by reflexivity.
  split; [exact Hin|]. split; [exact Hm|].
  exact (proj1 (X1_critical_term_scores incident "gas leak" Hin (or_introl Hm))).
Defined.

(** X2.  For one and the same 311 row the score of the back end is never
    below the score of the fallback scorer of the browser. *)
Theorem X2_backend_score_not_below_browser_score (row : Server.NYC311Row) :
  (Client.calculatePriority row <= Server.calculatePriority row)%Z.
Proof.
  unfold Client.calculatePriority, Server.calculatePriority.
  set (text := toLowerCase (_ ++ _)).
  rewrite !KeywordFacts.add_per_term_hits.
  destruct (some_in2 Client.criticalTerms _ _) eqn:E.
  - unfold some_in2 in E. apply existsb_exists in E.
    destruct E as [t [Hin Ht]]. apply orb_true_iff in Ht.
    apply KeywordFacts.joined_text_includes in Ht. fold text in Ht.
    pose proof (KeywordFacts.hits_one text _ _
                  (KeywordFacts.client_terms_are_critical _ Hin) Ht) as H1.
    destruct (str_is _ _); lia.
  - destruct (str_is _ _); lia.
Qed.

(** X3.  A Chicago crime whose type or description mentions one of the
    critical crimes (homicide, robbery, ...) scores 95 or 100 whatever
    else it mentions; an Evansville crime that mentions one of its
    critical crimes scores exactly 95. *)
Theorem X3_critical_crime_scores :
  (forall clk crime keyword,
      In keyword Server.chicago_critical ->
      mentions (Server.crime_primary_type crime) keyword = true
      \/ mentions (Server.crime_description crime) keyword = true ->
      Server.calculateChicagoCrimePriority clk crime
      = (if dated_within_last_hour clk crime then 100 else 95)%Z)
  /\ (forall attrs keyword,
         In keyword Server.evansville_critical ->
         mentions (Server.ev_Map_Crime attrs) keyword = true
         \/ mentions (Server.ev_chrgdesc attrs) keyword = true ->
         Server.calculateEvansvilleCrimePriority attrs = 95%Z).
Proof.
  split.
  - intros clk crime keyword Hin Hm. unfold mentions in Hm.
    unfold Server.calculateChicagoCrimePriority, dated_within_last_hour.
    rewrite (KeywordFacts.some_in2_hit _ _ _ _ Hin Hm).
    destruct (Server.crime_date crime) as [[|c r]|]; try reflexivity.
    cbn [truthy_str andb].
    destruct (Server.within_last_hour clk (String c r)); reflexivity.
  - intros attrs keyword Hin Hm. unfold mentions in Hm.
    unfold Server.calculateEvansvilleCrimePriority.
    rewrite (KeywordFacts.some_in2_hit _ _ _ _ Hin Hm). reflexivity.
Qed.

(** X3 at work: a homicide that is also a theft and a battery. *)
Lemma X3_critical_crime_scores_witness :
  let clk := Server.mkClock 0 (fun _ => None) "2026-01-01T00:00:00.000Z" in
  let crime :=
    Server.mkChiCrimeRow (Some "1") (Some "HOMICIDE")
      (Some "THEFT AND BATTERY") None None None None in
  In "homicide" Server.chicago_critical
  /\ mentions (Server.crime_primary_type crime) "homicide" = true
  /\ Server.calculateChicagoCrimePriority clk crime = 95%Z.
Proof.
  intros clk crime.
  assert (Hin : In "homicide" Server.chicago_critical) by (simpl; tauto).
  assert (Hm : mentions (Server.crime_primary_type crime) "homicide" = true)
    by reflexivity.
  split; [exact Hin|]. split; [exact Hm|].
  exact (proj1 X3_critical_crime_scores clk crime "homicide" Hin
           (or_introl Hm)).
Defined.

(** X4.  A traffic crash scores 100 exactly when it counts a fatal injury,
    and scores 70 or more exactly when it counts an injury of any kind or
    is a hit and run; otherwise it scores 45 or 55. *)
Theorem X4_crash_score_levels (crash : Server.ChiCrashRow) :
  let fatal := gt (parseInt (Server.crash_injuries_fatal crash)) 0 in
  let incapacitating :=
    gt (parseInt (Server.crash_injuries_incapacitating crash)) 0 in
  let injured := gt (parseInt (Server.crash_injuries_total crash)) 0 in
  let hit_and_run := str_is (Server.crash_hit_and_run_i crash) "Y" in
  (Server.calculateCrashPriority crash = 100%Z <-> fatal = true)
  /\ ((70 <= Server.calculateCrashPriority crash)%Z
      <-> fatal || incapacitating || injured || hit_and_run = true)
  /\ (fatal || incapacitating || injured || hit_and_run = false ->
      Server.calculateCrashPriority crash = 45%Z
      \/ Server.calculateCrashPriority crash = 55%Z).
Proof.
  intros fatal incapacitating injured hit_and_run.
  subst fatal incapacitating injured hit_and_run.
  unfold Server.calculateCrashPriority.
  pose proof (KeywordFacts.gt_2_gt_0
                (parseInt (Server.crash_injuries_total crash))) as H2.
  destruct (gt (parseInt (Server.crash_injuries_fatal crash)) 0);
    destruct (gt (parseInt (Server.crash_injuries_incapacitating crash)) 0);
    destruct (gt (parseInt (Server.crash_injuries_total crash)) 2);
    destruct (gt (parseInt (Server.crash_injuries_total crash)) 0);
    destruct (str_is (Server.crash_hit_and_run_i crash) "Y");
    destruct (str_is (Server.crash_damage crash) "OVER $1,500");
    cbn [orb];
    try (specialize (H2 eq_refl); discriminate);
    (split; [split; intros; (lia || congruence || reflexivity)
            | split; [split; intros; (lia || congruence || reflexivity)
                     | intros; (discriminate || (left; reflexivity)
                                || (right; reflexivity))]]).
Qed.

(** X4 at work: no injury, no hit and run, damage over $1,500. *)
Lemma X4_crash_score_levels_witness :
  let crash :=
    Server.mkChiCrashRow (Some "c1") (Some "REAR END") None
      (Some "41.9") (Some "-87.6") (Some "0") (Some "0") (Some "0")
      (Some "N") (Some "OVER $1,500") in
  gt (parseInt (Server.crash_injuries_fatal crash)) 0
  || gt (parseInt (Server.crash_injuries_incapacitating crash)) 0
  || gt (parseInt (Server.crash_injuries_total crash)) 0
  || str_is (Server.crash_hit_and_run_i crash) "Y" = false
  /\ (Server.calculateCrashPriority crash = 45%Z
      \/ Server.calculateCrashPriority crash = 55%Z).
Proof.
  intros crash.
  assert (H : gt (parseInt (Server.crash_injuries_fatal crash)) 0
              || gt (parseInt (Server.crash_injuries_incapacitating crash)) 0
              || gt (parseInt (Server.crash_injuries_total crash)) 0
              || str_is (Server.crash_hit_and_run_i crash) "Y" = false)
    by reflexivity.
  split; [exact H|].
  exact (proj2 (proj2 (X4_crash_score_levels crash)) H).
Defined.

(* ================================================================== *)
(** ** Aggregation Facade: what every record satisfies *)
(* ================================================================== *)

Module RecordFacts.
Import Js Spec JsFacts.

Lemma Forall_filter {A : Type} (P : A -> Prop) (p : A -> bool) (l : list A) :
  Forall P l -> Forall P (filter p l).
Proof.
  rewrite !Forall_forall. intros H x Hx. apply filter_In in Hx. apply H, Hx.
Qed.

Lemma Forall_flat_map {A B : Type} (P : B -> Prop) (f : A -> list B)
  (l : list A) :
  (forall a, In a l -> Forall P (f a)) -> Forall P (flat_map f l).
Proof.
  intros H. apply Forall_forall. intros y Hy. apply in_flat_map in Hy.
  destruct Hy as [a [Ha Hy]].
  specialize (H a Ha). rewrite Forall_forall in H. apply H, Hy.
Qed.

(** Unfolds the adapter behind [Server.run] and splits on whether its
    feed gave rows. *)
Ltac open_adapter :=
  unfold Server.fetchNYC311Incidents, Server.fetchChicago311Incidents,
    Server.fetchChicagoCrimes, Server.fetchChicagoTrafficCrashes,
    Server.fetchChicagoSpeedViolations,
    Server.fetchChicagoRedLightViolations,
    Server.fetchChicagoShotSpotter,
    Server.fetchChicagoBuildingViolations,
    Server.fetchEvansvilleCrimes, Server.fetchEvansvilleShotsFired;
  match goal with
  | |- Forall _ match ?r with _ => _ end => destruct r
  end;
  [try match goal with
       | |- Forall _ (if ?b then _ else _) => destruct b; [constructor|]
       end;
   apply Forall_filter, AdapterFacts.mapi_Forall; intros row index;
   cbn [Server.priority Server.source]
  | constructor].

Lemma run_priority_range (clk : Server.Clock) (w : Server.Upstream)
  (a : Server.Adapter) :
  Forall (fun i => (35 <= Server.priority i <= 100)%Z) (Server.run clk w a).
Proof.
  destruct a; cbn [Server.run]; open_adapter; try lia.
  - pose proof (ScorerFacts.calculatePriority_range row). lia.
  - pose proof (ScorerFacts.calculateChicagoCrimePriority_range clk row). lia.
  - pose proof (ScorerFacts.calculateCrashPriority_range row). lia.
  - pose proof (ScorerFacts.calculateEvansvilleCrimePriority_range (fst row)).
    lia.
Qed.

Lemma run_sources (clk : Server.Clock) (w : Server.Upstream)
  (a : Server.Adapter) :
  Forall (fun i =>
            Server.source i
            = match a with
              | Server.NYC311 => "NYC 311"
              | Server.Chi311 => "Chicago 311"
              | Server.ChiCrimes => "Chicago PD"
              | Server.ChiCrashes => "Chicago DOT"
              | Server.ChiSpeed => "Chicago Speed Cameras"
              | Server.ChiRedLight => "Chicago Red Light Cameras"
              | Server.ChiShots => "ShotSpotter (Historical)"
              | Server.ChiBldg => "Chicago Buildings"
              | Server.EvCrimes => "Evansville PD"
              | Server.EvShots => "Evansville 911"
              end) (Server.run clk w a).
Proof.
  destruct a; cbn [Server.run]; open_adapter; reflexivity.
Qed.

Lemma all_some_null {R : Type} (data : list (option R)) :
  In None data -> Server.all_some data = None.
Proof.
  induction data as [|[x|] t IH]; simpl; intros H.
  - contradiction.
  - destruct H as [H|H]; [discriminate|]. rewrite (IH H). reflexivity.
  - reflexivity.
Qed.

Lemma rows_of_null_row {R : Type} (f : Server.Fetched R) :
  null_row f -> Server.rows_of f = None.
Proof.
  intros [ok [data [-> Hin]]]. destruct ok; simpl; [|reflexivity].
  apply all_some_null, Hin.
Qed.

Lemma all_some_Some_In {R : Type} (data : list (option R)) (rows : list R)
  (x : R) :
  Server.all_some data = Some rows -> In (Some x) data -> In x rows.
Proof.
  revert rows. induction data as [|[y|] t IH]; simpl; intros rows H Hin.
  - contradiction.
  - destruct (Server.all_some t) as [t'|]; [|discriminate].
    inversion H; subst. destruct Hin as [Hin|Hin].
    + inversion Hin; subst. now left.
    + right. apply IH; auto.
  - discriminate.
Qed.

Lemma features_of_null_feature {A : Type}
  (f : Server.Fetched (Server.Feature A)) :
  null_feature f -> Server.features_of f = None.
Proof.
  intros [ok [data [-> [Hin|[feature [Hin Hattr]]]]]];
    unfold Server.features_of; destruct ok; simpl; try reflexivity.
  - rewrite (all_some_null _ Hin). reflexivity.
  - destruct (Server.all_some data) as [rows|] eqn:E; [|reflexivity].
    apply all_some_null. apply in_map_iff. exists feature.
    split; [rewrite Hattr; reflexivity|].
    eapply all_some_Some_In; eassumption.
Qed.

Lemma run_null_row (clk : Server.Clock) (w : Server.Upstream)
  (a : Server.Adapter) :
  feed_has_null_row w a -> Server.run clk w a = [].
Proof.
  destruct a; cbn [feed_has_null_row Server.run]; intros H;
    first [ unfold Server.fetchNYC311Incidents, Server.fetchChicago311Incidents,
              Server.fetchChicagoCrimes, Server.fetchChicagoTrafficCrashes,
              Server.fetchChicagoSpeedViolations,
              Server.fetchChicagoRedLightViolations,
              Server.fetchChicagoShotSpotter,
              Server.fetchChicagoBuildingViolations;
            rewrite (rows_of_null_row _ H); reflexivity
          | unfold Server.fetchEvansvilleCrimes, Server.fetchEvansvilleShotsFired;
            rewrite (features_of_null_feature _ H); reflexivity ].
Qed.

End RecordFacts.

Module CameraFacts.
Import Js Spec JsFacts.

(** [Math.floor(Math.random() * k)] lies in [0, k). *)
Lemma floor_random_range (r : Q) (k : Z) :
  (0 < k)%Z -> 0 <= r -> r < 1 ->
  (0 <= Math_floor (r * inject_Z k) < k)%Z.
Proof.
  intros Hk H0 H1. unfold Math_floor.
  assert (Hkq : 0 < inject_Z k).
  { change (inject_Z 0 < inject_Z k). rewrite <- Zlt_Qlt. exact Hk. }
  split.
  - change 0%Z with (Qfloor (inject_Z 0)). apply Qfloor_resp_le.
    change (inject_Z 0) with 0. apply Qmult_le_0_compat; [exact H0|].
    apply Qlt_le_weak, Hkq.
  - assert (Hlt : r * inject_Z k < inject_Z k).
    { setoid_replace (inject_Z k) with (1 * inject_Z k) at 2 by ring.
      apply Qmult_lt_compat_r; assumption. }
    pose proof (Qfloor_le (r * inject_Z k)) as Hf.
    rewrite Zlt_Qlt. eapply Qle_lt_trans; eassumption.
Qed.

Lemma cameras_handler_merge (w : Server.CamUpstream) (param : option string) :
  Server.cameras_handler w param
  = sort Server.by_viewers
      (Server.fetchNYCCameras (Server.rnd_nyc w) (Server.up_nyc_cams w)
       ++ Server.fetchChicagoCameras (Server.rnd_chi w) (Server.up_chi_cams w)
       ++ Server.fetchCaliforniaCameras (Server.rnd_ca w)
       ++ Server.fetchDCCameras (Server.rnd_dc w)
       ++ Server.fetchInternationalCameras (Server.rnd_intl w)).
Proof. reflexivity. Qed.

Lemma by_viewers_key (x y : Server.Camera) :
  Server.by_viewers x y
  == inject_Z (Server.cam_viewers y) - inject_Z (Server.cam_viewers x).
Proof.
  unfold Server.by_viewers, Z.sub, Qminus.
  rewrite inject_Z_plus, inject_Z_opp. reflexivity.
Qed.

Lemma descending_viewers (l : list Server.Camera) :
  descending (fun c => inject_Z (Server.cam_viewers c)) l ->
  StronglySorted
    (fun a b => (Server.cam_viewers b <= Server.cam_viewers a)%Z) l.
Proof.
  unfold descending. induction 1 as [|x t Ht IH Hx]; constructor.
  - exact IH.
  - eapply Forall_impl; [|exact Hx]. intros y Hy. rewrite Zle_Qle. exact Hy.
Qed.

Lemma static_cameras_length (rnd : nat -> Q) (scale offset : Z)
  (source_of : Server.StaticCam -> string) (cams : list Server.StaticCam) :
  length (Server.static_cameras rnd scale offset source_of cams) = length cams.
Proof. apply AdapterFacts.mapi_length. Qed.

Lemma static_cameras_viewers (rnd : nat -> Q) (scale offset : Z)
  (source_of : Server.StaticCam -> string) (cams : list Server.StaticCam) :
  (0 < scale)%Z -> unit_interval rnd ->
  Forall (fun c => (offset <= Server.cam_viewers c < offset + scale)%Z)
    (Server.static_cameras rnd scale offset source_of cams).
Proof.
  intros Hs Hr. apply AdapterFacts.mapi_Forall. intros cam i.
  cbn [Server.cam_viewers]. destruct (Hr i) as [H0 H1].
  pose proof (floor_random_range (rnd i) scale Hs H0 H1). lia.
Qed.

End CameraFacts.

(** X5.  The sort of GET /api/incidents is stable: the records of any one
    priority come out in the order in which the adapters were merged and,
    within an adapter, in the order of its rows. *)
Theorem X5_equal_priorities_keep_merge_order (clk : Server.Clock)
  (w : Server.Upstream) (param : option string) (p : Z) :
  filter (fun i => (Server.priority i =? p)%Z)
    (Server.incidents_handler clk w param)
  = filter (fun i => (Server.priority i =? p)%Z)
      (flat_map (Server.run clk w) (Server.fan_out param)).
Proof.
  rewrite FacadeFacts.incidents_handler_merge.
  rewrite !(filter_ext (fun i => (Server.priority i =? p)%Z)
              (fun i => Qeq_bool (inject_Z (Server.priority i)) (inject_Z p)))
    by (intros i; symmetry; apply StableFacts.Qeq_bool_inject_Z).
  apply (StableFacts.sort_stable Server.by_priority
           (fun i => inject_Z (Server.priority i))
           FacadeFacts.by_priority_key).
Qed.

(** X6.  Every record GET /api/incidents returns, for any city and any
    outcome of the feeds, has a priority between 35 and 100. *)
Theorem X6_incident_priorities_within_35_100 (clk : Server.Clock)
  (w : Server.Upstream) (param : option string) :
  Forall (fun i => (35 <= Server.priority i <= 100)%Z)
    (Server.incidents_handler clk w param).
Proof.
  rewrite FacadeFacts.incidents_handler_merge.
  apply Forall_sort, RecordFacts.Forall_flat_map.
  intros a _. apply RecordFacts.run_priority_range.
Qed.

(** X7.  A request for Chicago (the code in any case) returns records of
    the seven Chicago sources only, a request for Evansville records of
    the two Evansville sources only. *)
Theorem X7_city_request_returns_city_sources (clk : Server.Clock)
  (w : Server.Upstream) (city : string) :
  (toLowerCase city = "chicago" ->
   Forall (fun i => In (Server.source i) chicago_sources)
     (Server.incidents_handler clk w (Some city)))
  /\ (toLowerCase city = "evansville" ->
      Forall (fun i => In (Server.source i) evansville_sources)
        (Server.incidents_handler clk w (Some city))).
Proof.
  split; intros Hc;
    rewrite FacadeFacts.incidents_handler_merge;
    apply Forall_sort, RecordFacts.Forall_flat_map;
    unfold Server.fan_out, Server.city_of; cbn [option_map str_is];
    rewrite Hc; cbn [String.eqb Ascii.eqb Bool.eqb];
    intros a Ha;
    (eapply Forall_impl; [|apply RecordFacts.run_sources]);
    intros i ->; cbn [In] in Ha;
    repeat (destruct Ha as [<-|Ha]; [cbn; tauto|]); contradiction.
Qed.

(** X7 at work: [?city=Chicago] with a crime and a 311 row of New York. *)
Lemma X7_city_request_returns_city_sources_witness :
  let clk := Server.mkClock 0 (fun _ => None) "2026-01-01T00:00:00.000Z" in
  let noise :=
    Server.mkNYC311Row (Some "1") (Some "Noise") None
      (Some "40.71") (Some "-74.01") (Some "Open") in
  let robbery :=
    Server.mkChiCrimeRow (Some "7") (Some "ROBBERY") (Some "ARMED")
      (Some "41.87") (Some "-87.62") None None in
  let w :=
    Server.mkUpstream
      (Server.Response true (Server.Rows [Some noise]))
      Server.NetworkError
      (Server.Response true (Server.Rows [Some robbery]))
      Server.NetworkError Server.NetworkError Server.NetworkError
      Server.NetworkError Server.NetworkError Server.NetworkError
      Server.NetworkError in
  toLowerCase "Chicago" = "chicago"
  /\ map Server.source (Server.incidents_handler clk w (Some "Chicago"))
     = ["Chicago PD"]
  /\ Forall (fun i => In (Server.source i) chicago_sources)
       (Server.incidents_handler clk w (Some "Chicago")).
Proof.
  intros clk noise robbery w.
  assert (H : toLowerCase "Chicago" = "chicago") by reflexivity.
  split; [exact H|]. split; [reflexivity|].
  exact (proj1 (X7_city_request_returns_city_sources clk w "Chicago") H).
Defined.

(** X8.  The city code is read without regard to case: GET /api/incidents
    and GET /api/radio-streams answer a code and its lower-case form
    alike. *)
Theorem X8_city_code_is_case_insensitive (city : string) :
  (forall clk w,
      Server.incidents_handler clk w (Some city)
      = Server.incidents_handler clk w (Some (toLowerCase city)))
  /\ (forall rnd,
         Server.radio_streams_handler rnd (Some city)
         = Server.radio_streams_handler rnd (Some (toLowerCase city))).
Proof.
  split; intros;
    unfold Server.incidents_handler, Server.radio_streams_handler,
      Server.city_of; cbn [option_map];
    rewrite TextFacts.toLowerCase_idem; reflexivity.
Qed.

(** X9.  One [null] row in the body of a feed voids the whole feed: the
    adapter returns the empty list, and GET /api/incidents returns the
    records of the other adapters only. *)
Theorem X9_null_row_voids_the_feed (clk : Server.Clock) (w : Server.Upstream)
  (param : option string) (a : Server.Adapter) :
  feed_has_null_row w a ->
  Server.run clk w a = []
  /\ Permutation (Server.incidents_handler clk w param)
       (flat_map (Server.run clk w)
          (remove Server.Adapter_eq_dec a (Server.fan_out param))).
Proof.
  intros H. pose proof (RecordFacts.run_null_row clk w a H) as Hnil.
  split; [exact Hnil|].
  rewrite FacadeFacts.incidents_handler_merge.
  rewrite <- (FacadeFacts.flat_map_remove_nil Server.Adapter_eq_dec
                (Server.run clk w) a _ Hnil).
  apply sort_perm.
Qed.

(** X9 at work: two good crime rows and a [null] between them. *)
Lemma X9_null_row_voids_the_feed_witness :
  let clk := Server.mkClock 0 (fun _ => None) "2026-01-01T00:00:00.000Z" in
  let robbery :=
    Server.mkChiCrimeRow (Some "7") (Some "ROBBERY") (Some "ARMED")
      (Some "41.87") (Some "-87.62") None None in
  let w :=
    Server.mkUpstream Server.NetworkError Server.NetworkError
      (Server.Response true
         (Server.Rows [Some robbery; None; Some robbery]))
      Server.NetworkError Server.NetworkError Server.NetworkError
      Server.NetworkError Server.NetworkError Server.NetworkError
      Server.NetworkError in
  feed_has_null_row w Server.ChiCrimes
  /\ Server.run clk w Server.ChiCrimes = [].
Proof.
  intros clk robbery w.
  assert (H : feed_has_null_row w Server.ChiCrimes).
  { exists true, [Some robbery; None; Some robbery].
    split; [reflexivity | simpl; tauto]. }
  split; [exact H|].
  exact (proj1 (X9_null_row_voids_the_feed clk w None Server.ChiCrimes H)).
Defined.

(** X10.  GET /api/cameras returns the cameras of its five adapters, each
    once, in descending order of viewers; as the three static directories
    never fail, it returns at least 25 cameras whatever happens to the two
    feeds. *)
Theorem X10_cameras_merged_sorted_never_empty (w : Server.CamUpstream)
  (param : option string) :
  Permutation (Server.cameras_handler w param)
    (Server.fetchNYCCameras (Server.rnd_nyc w) (Server.up_nyc_cams w)
     ++ Server.fetchChicagoCameras (Server.rnd_chi w) (Server.up_chi_cams w)
     ++ Server.fetchCaliforniaCameras (Server.rnd_ca w)
     ++ Server.fetchDCCameras (Server.rnd_dc w)
     ++ Server.fetchInternationalCameras (Server.rnd_intl w))
  /\ StronglySorted
       (fun a b => (Server.cam_viewers b <= Server.cam_viewers a)%Z)
       (Server.cameras_handler w param)
  /\ length (Server.cameras_handler w param)
     = (length (Server.fetchNYCCameras (Server.rnd_nyc w)
                  (Server.up_nyc_cams w))
        + length (Server.fetchChicagoCameras (Server.rnd_chi w)
                    (Server.up_chi_cams w))
        + 25)%nat.
Proof.
  rewrite CameraFacts.cameras_handler_merge. split; [apply sort_perm|].
  split.
  - apply CameraFacts.descending_viewers, sort_descending,
      CameraFacts.by_viewers_key.
  - rewrite sort_length, !length_app.
    unfold Server.fetchCaliforniaCameras, Server.fetchDCCameras,
      Server.fetchInternationalCameras.
    rewrite !CameraFacts.static_cameras_length. simpl. lia.
Qed.

(** X11.  When [Math.random()] returns values in [0, 1), the simulated
    viewer counts lie in [0, 150) for the NYC cameras, [0, 100) for the
    Chicago cameras, [20, 100) for the Caltrans cameras, [10, 70) for the
    DC cameras and [50, 250) for the international ones. *)
Theorem X11_viewer_counts_in_range (rnd : nat -> Q) :
  unit_interval rnd ->
  (forall r, Forall (fun c => (0 <= Server.cam_viewers c < 150)%Z)
               (Server.fetchNYCCameras rnd r))
  /\ (forall r, Forall (fun c => (0 <= Server.cam_viewers c < 100)%Z)
                  (Server.fetchChicagoCameras rnd r))
  /\ Forall (fun c => (20 <= Server.cam_viewers c < 100)%Z)
       (Server.fetchCaliforniaCameras rnd)
  /\ Forall (fun c => (10 <= Server.cam_viewers c < 70)%Z)
       (Server.fetchDCCameras rnd)
  /\ Forall (fun c => (50 <= Server.cam_viewers c < 250)%Z)
       (Server.fetchInternationalCameras rnd).
Proof.
  intros Hr. split; [|split; [|split; [|split]]].
  - intros r. unfold Server.fetchNYCCameras.
    destruct (Server.rows_of r); [|constructor].
    apply AdapterFacts.mapi_Forall. intros cam i. cbn [Server.cam_viewers].
    destruct (Hr i) as [H0 H1].
    apply (CameraFacts.floor_random_range (rnd i) 150); [lia | auto | auto].
  - intros r. unfold Server.fetchChicagoCameras.
    destruct (Server.rows_of r); [|constructor].
    apply AdapterFacts.mapi_Forall. intros cam i. cbn [Server.cam_viewers].
    destruct (Hr i) as [H0 H1].
    apply (CameraFacts.floor_random_range (rnd i) 100); [lia | auto | auto].
  - apply (CameraFacts.static_cameras_viewers rnd 80 20); [lia | exact Hr].
  - apply (CameraFacts.static_cameras_viewers rnd 60 10); [lia | exact Hr].
  - apply (CameraFacts.static_cameras_viewers rnd 200 50); [lia | exact Hr].
Qed.

(** X11 at work: every draw is one half. *)
Lemma X11_viewer_counts_in_range_witness :
  let rnd := fun _ : nat => 1 # 2 in
  unit_interval rnd
  /\ Forall (fun c => (50 <= Server.cam_viewers c < 250)%Z)
       (Server.fetchInternationalCameras rnd).
Proof.
  intros rnd.
  assert (H : unit_interval rnd).
  { intros i. split; [discriminate | reflexivity]. }
  split; [exact H|].
  exact (proj2 (proj2 (proj2 (proj2 (X11_viewer_counts_in_range rnd H))))).
Defined.

(* ================================================================== *)
(** ** Hotspot Clusterer: what a cluster holds *)
(* ================================================================== *)

Module GroupFacts.
Import Js Spec JsFacts.

Section DictFacts.
Context {C : Type}.

Lemma lookup_None_keys (k : string) (m : dict C) :
  lookup k m = None <-> ~ In k (map fst m).
Proof.
  induction m as [|[k1 c1] t IH]; simpl; [tauto|].
  destruct (String.eqb k1 k) eqn:E.
  - apply String.eqb_eq in E. split; [discriminate | intros H; tauto].
  - apply String.eqb_neq in E. rewrite IH. tauto.
Qed.

Lemma update_keys (key : string) (f : C -> C) (m : dict C) :
  map fst (update key f m) = map fst m.
Proof.
  induction m as [|[k1 c1] t IH]; simpl; [reflexivity|].
  destruct (String.eqb k1 key); simpl; [reflexivity|]. rewrite IH.
  reflexivity.
Qed.

Lemma In_update_nodup (k key : string) (c' : C) (f : C -> C) (m : dict C) :
  NoDup (map fst m) ->
  In (k, c') (update key f m) ->
  (k = key /\ exists c, In (key, c) m /\ c' = f c)
  \/ (k <> key /\ In (k, c') m).
Proof.
  induction m as [|[k1 c1] t IH]; simpl; [tauto|].
  intros Hnd. inversion Hnd as [|? ? Hnotin Hnd']; subst.
  destruct (String.eqb k1 key) eqn:E; simpl.
  - apply String.eqb_eq in E. subst k1. intros [H|H].
    + inversion H; subst. left. split; [reflexivity|]. exists c1. auto.
    + right. split; [|now right].
      intros ->. apply Hnotin. apply in_map_iff. exists (key, c'). auto.
  - apply String.eqb_neq in E. intros [H|H].
    + inversion H; subst. right. split; [exact E | now left].
    + destruct (IH Hnd' H) as [[-> [c [Hc ->]]]|[Hne Hin]].
      * left. split; [reflexivity|]. exists c. auto.
      * right. auto.
Qed.

Lemma ensure_keys_nodup (key : string) (fresh : C) (m : dict C) :
  NoDup (map fst m) -> NoDup (map fst (ensure key fresh m)).
Proof.
  intros H. unfold ensure. destruct (lookup key m) eqn:E; [exact H|].
  rewrite map_app. simpl. apply lookup_None_keys in E.
  apply NoDup_app; [exact H | repeat constructor; simpl; tauto|].
  intros x Hx [<-|[]]. contradiction.
Qed.

Lemma In_ensure (k key : string) (c fresh : C) (m : dict C) :
  In (k, c) (ensure key fresh m) ->
  In (k, c) m \/ (lookup key m = None /\ k = key /\ c = fresh).
Proof.
  unfold ensure. destruct (lookup key m) eqn:E; [auto|].
  intros H. apply in_app_or in H. destruct H as [H|[H|[]]]; [auto|].
  inversion H; subst. auto.
Qed.

Lemma lookup_ensure (k key : string) (fresh : C) (m : dict C) :
  lookup k (ensure key fresh m) = None -> lookup k m = None /\ k <> key.
Proof.
  unfold ensure. destruct (lookup key m) eqn:E.
  - intros H. split; [exact H|]. intros ->. congruence.
  - rewrite ClustererFacts.lookup_app.
    destruct (lookup k m); [discriminate|]. simpl.
    destruct (String.eqb key k) eqn:Ek; [discriminate|].
    apply String.eqb_neq in Ek. intros _. split; [reflexivity|].
    intros ->. contradiction.
Qed.

(** One record more in the cell [key]: what holds of every cell and of
    every missing key before, holds in its new form after, when the new
    form follows for the cell of the record and for the other cells. *)
Lemma assign_step (P P' : string -> C -> Prop) (E E' : string -> Prop)
  (m : dict C) (key : string) (fresh : C) (f : C -> C) :
  NoDup (map fst m) ->
  (forall k c, In (k, c) m -> P k c) ->
  (forall k, lookup k m = None -> E k) ->
  (forall c, P key c -> P' key (f c)) ->
  (E key -> P' key (f fresh)) ->
  (forall k c, k <> key -> P k c -> P' k c) ->
  (forall k, k <> key -> E k -> E' k) ->
  NoDup (map fst (update key f (ensure key fresh m)))
  /\ (forall k c, In (k, c) (update key f (ensure key fresh m)) -> P' k c)
  /\ (forall k, lookup k (update key f (ensure key fresh m)) = None -> E' k).
Proof.
  intros Hnd HP HE Hhit Hnew Hother Hmiss.
  pose proof (ensure_keys_nodup key fresh m Hnd) as Hnd1.
  split; [rewrite update_keys; exact Hnd1|]. split.
  - intros k c' Hin.
    destruct (In_update_nodup _ _ _ _ _ Hnd1 Hin)
      as [[-> [c [Hc ->]]]|[Hne Hc]].
    + destruct (In_ensure _ _ _ _ _ Hc) as [Hc'|[Hl [_ ->]]].
      * apply Hhit, HP, Hc'.
      * apply Hnew, HE, Hl.
    + destruct (In_ensure _ _ _ _ _ Hc) as [Hc'|[_ [-> _]]].
      * apply Hother; [exact Hne | apply HP, Hc'].
      * contradiction.
  - intros k Hk. apply ClustererFacts.lookup_update_None in Hk.
    apply lookup_ensure in Hk. destruct Hk as [Hk Hne].
    apply Hmiss; [exact Hne | apply HE, Hk].
Qed.
End DictFacts.

Lemma fold_left_invariant {A S : Type} (step : S -> A -> S)
  (Inv : list A -> S -> Prop) :
  (forall done s a, Inv done s -> Inv (done ++ [a])%list (step s a)) ->
  forall l done s, Inv done s -> Inv (done ++ l)%list (fold_left step l s).
Proof.
  intros Hstep. induction l as [|a t IH]; intros done s H; simpl.
  - rewrite app_nil_r. exact H.
  - replace (done ++ a :: t)%list with ((done ++ [a]) ++ t)%list
      by (rewrite <- app_assoc; reflexivity).
    apply IH, Hstep, H.
Qed.

Lemma cell_incidents_app (k : string) (l1 l2 : list (option Server.IncidentIn)) :
  cell_incidents k (l1 ++ l2)
  = (cell_incidents k l1 ++ cell_incidents k l2)%list.
Proof. apply flat_map_app. Qed.

Lemma cell_cameras_app (k : string) (l1 l2 : list (option Server.CameraIn)) :
  cell_cameras k (l1 ++ l2)
  = (cell_cameras k l1 ++ cell_cameras k l2)%list.
Proof. apply flat_map_app. Qed.

End GroupFacts.

Module ClusterContents.
Import Js Spec JsFacts GroupFacts.

Lemma cell_incidents_snoc (k : string)
  (done : list (option Server.IncidentIn)) (inc : Server.IncidentIn)
  (la ln : Q) :
  Server.located (Server.in_lat inc) (Server.in_lng inc) = Some (la, ln) ->
  cell_incidents k (done ++ [Some inc])
  = (cell_incidents k done
     ++ (if String.eqb (Server.cluster_key la ln) k then [inc] else []))%list.
Proof.
  intros H. rewrite cell_incidents_app. f_equal.
  unfold cell_incidents. simpl. rewrite H. apply app_nil_r.
Qed.

Lemma cell_cameras_snoc (k : string)
  (done : list (option Server.CameraIn)) (cam : Server.CameraIn)
  (la ln : Q) :
  Server.located (Server.cin_lat cam) (Server.cin_lng cam) = Some (la, ln) ->
  Server.trending (Server.cin_viewers cam) = true ->
  cell_cameras k (done ++ [Some cam])
  = (cell_cameras k done
     ++ (if String.eqb (Server.cluster_key la ln) k then [cam] else []))%list.
Proof.
  intros H Ht. rewrite cell_cameras_app. f_equal.
  unfold cell_cameras. simpl. rewrite H, Ht. apply app_nil_r.
Qed.

(** A record that is not assigned leaves every cell as it is. *)
Lemma cell_incidents_skip (k : string)
  (done : list (option Server.IncidentIn)) (o : option Server.IncidentIn) :
  match o with
  | Some inc =>
      Server.located (Server.in_lat inc) (Server.in_lng inc) = None
  | None => True
  end ->
  cell_incidents k (done ++ [o]) = cell_incidents k done.
Proof.
  intros H. rewrite cell_incidents_app. unfold cell_incidents at 2.
  destruct o as [inc|]; simpl; [rewrite H|]; apply app_nil_r.
Qed.

Lemma cell_cameras_skip (k : string)
  (done : list (option Server.CameraIn)) (o : option Server.CameraIn) :
  match o with
  | Some cam =>
      Server.located (Server.cin_lat cam) (Server.cin_lng cam) = None
      \/ Server.trending (Server.cin_viewers cam) = false
  | None => True
  end ->
  cell_cameras k (done ++ [o]) = cell_cameras k done.
Proof.
  intros H. rewrite cell_cameras_app. unfold cell_cameras at 2.
  destruct o as [cam|]; simpl; [|apply app_nil_r].
  destruct H as [H|H]; rewrite H.
  - apply app_nil_r.
  - destruct (Server.located _ _) as [[la ln]|]; apply app_nil_r.
Qed.

Lemma grouped_skip_incident (done : list (option Server.IncidentIn))
  (o : option Server.IncidentIn) (m : Server.Clusters) :
  match o with
  | Some inc =>
      Server.located (Server.in_lat inc) (Server.in_lng inc) = None
  | None => True
  end ->
  grouped done [] m -> grouped (done ++ [o]) [] m.
Proof.
  intros H (Hnd & HP & HE). unfold grouped, cell_total, cell_weights.
  split; [exact Hnd|].
  split; intros k; rewrite (cell_incidents_skip k done o H);
    [apply HP | apply HE].
Qed.

Lemma grouped_skip_camera (incidents : list (option Server.IncidentIn))
  (done : list (option Server.CameraIn)) (o : option Server.CameraIn)
  (m : Server.Clusters) :
  match o with
  | Some cam =>
      Server.located (Server.cin_lat cam) (Server.cin_lng cam) = None
      \/ Server.trending (Server.cin_viewers cam) = false
  | None => True
  end ->
  grouped incidents done m -> grouped incidents (done ++ [o]) m.
Proof.
  intros H (Hnd & HP & HE). unfold grouped, cell_total, cell_weights.
  split; [exact Hnd|].
  split; intros k; rewrite (cell_cameras_skip k done o H);
    [apply HP | apply HE].
Qed.

Lemma running_total_snoc (l : list Q) (w : Q) :
  running_total (l ++ [w]) = add (running_total l) (Fin w).
Proof. unfold running_total. rewrite fold_left_app. reflexivity. Qed.

Lemma cell_total_empty (k : string)
  (incidents : list (option Server.IncidentIn))
  (cameras : list (option Server.CameraIn)) :
  cell_incidents k incidents = [] -> cell_cameras k cameras = [] ->
  cell_total k incidents cameras = Fin 0.
Proof.
  intros H1 H2. unfold cell_total, cell_weights. rewrite H1, H2. reflexivity.
Qed.

Lemma cell_total_snoc_incident (k : string)
  (done : list (option Server.IncidentIn)) (inc : Server.IncidentIn)
  (la ln : Q) :
  Server.located (Server.in_lat inc) (Server.in_lng inc) = Some (la, ln) ->
  cell_total k (done ++ [Some inc]) []
  = if String.eqb (Server.cluster_key la ln) k
    then add (cell_total k done [])
           (Fin (Server.or_50 (Server.in_priority inc)))
    else cell_total k done [].
Proof.
  intros H. unfold cell_total, cell_weights.
  rewrite (cell_incidents_snoc k done inc la ln H).
  destruct (String.eqb (Server.cluster_key la ln) k).
  - cbn [cell_cameras flat_map map]. rewrite !app_nil_r, map_app.
    apply running_total_snoc.
  - rewrite !app_nil_r. reflexivity.
Qed.

Lemma cell_total_snoc_camera (k : string)
  (incidents : list (option Server.IncidentIn))
  (done : list (option Server.CameraIn)) (cam : Server.CameraIn)
  (la ln : Q) :
  Server.located (Server.cin_lat cam) (Server.cin_lng cam) = Some (la, ln) ->
  Server.trending (Server.cin_viewers cam) = true ->
  cell_total k incidents (done ++ [Some cam])
  = if String.eqb (Server.cluster_key la ln) k
    then add (cell_total k incidents done) (Fin (Server.viewers_of cam))
    else cell_total k incidents done.
Proof.
  intros H Ht. unfold cell_total, cell_weights.
  rewrite (cell_cameras_snoc k done cam la ln H Ht).
  destruct (String.eqb (Server.cluster_key la ln) k).
  - rewrite map_app, app_assoc. apply running_total_snoc.
  - rewrite !app_nil_r. reflexivity.
Qed.

Lemma grouped_add_incident (done : list (option Server.IncidentIn))
  (o : option Server.IncidentIn) (m : Server.Clusters) :
  grouped done [] m -> grouped (done ++ [o]) [] (Server.add_incident m o).
Proof.
  intros H. unfold Server.add_incident.
  destruct o as [inc|]; [|apply grouped_skip_incident; [exact I | exact H]].
  destruct (Server.located (Server.in_lat inc) (Server.in_lng inc))
    as [[la ln]|] eqn:Hloc;
    [|apply (grouped_skip_incident done (Some inc)); assumption].
  destruct H as (Hnd & HP & HE). unfold grouped.
  apply (assign_step
           (fun k c =>
              Server.cl_incidents c = cell_incidents k done
              /\ Server.cl_cameras c = cell_cameras k []
              /\ Server.totalPriority c = cell_total k done [])
           (fun k c =>
              Server.cl_incidents c = cell_incidents k (done ++ [Some inc])
              /\ Server.cl_cameras c = cell_cameras k []
              /\ Server.totalPriority c
                 = cell_total k (done ++ [Some inc]) [])
           (fun k => cell_incidents k done = [] /\ cell_cameras k [] = [])
           (fun k => cell_incidents k (done ++ [Some inc]) = []
                     /\ cell_cameras k [] = []));
    try assumption.
  - intros c (H1 & H2 & H3).
    rewrite (cell_incidents_snoc _ done inc la ln Hloc),
      (cell_total_snoc_incident _ done inc la ln Hloc).
    rewrite String.eqb_refl. cbn.
    rewrite H1, H2, H3. repeat split.
  - intros (H1 & H2).
    rewrite (cell_incidents_snoc _ done inc la ln Hloc),
      (cell_total_snoc_incident _ done inc la ln Hloc).
    rewrite String.eqb_refl, H1, (cell_total_empty _ _ _ H1 H2). cbn.
    repeat split.
  - intros k c Hne (H1 & H2 & H3).
    rewrite (cell_incidents_snoc _ done inc la ln Hloc),
      (cell_total_snoc_incident _ done inc la ln Hloc).
    assert (E : String.eqb (Server.cluster_key la ln) k = false)
      by (apply String.eqb_neq; congruence).
    rewrite E, app_nil_r. auto.
  - intros k Hne (H1 & H2).
    rewrite (cell_incidents_snoc _ done inc la ln Hloc).
    assert (E : String.eqb (Server.cluster_key la ln) k = false)
      by (apply String.eqb_neq; congruence).
    rewrite E, app_nil_r. auto.
Qed.

Lemma grouped_add_camera (incidents : list (option Server.IncidentIn))
  (done : list (option Server.CameraIn)) (o : option Server.CameraIn)
  (m : Server.Clusters) :
  grouped incidents done m ->
  grouped incidents (done ++ [o]) (Server.add_camera m o).
Proof.
  intros H. unfold Server.add_camera.
  destruct o as [cam|]; [|apply grouped_skip_camera; [exact I | exact H]].
  destruct (Server.located (Server.cin_lat cam) (Server.cin_lng cam))
    as [[la ln]|] eqn:Hloc;
    [|apply (grouped_skip_camera incidents done (Some cam)); auto].
  destruct (Server.trending (Server.cin_viewers cam)) eqn:Htr;
    [|apply (grouped_skip_camera incidents done (Some cam)); auto].
  destruct H as (Hnd & HP & HE). unfold grouped.
  apply (assign_step
           (fun k c =>
              Server.cl_incidents c = cell_incidents k incidents
              /\ Server.cl_cameras c = cell_cameras k done
              /\ Server.totalPriority c = cell_total k incidents done)
           (fun k c =>
              Server.cl_incidents c = cell_incidents k incidents
              /\ Server.cl_cameras c = cell_cameras k (done ++ [Some cam])
              /\ Server.totalPriority c
                 = cell_total k incidents (done ++ [Some cam]))
           (fun k => cell_incidents k incidents = []
                     /\ cell_cameras k done = [])
           (fun k => cell_incidents k incidents = []
                     /\ cell_cameras k (done ++ [Some cam]) = []));
    try assumption.
  - intros c (H1 & H2 & H3).
    rewrite (cell_cameras_snoc _ done cam la ln Hloc Htr),
      (cell_total_snoc_camera _ incidents done cam la ln Hloc Htr).
    rewrite String.eqb_refl. cbn.
    rewrite H1, H2, H3. repeat split.
  - intros (H1 & H2).
    rewrite (cell_cameras_snoc _ done cam la ln Hloc Htr),
      (cell_total_snoc_camera _ incidents done cam la ln Hloc Htr).
    rewrite String.eqb_refl, H1, H2, (cell_total_empty _ _ _ H1 H2). cbn.
    repeat split.
  - intros k c Hne (H1 & H2 & H3).
    rewrite (cell_cameras_snoc _ done cam la ln Hloc Htr),
      (cell_total_snoc_camera _ incidents done cam la ln Hloc Htr).
    assert (E : String.eqb (Server.cluster_key la ln) k = false)
      by (apply String.eqb_neq; congruence).
    rewrite E, app_nil_r. auto.
  - intros k Hne (H1 & H2).
    rewrite (cell_cameras_snoc _ done cam la ln Hloc Htr).
    assert (E : String.eqb (Server.cluster_key la ln) k = false)
      by (apply String.eqb_neq; congruence).
    rewrite E, app_nil_r. auto.
Qed.

Lemma grouped_nil : grouped [] [] [].
Proof.
  split; [constructor|]. split; [intros k c []|]. intros k _. split; reflexivity.
Qed.

(** The clusters of a request group its records by cell. *)
Lemma build_clusters_grouped (incidents : list (option Server.IncidentIn))
  (cameras : list (option Server.CameraIn)) :
  grouped incidents cameras (Server.build_clusters incidents cameras).
Proof.
  unfold Server.build_clusters.
  apply (fold_left_invariant Server.add_camera
           (fun done m => grouped incidents done m)
           (fun done m a => grouped_add_camera incidents done a m)
           cameras []).
  apply (fold_left_invariant Server.add_incident
           (fun done m => grouped done [] m)
           (fun done m a => grouped_add_incident done a m)
           incidents []).
  apply grouped_nil.
Qed.

End ClusterContents.

Module HotspotFacts.
Import Js Spec JsFacts.

Lemma lookup_Some_In {C : Type} (k : string) (c : C) (m : dict C) :
  lookup k m = Some c -> In (k, c) m.
Proof.
  induction m as [|[k' c'] t IH]; simpl; [discriminate|].
  destruct (String.eqb k' k) eqn:E.
  - apply String.eqb_eq in E. intros [= ->]. left. congruence.
  - intros H. right. exact (IH H).
Qed.

Lemma In_cell_incidents (key : string) (inc : Server.IncidentIn)
  (incidents : list (option Server.IncidentIn)) :
  In inc (cell_incidents key incidents)
  <-> In (Some inc) incidents
      /\ exists la ln,
           Server.located (Server.in_lat inc) (Server.in_lng inc)
           = Some (la, ln)
           /\ Server.cluster_key la ln = key.
Proof.
  unfold cell_incidents. rewrite in_flat_map. split.
  - intros [[i|] [Hin H]]; [|destruct H].
    destruct (Server.located (Server.in_lat i) (Server.in_lng i))
      as [[la ln]|] eqn:El; [|destruct H].
    destruct (String.eqb _ _) eqn:E; [|destruct H].
    destruct H as [->|[]]. apply String.eqb_eq in E.
    split; [exact Hin|]. exists la, ln. split; [exact El | exact E].
  - intros [Hin (la & ln & El & E)]. exists (Some inc).
    split; [exact Hin|]. rewrite El.
    apply String.eqb_eq in E. rewrite E. left. reflexivity.
Qed.

Lemma In_cell_cameras (key : string) (cam : Server.CameraIn)
  (cameras : list (option Server.CameraIn)) :
  In cam (cell_cameras key cameras)
  <-> In (Some cam) cameras
      /\ Server.trending (Server.cin_viewers cam) = true
      /\ exists la ln,
           Server.located (Server.cin_lat cam) (Server.cin_lng cam)
           = Some (la, ln)
           /\ Server.cluster_key la ln = key.
Proof.
  unfold cell_cameras. rewrite in_flat_map. split.
  - intros [[i|] [Hin H]]; [|destruct H].
    destruct (Server.located (Server.cin_lat i) (Server.cin_lng i))
      as [[la ln]|] eqn:El; [|destruct H].
    destruct (Server.trending _) eqn:Et; [|destruct H].
    destruct (String.eqb _ _) eqn:E; [|destruct H].
    destruct H as [->|[]]. apply String.eqb_eq in E.
    split; [exact Hin|]. split; [exact Et|].
    exists la, ln. split; [exact El | exact E].
  - intros [Hin [Et (la & ln & El & E)]]. exists (Some cam).
    split; [exact Hin|]. rewrite El, Et.
    apply String.eqb_eq in E. rewrite E. left. reflexivity.
Qed.

(** The hotspots of a request, before and after the cut to 20, are
    hotspots of clusters of the request. *)
Lemma ranked_origin (incidents : list (option Server.IncidentIn))
  (cameras : list (option Server.CameraIn)) (h : Server.Hotspot) :
  In h (Server.ranked incidents cameras) ->
  exists key cluster,
    In (key, cluster) (Server.build_clusters incidents cameras)
    /\ h = Server.hotspot_of cluster
    /\ gt (Server.cluster_intensity cluster) 30 = true.
Proof.
  unfold Server.ranked. rewrite sort_In. unfold Server.to_hotspots.
  rewrite in_flat_map. intros [[key cluster] [Hin H]]. cbn [snd] in H.
  destruct (gt _ 30) eqn:E; [|destruct H]. destruct H as [<-|[]].
  exists key, cluster. split; [exact Hin|]. split; [reflexivity | exact E].
Qed.

(** The intensity of a cluster is the level of its cell. *)
Lemma cluster_level (incidents : list (option Server.IncidentIn))
  (cameras : list (option Server.CameraIn)) (key : string)
  (cluster : Server.Cluster) :
  In (key, cluster) (Server.build_clusters incidents cameras) ->
  Server.cluster_intensity cluster = cell_level key incidents cameras.
Proof.
  intros Hin.
  destruct (ClusterContents.build_clusters_grouped incidents cameras)
    as (_ & HP & _).
  destruct (HP _ _ Hin) as (Hi & Hc & Hw).
  unfold Server.cluster_intensity, cell_level. rewrite Hi, Hc, Hw.
  reflexivity.
Qed.

(** A cell without a record is at level 0. *)
Lemma level_of_empty_cell (key : string)
  (incidents : list (option Server.IncidentIn))
  (cameras : list (option Server.CameraIn)) :
  cell_incidents key incidents = [] -> cell_cameras key cameras = [] ->
  gt (cell_level key incidents cameras) 30 = false.
Proof.
  intros H1 H2. unfold cell_level.
  rewrite (ClusterContents.cell_total_empty _ _ _ H1 H2), H1, H2.
  vm_compute. reflexivity.
Qed.

Lemma add_incident_unlocated (m : Server.Clusters)
  (incidents : list (option Server.IncidentIn)) :
  (forall inc, In (Some inc) incidents ->
     Server.located (Server.in_lat inc) (Server.in_lng inc) = None) ->
  fold_left Server.add_incident incidents m = m.
Proof.
  revert m. induction incidents as [|[inc|] t IH]; intros m H; simpl.
  - reflexivity.
  - rewrite (H inc (or_introl eq_refl)). apply IH.
    intros i Hi. apply H. right. exact Hi.
  - apply IH. intros i Hi. apply H. right. exact Hi.
Qed.

Lemma add_camera_unassigned (m : Server.Clusters)
  (cameras : list (option Server.CameraIn)) :
  (forall cam, In (Some cam) cameras ->
     Server.located (Server.cin_lat cam) (Server.cin_lng cam) = None
     \/ Server.trending (Server.cin_viewers cam) = false) ->
  fold_left Server.add_camera cameras m = m.
Proof.
  revert m. induction cameras as [|[cam|] t IH]; intros m H; cbn [fold_left].
  - reflexivity.
  - assert (E : Server.add_camera m (Some cam) = m).
    { unfold Server.add_camera.
      destruct (H cam (or_introl eq_refl)) as [-> | E]; [reflexivity|].
      rewrite E. destruct (Server.located _ _) as [[la ln]|]; reflexivity. }
    rewrite E. apply IH. intros i Hi. apply H. right. exact Hi.
  - apply IH. intros i Hi. apply H. right. exact Hi.
Qed.

Lemma flat_map_length_le {A B : Type} (f : A -> list B) (l : list A) :
  (forall x, (length (f x) <= 1)%nat) ->
  (length (flat_map f l) <= length l)%nat.
Proof.
  intros H. induction l as [|x t IH]; simpl; [lia|].
  rewrite length_app. specialize (H x). lia.
Qed.

End HotspotFacts.

(* ================================================================== *)
(** ** Hotspot Clusterer: what the cells hold *)
(* ================================================================== *)

(** X12.  The cells the back end builds for a request have distinct keys.
    The cell of a key holds, in request order, exactly the incidents with
    truthy coordinates that round to this key and exactly the cameras with
    truthy coordinates and more than 50 viewers that round to it, and its
    total is the running total of double arithmetic over their priorities
    (50 for a missing or zero one) and then over their viewer counts.
    Every such incident and camera is in a cell. *)
Theorem X12_cells_hold_the_records_of_their_key :
  forall incidents cameras,
    let clusters := Server.build_clusters incidents cameras in
    NoDup (map fst clusters)
    /\ (forall key cluster,
           In (key, cluster) clusters ->
           Server.cl_incidents cluster = cell_incidents key incidents
           /\ Server.cl_cameras cluster = cell_cameras key cameras
           /\ Server.totalPriority cluster
              = cell_total key incidents cameras)
    /\ (forall inc la ln,
           In (Some inc) incidents ->
           Server.located (Server.in_lat inc) (Server.in_lng inc)
           = Some (la, ln) ->
           exists cluster,
             In (Server.cluster_key la ln, cluster) clusters
             /\ In inc (Server.cl_incidents cluster))
    /\ (forall cam la ln,
           In (Some cam) cameras ->
           Server.located (Server.cin_lat cam) (Server.cin_lng cam)
           = Some (la, ln) ->
           Server.trending (Server.cin_viewers cam) = true ->
           exists cluster,
             In (Server.cluster_key la ln, cluster) clusters
             /\ In cam (Server.cl_cameras cluster)).
Proof.
  intros incidents cameras clusters.
  destruct (ClusterContents.build_clusters_grouped incidents cameras)
    as (Hnd & HP & HE). fold clusters in Hnd, HP, HE.
  split; [exact Hnd|]. split; [exact HP|]. split.
  - intros inc la ln Hin Hloc.
    assert (Hc : In inc (cell_incidents (Server.cluster_key la ln) incidents)).
    { apply HotspotFacts.In_cell_incidents. split; [exact Hin|].
      exists la, ln. split; [exact Hloc | reflexivity]. }
    destruct (lookup (Server.cluster_key la ln) clusters) as [c|] eqn:El.
    + apply HotspotFacts.lookup_Some_In in El. exists c.
      split; [exact El|]. rewrite (proj1 (HP _ _ El)). exact Hc.
    + rewrite (proj1 (HE _ El)) in Hc. destruct Hc.
  - intros cam la ln Hin Hloc Htr.
    assert (Hc : In cam (cell_cameras (Server.cluster_key la ln) cameras)).
    { apply HotspotFacts.In_cell_cameras. split; [exact Hin|].
      split; [exact Htr|].
      exists la, ln. split; [exact Hloc | reflexivity]. }
    destruct (lookup (Server.cluster_key la ln) clusters) as [c|] eqn:El.
    + apply HotspotFacts.lookup_Some_In in El. exists c.
      split; [exact El|]. rewrite (proj1 (proj2 (HP _ _ El))). exact Hc.
    + rewrite (proj2 (HE _ El)) in Hc. destruct Hc.
Qed.

(** X13.  Every hotspot the back end returns stands for a cell that holds
    at least one record: its counts are the numbers of incidents and of
    trending cameras of the request in that cell, and its intensity is
    the level of the cell, that is the running total of the cell divided
    by the number of its records plus one, both in double arithmetic, cut
    at 100. *)
Theorem X13_hotspot_counts_and_intensity_by_cell :
  forall clk incidents cameras news,
    Forall (fun h =>
              exists key,
                Server.incidentCount h
                = length (cell_incidents key incidents)
                /\ Server.cameraCount h = length (cell_cameras key cameras)
                /\ (1 <= Server.incidentCount h + Server.cameraCount h)%nat
                /\ cell_level key incidents cameras
                   = Fin (Server.intensity h))
      (Server.hotspots
         (Server.performAlgorithmicAnalysis clk incidents cameras news)).
Proof.
  intros clk incidents cameras news.
  rewrite ClustererFacts.server_hotspots.
  apply Forall_slice0, Forall_forall. intros h Hh.
  destruct (HotspotFacts.ranked_origin _ _ _ Hh)
    as (key & cluster & Hin & -> & Hgt).
  destruct (ClusterContents.build_clusters_grouped incidents cameras)
    as (_ & HP & _).
  destruct (HP _ _ Hin) as (Hi & Hc & _).
  pose proof (HotspotFacts.cluster_level _ _ _ _ Hin) as Hlevel.
  destruct (ClustererFacts.pushed_intensity cluster Hgt) as (Hfin & _ & _).
  exists key. cbn [Server.incidentCount Server.cameraCount Server.hotspot_of].
  rewrite Hi, Hc. split; [reflexivity|]. split; [reflexivity|].
  split; [|rewrite <- Hlevel; exact Hfin].
  destruct (cell_incidents key incidents) as [|i li] eqn:Ei;
    [|simpl; lia].
  destruct (cell_cameras key cameras) as [|c lc] eqn:Ec; [|simpl; lia].
  exfalso. rewrite Hlevel in Hgt.
  rewrite (HotspotFacts.level_of_empty_cell key incidents cameras Ei Ec)
    in Hgt.
  discriminate.
Qed.

(** The level at work: 0.2 + 103.9 + 15.9 is 120.00000000000001 in double
    arithmetic, not 120, and the cell of these three incidents is a
    hotspot of intensity 30.000000000000004. *)
Example running_total_is_in_doubles :
  let clk := Server.mkClock 0 (fun _ => None) "2026-01-01T00:00:00.000Z" in
  let at_priority p :=
    Some (Server.mkIncidentIn (Some 41.87) (Some (-87.63))
            (Some (to_double p)) None) in
  let incidents := [at_priority 0.2; at_priority 103.9; at_priority 15.9] in
  map Server.totalPriority
    (map snd (Server.build_clusters incidents []))
  = [Fin (8444249301319681 # 70368744177664)]
  /\ map Server.intensity
       (Server.hotspots
          (Server.performAlgorithmicAnalysis clk incidents [] []))
     = [8444249301319681 # 281474976710656]
  /\ 120 < 8444249301319681 # 70368744177664
  /\ 30 < 8444249301319681 # 281474976710656.
Proof.
  vm_compute. repeat split.
Qed.

(** X14.  When no incident of the request has truthy coordinates and no
    camera has truthy coordinates and more than 50 viewers, the back end
    reports nothing: no hotspot, no correlation, threat level "low". *)
Theorem X14_nothing_located_nothing_reported :
  forall clk incidents cameras news,
    (forall inc, In (Some inc) incidents ->
       Server.located (Server.in_lat inc) (Server.in_lng inc) = None) ->
    (forall cam, In (Some cam) cameras ->
       Server.located (Server.cin_lat cam) (Server.cin_lng cam) = None
       \/ Server.trending (Server.cin_viewers cam) = false) ->
    let result :=
      Server.performAlgorithmicAnalysis clk incidents cameras news in
    Server.hotspots result = []
    /\ Server.correlations result = []
    /\ Server.threatLevel result = "low"
    /\ Server.summary result
       = "Identified 0 potential hotspots. Overall threat level: low. 0 correlations found between camera activity and incidents.".
Proof.
  intros clk incidents cameras news Hi Hc result. subst result.
  unfold Server.performAlgorithmicAnalysis, Server.ranked,
    Server.build_clusters.
  rewrite (HotspotFacts.add_incident_unlocated [] incidents Hi).
  rewrite (HotspotFacts.add_camera_unassigned [] cameras Hc).
  repeat split.
Qed.

(** X14 at work: an incident at latitude 0 and a camera with 50
    viewers. *)
Lemma X14_nothing_located_nothing_reported_witness :
  let clk := Server.mkClock 0 (fun _ => None) "2026-01-01T00:00:00.000Z" in
  let incidents :=
    [Some (Server.mkIncidentIn (Some 0) (Some (-87.63)) (Some 95) None);
     None] in
  let cameras :=
    [Some (Server.mkCameraIn (Some 41.87) (Some (-87.63)) (Some 50))] in
  Server.hotspots (Server.performAlgorithmicAnalysis clk incidents cameras [])
  = [].
Proof.
  intros clk incidents cameras.
  refine (proj1 (X14_nothing_located_nothing_reported clk incidents cameras []
                   _ _)).
  - intros inc [[= <-]|[[=]|[]]]. reflexivity.
  - intros cam [[= <-]|[]]. right. reflexivity.
Defined.

(** X15.  The back end reports at most five correlations, and each one
    stands for a cell that holds an incident of the request and a camera
    of the request with more than 50 viewers: both have truthy coordinates
    that round to the same key. *)
Theorem X15_correlation_joins_incident_and_trending_camera :
  forall clk incidents cameras news,
    let result :=
      Server.performAlgorithmicAnalysis clk incidents cameras news in
    (length (Server.correlations result) <= 5)%nat
    /\ Forall (fun c =>
                 Server.cor_type c = "incident-camera"
                 /\ exists inc cam la ln la' ln',
                      In (Some inc) incidents
                      /\ In (Some cam) cameras
                      /\ Server.located (Server.in_lat inc)
                           (Server.in_lng inc) = Some (la, ln)
                      /\ Server.located (Server.cin_lat cam)
                           (Server.cin_lng cam) = Some (la', ln')
                      /\ Server.trending (Server.cin_viewers cam) = true
                      /\ Server.cluster_key la ln
                         = Server.cluster_key la' ln')
         (Server.correlations result).
Proof.
  intros clk incidents cameras news result. subst result.
  unfold Server.performAlgorithmicAnalysis. cbn [Server.correlations].
  unfold Server.correlations_of. split.
  - eapply Nat.le_trans; [|apply (length_slice0 5
                                   (Server.ranked incidents cameras))].
    apply HotspotFacts.flat_map_length_le. intros h.
    destruct ((0 <? Server.incidentCount h)%nat
              && (0 <? Server.cameraCount h)%nat); simpl; lia.
  - apply Forall_forall. intros c Hc. apply in_flat_map in Hc.
    destruct Hc as [h [Hh Hc]]. apply In_slice0 in Hh.
    destruct ((0 <? Server.incidentCount h)%nat
              && (0 <? Server.cameraCount h)%nat) eqn:E; [|destruct Hc].
    destruct Hc as [<-|[]]. split; [reflexivity|].
    apply andb_true_iff in E. destruct E as [E1 E2].
    apply Nat.ltb_lt in E1, E2.
    destruct (HotspotFacts.ranked_origin _ _ _ Hh)
      as (key & cluster & Hin & -> & _).
    destruct (ClusterContents.build_clusters_grouped incidents cameras)
      as (_ & HP & _).
    destruct (HP _ _ Hin) as (Hi & Hcam & _).
    simpl in E1, E2. rewrite Hi in E1. rewrite Hcam in E2.
    destruct (cell_incidents key incidents) as [|inc li] eqn:Ei;
      [simpl in E1; lia|].
    destruct (cell_cameras key cameras) as [|cam lc] eqn:Ec;
      [simpl in E2; lia|].
    assert (Hinc : In inc (cell_incidents key incidents))
      by (rewrite Ei; left; reflexivity).
    assert (Hcm : In cam (cell_cameras key cameras))
      by (rewrite Ec; left; reflexivity).
    apply HotspotFacts.In_cell_incidents in Hinc.
    apply HotspotFacts.In_cell_cameras in Hcm.
    destruct Hinc as [Hinc (la & ln & Hl & Hk)].
    destruct Hcm as [Hcm [Htr (la' & ln' & Hl' & Hk')]].
    exists inc, cam, la, ln, la', ln'.
    repeat (split; [assumption|]). congruence.
Qed.

Module NewsFacts.
Import Js Spec JsFacts.

(** [find] returns the first element that passes the test. *)
Lemma find_first {A : Type} (p : A -> bool) (l : list A) (x : A) :
  find p l = Some x ->
  exists before after,
    l = (before ++ x :: after)%list
    /\ p x = true
    /\ Forall (fun y => p y = false) before.
Proof.
  induction l as [|a t IH]; simpl; [discriminate|].
  destruct (p a) eqn:E.
  - intros [= ->]. exists [], t. repeat split; [exact E | constructor].
  - intros H. destruct (IH H) as (before & after & -> & Hx & Hb).
    exists (a :: before), after. repeat split; [exact Hx|].
    constructor; assumption.
Qed.

Lemma mapi_from_map {A B D : Type} (f : A -> nat -> B) (g : B -> D)
  (h : nat -> D) (l : list A) (s : nat) :
  (forall x i, g (f x i) = h i) ->
  map g (map (fun p => f (snd p) (fst p)) (combine (seq s (length l)) l))
  = map h (seq s (length l)).
Proof.
  intros H. revert s. induction l as [|x t IH]; intros s; simpl;
    [reflexivity|].
  rewrite H, IH. reflexivity.
Qed.

Lemma map_mapi_index {A B D : Type} (f : A -> nat -> B) (g : B -> D)
  (h : nat -> D) (l : list A) :
  (forall x i, g (f x i) = h i) ->
  map g (mapi f l) = map h (seq 0 (length l)).
Proof. intros H. apply (mapi_from_map f g h l 0 H). Qed.

End NewsFacts.

(* ================================================================== *)
(** ** News feed *)
(* ================================================================== *)

(** X16.  The sentiment of a title counts every word of the two tables
    once, however often it occurs and whatever the case of the title: the
    title is "negative" when at least two more negative than positive
    words occur in it, "positive" when at least two more positive than
    negative words occur, "neutral" otherwise; a missing or empty title
    is "neutral". *)
Theorem X16_sentiment_counts_words_once :
  (forall title,
      title <> "" ->
      let text := toLowerCase title in
      let bad := hits text Server.negativeWords in
      let good := hits text Server.positiveWords in
      (Server.analyzeSentimentBasic (Some title) = "negative"
       <-> (good + 2 <= bad)%nat)
      /\ (Server.analyzeSentimentBasic (Some title) = "positive"
          <-> (bad + 2 <= good)%nat)
      /\ (Server.analyzeSentimentBasic (Some title) = "neutral"
          <-> (bad < good + 2)%nat /\ (good < bad + 2)%nat))
  /\ Server.analyzeSentimentBasic None = "neutral"
  /\ Server.analyzeSentimentBasic (Some "") = "neutral".
Proof.
  split; [|split; reflexivity].
  intros [|c r] Hne text bad good; [congruence|].
  unfold Server.analyzeSentimentBasic. fold text.
  rewrite !KeywordFacts.score_words_hits. fold bad. fold good.
  destruct (0 + -1 * Z.of_nat bad + 1 * Z.of_nat good <? -1)%Z eqn:E1;
    [|destruct (1 <? 0 + -1 * Z.of_nat bad + 1 * Z.of_nat good)%Z eqn:E2].
  - apply Z.ltb_lt in E1.
    split; [split; [lia | reflexivity]|].
    split; (split; [discriminate | lia]).
  - apply Z.ltb_ge in E1. apply Z.ltb_lt in E2.
    split; [split; [discriminate | lia]|].
    split; [split; [lia | reflexivity]|].
    split; [discriminate | lia].
  - apply Z.ltb_ge in E1. apply Z.ltb_ge in E2.
    split; [split; [discriminate | lia]|].
    split; [split; [discriminate | lia]|].
    split; [lia | reflexivity].
Qed.

(** X16 at work: one alarming word is not enough. *)
Lemma X16_sentiment_counts_words_once_witness :
  "Fire, fire, FIRE downtown" <> ""
  /\ Server.analyzeSentimentBasic (Some "Fire, fire, FIRE downtown")
     = "neutral".
Proof.
  assert (H : "Fire, fire, FIRE downtown" <> "") by discriminate.
  split; [exact H|].
  apply (proj2 (proj2 (proj1 X16_sentiment_counts_words_once _ H))).
  vm_compute. split; lia.
Defined.

(** X17.  The location of a title is the first city of the table whose
    name occurs in the title as it is written (the case matters), and
    there is none exactly when no city of the table occurs or the title
    is missing or empty. *)
Theorem X17_location_is_first_city_named :
  (forall title city,
      Server.extractLocation (Some title) = Some city ->
      includes title city = true
      /\ exists before after,
           Server.cities = (before ++ city :: after)%list
           /\ Forall (fun c => includes title c = false) before)
  /\ (forall title,
         title <> "" ->
         (Server.extractLocation (Some title) = None
          <-> Forall (fun c => includes title c = false) Server.cities))
  /\ Server.extractLocation None = None
  /\ Server.extractLocation (Some "") = None
  /\ Server.extractLocation (Some "Shooting in chicago") = None.
Proof.
  split; [|split; [|repeat split]].
  - intros [|c r] city H; [discriminate|].
    unfold Server.extractLocation in H.
    destruct (NewsFacts.find_first _ _ _ H) as (before & after & E & Hc & Hb).
    split; [exact Hc|]. exists before, after. split; assumption.
  - intros [|c r] Hne; [congruence|]. unfold Server.extractLocation.
    split.
    + intros H. apply Forall_forall. intros x Hx.
      exact (find_none _ _ H x Hx).
    + intros H.
      destruct (find _ Server.cities) as [city|] eqn:E; [|reflexivity].
      apply find_some in E. destruct E as [Hin Hc].
      rewrite Forall_forall in H. rewrite (H city Hin) in Hc. discriminate.
Qed.

(** X17 at work: 'New York' comes before 'Brooklyn' in the table. *)
Lemma X17_location_is_first_city_named_witness :
  Server.extractLocation (Some "Brooklyn fire seen from New York")
  = Some "New York"
  /\ includes "Brooklyn fire seen from New York" "New York" = true.
Proof.
  assert (H : Server.extractLocation (Some "Brooklyn fire seen from New York")
              = Some "New York") by reflexivity.
  split; [exact H|].
  exact (proj1 (proj1 X17_location_is_first_city_named _ _ H)).
Defined.

(** X18.  Whatever the GDELT request yields, the news adapter returns at
    most 20 articles, numbered 'gdelt-0', 'gdelt-1', ... in order, all of
    category 'breaking', none with an empty title, source, time or
    country.  It returns none when the request is rejected, the status is
    not 2xx, the text does not start like JSON or does not parse.  When
    more than five of the articles received look American, the articles
    returned are the first 20 of those, in the order received; otherwise
    they are the first 20 of all articles received.  Each shows the title,
    source, url, time and country of its article. *)
Theorem X18_news_adapter_output :
  forall (JSON_parse : string -> option Server.GdeltBody) clk r,
    let news := Server.fetchGDELTNews JSON_parse clk r in
    (length news <= 20)%nat
    /\ map Server.na_id news
       = map (fun i => "gdelt-" ++ nat_to_string i) (seq 0 (length news))
    /\ Forall (fun n =>
                 Server.na_category n = "breaking"
                 /\ Server.na_title n <> ""
                 /\ Server.na_source n <> ""
                 /\ (Server.isoNow clk <> "" -> Server.na_time n <> "")
                 /\ Server.na_country n <> "") news
    /\ (r = Server.GdeltRejected
        \/ (exists text, r = Server.GdeltResponse false text)
        \/ (exists ok text, r = Server.GdeltResponse ok text
                            /\ (Server.looks_like_json text = false
                                \/ JSON_parse text = None)) ->
        news = [])
    /\ (forall text articles,
           r = Server.GdeltResponse true text ->
           Server.looks_like_json text = true ->
           JSON_parse text = Some (Server.GdeltArticles (map Some articles)) ->
           let american := filter Server.us_source articles in
           map shown news
           = map (received clk)
               (firstn 20 (if (5 <? length american)%nat
                           then american else articles))).
Proof.
  intros JSON_parse clk r news.
  assert (Hshape :
    news = []
    \/ exists l : list Server.GdeltArticle,
         (length l <= 20)%nat
         /\ news
            = mapi (fun article index =>
                {| Server.na_id := "gdelt-" ++ nat_to_string index;
                   Server.na_title :=
                     str_or (Server.ga_title article) "Breaking News";
                   Server.na_source :=
                     str_or (Server.ga_domain article) "GDELT";
                   Server.na_url := Server.ga_url article;
                   Server.na_time :=
                     str_or (Server.ga_seendate article) (Server.isoNow clk);
                   Server.na_imageUrl :=
                     if truthy_str (Server.ga_socialimage article)
                     then Server.ga_socialimage article else None;
                   Server.na_sentiment :=
                     Server.analyzeSentimentBasic (Server.ga_title article);
                   Server.na_location :=
                     Server.extractLocation (Server.ga_title article);
                   Server.na_category := "breaking";
                   Server.na_country :=
                     str_or (Server.ga_sourcecountry article) "Unknown" |})
                l).
  { subst news. unfold Server.fetchGDELTNews.
    destruct r as [|[|] text]; auto.
    destruct (Server.looks_like_json text); auto.
    destruct (JSON_parse text) as [[articles|]|]; auto.
    destruct (Server.all_some articles) as [rows|]; auto.
    right. eexists. split; [|reflexivity]. apply length_slice0. }
  split; [|split; [|split; [|split]]].
  - destruct Hshape as [->|(l & Hl & ->)]; [simpl; lia|].
    rewrite AdapterFacts.mapi_length. exact Hl.
  - destruct Hshape as [->|(l & Hl & ->)]; [reflexivity|].
    rewrite AdapterFacts.mapi_length.
    apply (NewsFacts.map_mapi_index _ Server.na_id
             (fun i => "gdelt-" ++ nat_to_string i)).
    reflexivity.
  - destruct Hshape as [->|(l & Hl & ->)]; [constructor|].
    apply AdapterFacts.mapi_Forall. intros a i. cbn.
    split; [reflexivity|].
    split; [destruct (Server.ga_title a) as [[|]|]; discriminate|].
    split; [destruct (Server.ga_domain a) as [[|]|]; discriminate|].
    split; [|destruct (Server.ga_sourcecountry a) as [[|]|]; discriminate].
    intros Hiso. destruct (Server.ga_seendate a) as [[|]|];
      (exact Hiso || discriminate).
  - subst news. unfold Server.fetchGDELTNews.
    intros [->|[[text ->]|(ok & text & -> & [H|H])]]; try reflexivity.
    + destruct ok; [|reflexivity]. rewrite H. reflexivity.
    + destruct ok; [|reflexivity].
      destruct (Server.looks_like_json text); [|reflexivity].
      rewrite H. reflexivity.
  - intros text articles -> Hj Hp american. subst news.
    unfold Server.fetchGDELTNews.
    rewrite Hj, Hp, AdapterFacts.all_some_map_Some. fold american.
    apply AdapterFacts.map_mapi. reflexivity.
Qed.

(** X18 at work: a single article, from a source that does not look
    American, is returned. *)
Lemma X18_news_adapter_output_witness :
  let clk := Server.mkClock 0 (fun _ => None) "2026-01-01T00:00:00.000Z" in
  let article :=
    Server.mkGdeltArticle (Some "Fire in Paris") (Some "lemonde.fr") None
      None None (Some "France") in
  let parse := fun _ : string =>
    Some (Server.GdeltArticles (map Some [article])) in
  let r := Server.GdeltResponse true "{ articles }" in
  Server.looks_like_json "{ articles }" = true
  /\ map shown (Server.fetchGDELTNews parse clk r)
     = [("Fire in Paris", "lemonde.fr", None, "2026-01-01T00:00:00.000Z",
         "France")].
Proof.
  intros clk article parse r.
  assert (H : Server.looks_like_json "{ articles }" = true)
    by reflexivity.
  split; [exact H|].
  exact (proj2 (proj2 (proj2 (proj2
           (X18_news_adapter_output parse clk r))))
           "{ articles }" [article] eq_refl H eq_refl).
Defined.

(* ================================================================== *)
(** ** Relative times in the browser *)
(* ================================================================== *)

(** X19.  For a date string that denotes the instant [t], the relative
    time depends on the age [now - t] in milliseconds alone: 'Just now'
    below one minute (and for every instant in the future), whole minutes
    below one hour, whole hours below one day, whole days from then on;
    the two nested roundings give the whole hours and the whole days of
    the age itself. *)
Theorem X19_relative_time_by_age (clk : Server.Clock) (dateString : string)
  (t : Z) :
  dateString <> "" ->
  Server.parseDate clk dateString = Some t ->
  let age := (Server.now clk - t)%Z in
  let shown := Client.formatTimeAgo clk (Some dateString) in
  ((age < 60000)%Z -> shown = "Just now")
  /\ ((60000 <= age < 3600000)%Z ->
      shown = Client.Z_to_string (age / 60000) ++ "m ago"
      /\ (1 <= age / 60000 <= 59)%Z)
  /\ ((3600000 <= age < 86400000)%Z ->
      shown = Client.Z_to_string (age / 3600000) ++ "h ago"
      /\ (1 <= age / 3600000 <= 23)%Z)
  /\ ((86400000 <= age)%Z ->
      shown = Client.Z_to_string (age / 86400000) ++ "d ago"
      /\ (1 <= age / 86400000)%Z).
Proof.
  intros Hne Hp age shown. subst shown.
  destruct dateString as [|c r]; [congruence|].
  unfold Client.formatTimeAgo. rewrite Hp. fold age.
  assert (Hh : (age / 60000 / 60 = age / 3600000)%Z)
    by (rewrite Z.div_div by lia; reflexivity).
  assert (Hd : (age / 60000 / 60 / 24 = age / 86400000)%Z)
    by (rewrite !Z.div_div by lia; reflexivity).
  rewrite Hd, Hh.
  split; [|split; [|split]].
  - intros H.
    assert (E : (age / 60000 < 1)%Z)
      by (apply Z.div_lt_upper_bound; lia).
    apply Z.ltb_lt in E. rewrite E. reflexivity.
  - intros [H1 H2].
    assert (E1 : (1 <= age / 60000)%Z)
      by (apply Z.div_le_lower_bound; lia).
    assert (E2 : (age / 60000 < 60)%Z)
      by (apply Z.div_lt_upper_bound; lia).
    split; [|lia].
    apply Z.ltb_ge in E1. apply Z.ltb_lt in E2. rewrite E1, E2. reflexivity.
  - intros [H1 H2].
    assert (E0 : (60 <= age / 60000)%Z)
      by (apply Z.div_le_lower_bound; lia).
    assert (E1 : (1 <= age / 3600000)%Z)
      by (apply Z.div_le_lower_bound; lia).
    assert (E2 : (age / 3600000 < 24)%Z)
      by (apply Z.div_lt_upper_bound; lia).
    split; [|lia].
    assert (F1 : (age / 60000 <? 1)%Z = false) by (apply Z.ltb_ge; lia).
    assert (F2 : (age / 60000 <? 60)%Z = false) by (apply Z.ltb_ge; lia).
    apply Z.ltb_lt in E2. rewrite F1, F2, E2. reflexivity.
  - intros H1.
    assert (E0 : (60 <= age / 60000)%Z)
      by (apply Z.div_le_lower_bound; lia).
    assert (E1 : (24 <= age / 3600000)%Z)
      by (apply Z.div_le_lower_bound; lia).
    assert (E2 : (1 <= age / 86400000)%Z)
      by (apply Z.div_le_lower_bound; lia).
    split; [|lia].
    assert (F1 : (age / 60000 <? 1)%Z = false) by (apply Z.ltb_ge; lia).
    assert (F2 : (age / 60000 <? 60)%Z = false) by (apply Z.ltb_ge; lia).
    assert (F3 : (age / 3600000 <? 24)%Z = false) by (apply Z.ltb_ge; lia).
    rewrite F1, F2, F3. reflexivity.
Qed.

(** X19 at work: an article seen 90 minutes ago. *)
Lemma X19_relative_time_by_age_witness :
  let clk :=
    Server.mkClock 5400000 (fun _ => Some 0%Z) "1970-01-01T01:30:00.000Z" in
  Server.parseDate clk "1970-01-01T00:00:00Z" = Some 0%Z
  /\ Client.formatTimeAgo clk (Some "1970-01-01T00:00:00Z") = "1h ago".
Proof.
  intros clk.
  assert (Hne : "1970-01-01T00:00:00Z" <> "") by discriminate.
  assert (Hp : Server.parseDate clk "1970-01-01T00:00:00Z" = Some 0%Z)
    by reflexivity.
  split; [exact Hp|].
  refine (proj1 (proj1 (proj2 (proj2
            (X19_relative_time_by_age clk "1970-01-01T00:00:00Z" 0 Hne Hp)))
            _)).
  vm_compute. split; [discriminate | reflexivity].
Defined.

(** A missing or empty string gives 'Unknown', a string that denotes no
    date gives 'NaNd ago'. *)
Remark relative_time_without_a_date (clk : Server.Clock) (s : string) :
  Client.formatTimeAgo clk None = "Unknown"
  /\ Client.formatTimeAgo clk (Some "") = "Unknown"
  /\ (s <> "" -> Server.parseDate clk s = None ->
      Client.formatTimeAgo clk (Some s) = "NaNd ago").
Proof.
  split; [reflexivity|]. split; [reflexivity|].
  intros Hne Hp. destruct s as [|c r]; [congruence|].
  unfold Client.formatTimeAgo. rewrite Hp. reflexivity.
Qed.

Module BraceFacts.
Import Js Spec.

Lemma after_open_spec (s r : string) :
  after_open s = Some r
  <-> exists pre, s = pre ++ "{" ++ r /\ occurs "{" pre = false.
Proof.
  split.
  - revert r. induction s as [|c t IH]; intros r; simpl; [discriminate|].
    destruct (Ascii.eqb c "{") eqn:E.
    + intros [= ->]. apply Ascii.eqb_eq in E. subst c.
      exists "". split; reflexivity.
    + intros H. destruct (IH r H) as (pre & -> & Hp).
      exists (String c pre). split; [reflexivity|]. simpl.
      rewrite E. exact Hp.
  - intros (pre & -> & Hp). induction pre as [|c t IH]; [reflexivity|].
    simpl in Hp. apply orb_false_iff in Hp. destruct Hp as [E Hp].
    simpl. rewrite E. exact (IH Hp).
Qed.

Lemma upto_last_close_None (s : string) :
  upto_last_close s = None <-> occurs "}" s = false.
Proof.
  induction s as [|c t IH]; simpl; [tauto|].
  destruct (upto_last_close t) as [p|].
  - split; [discriminate|]. intros H. apply orb_false_iff in H.
    destruct H as [_ H]. apply IH in H. discriminate.
  - destruct (Ascii.eqb c "}"); simpl; [split; discriminate|].
    split; intros _; [apply IH|]; reflexivity.
Qed.

Lemma upto_last_close_spec (s p : string) :
  upto_last_close s = Some p
  <-> exists body post,
        s = body ++ "}" ++ post /\ p = body ++ "}"
        /\ occurs "}" post = false.
Proof.
  split.
  - revert p. induction s as [|c t IH]; intros p; simpl; [discriminate|].
    destruct (upto_last_close t) as [q|] eqn:Eq.
    + intros [= <-]. destruct (IH q eq_refl) as (body & post & -> & -> & Hp).
      exists (String c body), post. repeat split. exact Hp.
    + destruct (Ascii.eqb c "}") eqn:E; [|discriminate].
      intros [= <-]. apply Ascii.eqb_eq in E. subst c.
      exists "", t. repeat split. apply upto_last_close_None, Eq.
  - intros (body & post & -> & -> & Hp).
    induction body as [|c b IH]; simpl.
    + apply upto_last_close_None in Hp. rewrite Hp. reflexivity.
    + simpl in IH. rewrite IH. reflexivity.
Qed.

End BraceFacts.

(* ================================================================== *)
(** ** The object in the text of the model *)
(* ================================================================== *)

(** X20.  What the back end cuts out of the text of the model runs from
    the first opening brace to the last closing brace after it: the match
    is [m] exactly when the text is some prose without an opening brace,
    then [m], which starts with an opening and ends with a closing brace,
    then some prose without a closing brace.  There is no match exactly
    when no closing brace follows the first opening brace. *)
Theorem X20_brace_match_is_outermost (text : string) :
  (forall m,
      match_braces text = Some m
      <-> exists before body after,
            text = before ++ "{" ++ body ++ "}" ++ after
            /\ m = "{" ++ body ++ "}"
            /\ occurs "{" before = false
            /\ occurs "}" after = false)
  /\ (match_braces text = None
      <-> occurs "{" text = false
          \/ exists before rest,
               text = before ++ "{" ++ rest
               /\ occurs "{" before = false
               /\ occurs "}" rest = false).
Proof.
  split.
  - intros m. unfold match_braces. split.
    + destruct (after_open text) as [r|] eqn:Er; [|discriminate].
      destruct (upto_last_close r) as [p|] eqn:Ep; [|discriminate].
      intros [= <-].
      apply BraceFacts.after_open_spec in Er. destruct Er as (pre & -> & Hp).
      apply BraceFacts.upto_last_close_spec in Ep.
      destruct Ep as (body & post & -> & -> & Hq).
      exists pre, body, post. repeat split; assumption.
    + intros (pre & body & post & -> & -> & Hp & Hq).
      assert (Er : after_open (pre ++ "{" ++ body ++ "}" ++ post)
                   = Some (body ++ "}" ++ post)).
      { apply BraceFacts.after_open_spec. exists pre. split; [reflexivity|].
        exact Hp. }
      rewrite Er.
      assert (Ep : upto_last_close (body ++ "}" ++ post)
                   = Some (body ++ "}")).
      { apply BraceFacts.upto_last_close_spec. exists body, post.
        repeat split. exact Hq. }
      rewrite Ep. reflexivity.
  - unfold match_braces. split.
    + destruct (after_open text) as [r|] eqn:Er.
      * destruct (upto_last_close r) as [p|] eqn:Ep; [discriminate|].
        intros _. right.
        apply BraceFacts.after_open_spec in Er. destruct Er as (pre & -> & Hp).
        exists pre, r. repeat split; [exact Hp|].
        apply BraceFacts.upto_last_close_None, Ep.
      * intros _. left. clear -Er.
        induction text as [|c t IH]; [reflexivity|]. simpl in *.
        destruct (Ascii.eqb c "{"); [discriminate|]. exact (IH Er).
    + intros [H|(pre & rest & -> & Hp & Hr)].
      * assert (Er : after_open text = None).
        { induction text as [|c t IH]; [reflexivity|]. simpl in *.
          apply orb_false_iff in H. destruct H as [E H].
          rewrite E. exact (IH H). }
        rewrite Er. reflexivity.
      * assert (Er : after_open (pre ++ "{" ++ rest) = Some rest).
        { apply BraceFacts.after_open_spec. exists pre.
          split; [reflexivity | exact Hp]. }
        rewrite Er. apply BraceFacts.upto_last_close_None in Hr.
        rewrite Hr. reflexivity.
Qed.

Module CellFacts.
Import Js Spec JsFacts.

Lemma round_window (x : Q) :
  inject_Z (Math_round x) - (1 # 2) <= x
  /\ x < inject_Z (Math_round x) + (1 # 2).
Proof.
  unfold Math_round.
  pose proof (Qfloor_le (x + (1 # 2))) as H1.
  pose proof (Qlt_floor (x + (1 # 2))) as H2.
  rewrite inject_Z_plus in H2. change (inject_Z 1) with 1 in H2.
  split; lra.
Qed.

Lemma pow2_pos (k : Z) : 0 < 2 ^ k.
Proof. apply Qpower_0_lt. reflexivity. Qed.

Lemma pow2_Z (z : Z) : (0 <= z)%Z -> 2 ^ z == inject_Z (2 ^ z).
Proof. intros H. rewrite Zpower_Qpower by exact H. reflexivity. Qed.

(** [2 ^ ilog2 a <= a] for a positive [a]. *)
Lemma ilog2_le (a : Q) : 0 < a -> 2 ^ ilog2 a <= a.
Proof.
  intros Ha. unfold ilog2.
  destruct (Qltb a _) eqn:E; [|apply Qltb_ge, E].
  clear E. destruct a as [n d]. cbn [Qnum Qden].
  assert (Hn : (0 < n)%Z).
  { unfold Qlt in Ha. simpl in Ha. lia. }
  pose proof (Z.log2_spec n Hn) as [Hn1 _].
  pose proof (Z.log2_spec (Zpos d) (Pos2Z.is_pos d)) as [_ Hd2].
  pose proof (Z.log2_nonneg n) as Ln.
  pose proof (Z.log2_nonneg (Zpos d)) as Ld.
  set (ln := Z.log2 n) in *. set (ld := Z.log2 (Zpos d)) in *.
  replace (ln - ld - 1)%Z with (ln + - (ld + 1))%Z by lia.
  rewrite Qpower_plus by discriminate.
  rewrite Qpower_opp, (pow2_Z ln), (pow2_Z (ld + 1)) by lia.
  apply Qle_shift_div_r.
  - change 0 with (inject_Z 0). rewrite <- Zlt_Qlt. lia.
  - unfold Qle, Qmult, inject_Z. cbn [Qnum Qden].
    rewrite Z.mul_1_r, Pos.mul_1_r.
    replace (Z.succ ld) with (ld + 1)%Z in Hd2 by lia.
    assert (P : (0 < 2 ^ ln)%Z) by (apply Z.pow_pos_nonneg; lia).
    apply Z.le_trans with (n * Z.pos d)%Z.
    + apply Z.mul_le_mono_nonneg_r; lia.
    + apply Z.mul_le_mono_nonneg_l; lia.
Qed.

Lemma round_half_even_error (q : Q) :
  Qabs (inject_Z (round_half_even q) - q) <= 1 # 2.
Proof.
  unfold round_half_even.
  pose proof (Qfloor_le q) as H1. pose proof (Qlt_floor q) as H2.
  rewrite inject_Z_plus in H2. change (inject_Z 1) with 1 in H2.
  destruct (Qcompare (q - inject_Z (Qfloor q)) (1 # 2)) eqn:E.
  - apply Qeq_alt in E.
    destruct (Z.even (Qfloor q)); apply Qabs_Qle_condition;
      rewrite ?inject_Z_plus; change (inject_Z 1) with 1; split; lra.
  - apply Qlt_alt in E. apply Qabs_Qle_condition. split; lra.
  - apply Qgt_alt in E. apply Qabs_Qle_condition.
    rewrite inject_Z_plus. change (inject_Z 1) with 1. split; lra.
Qed.

Lemma half_pow2 (e : Z) : (1 # 2) * 2 ^ e == 2 ^ (e - 1).
Proof.
  replace (e - 1)%Z with (e + - 1)%Z by lia.
  rewrite Qpower_plus by discriminate. simpl. field.
Qed.

(** The error of the rounding of a positive number. *)
Lemma rounded_magnitude_error (a : Q) (k : Z) :
  (-1021 <= k)%Z -> 0 < a -> a < 2 ^ k ->
  let e := Z.max (ilog2 a - 52) (-1074) in
  Qabs (inject_Z (round_half_even (a / 2 ^ e)) * 2 ^ e - a)
  <= 2 ^ (k - 54).
Proof.
  intros Hk Ha Hx e.
  assert (He : (e <= k - 53)%Z).
  { pose proof (ilog2_le a Ha) as Hl.
    assert (Hlt : 2 ^ ilog2 a < 2 ^ k) by lra.
    apply Qpower_lt_compat_l_inv in Hlt; [|reflexivity]. lia. }
  pose proof (round_half_even_error (a / 2 ^ e)) as Hr.
  pose proof (pow2_pos e) as Hp.
  assert (Eq1 : inject_Z (round_half_even (a / 2 ^ e)) * 2 ^ e - a
                == (inject_Z (round_half_even (a / 2 ^ e)) - a / 2 ^ e)
                   * 2 ^ e) by (field; lra).
  rewrite Eq1, Qabs_Qmult, (Qabs_pos (2 ^ e)) by lra.
  apply Qle_trans with ((1 # 2) * 2 ^ e).
  - apply Qmult_le_compat_r; [exact Hr | lra].
  - rewrite half_pow2. apply Qpower_le_compat_l; [lia | discriminate].
Qed.

(** A number below [2^k] in magnitude is rounded to a double that is at
    most [2^(k-54)] away. *)
Lemma to_double_error (x : Q) (k : Z) :
  (-1021 <= k)%Z -> Qabs x < 2 ^ k ->
  Qabs (to_double x - x) <= 2 ^ (k - 54).
Proof.
  intros Hk Hx. unfold to_double.
  destruct (Qcompare x 0) eqn:C.
  - apply Qeq_alt in C. rewrite C. apply Qlt_le_weak, pow2_pos.
  - apply Qlt_alt in C.
    assert (Ex : Qabs x == - x) by (apply Qabs_neg; lra).
    assert (Ha : 0 < Qabs x) by lra.
    pose proof (rounded_magnitude_error (Qabs x) k Hk Ha Hx) as H.
    cbv zeta in *. rewrite Qred_correct.
    set (m := inject_Z _ * _) in *.
    assert (E : - m - x == - (m - Qabs x)) by (rewrite Ex; ring).
    rewrite E, Qabs_opp. exact H.
  - apply Qgt_alt in C.
    assert (Ex : Qabs x == x) by (apply Qabs_pos; lra).
    assert (Ha : 0 < Qabs x) by lra.
    pose proof (rounded_magnitude_error (Qabs x) k Hk Ha Hx) as H.
    cbv zeta in *. rewrite Qred_correct.
    set (m := inject_Z _ * _) in *.
    assert (E : m - x == m - Qabs x) by (rewrite Ex; ring).
    rewrite E. exact H.
Qed.

(** Ten times a coordinate of at most 180 degrees is rounded by less
    than [10^-12]. *)
Lemma tenfold_error (x : Q) :
  -180 <= x <= 180 ->
  - (1 # 1000000000000) < to_double (x * 10) - x * 10
  /\ to_double (x * 10) - x * 10 < 1 # 1000000000000.
Proof.
  intros [H1 H2].
  assert (Hx : Qabs (x * 10) < 2 ^ 11).
  { apply Qabs_Qlt_condition. change (2 ^ 11) with 2048. split; lra. }
  pose proof (to_double_error (x * 10) 11 ltac:(lia) Hx) as H.
  apply Qabs_Qle_condition in H.
  change (2 ^ (11 - 54)) with (1 # 8796093022208) in H.
  split; lra.
Qed.

End CellFacts.

(** X21.  For latitudes and longitudes within 180 degrees, two positions
    get the same key exactly when [Math.round(lat * 10)] agrees and
    [Math.round(lng * 10)] agrees, the products taken in double
    arithmetic; positions with the same key are less than a tenth of a
    degree apart in latitude and in longitude, up to the rounding of the
    products, which is below [10^-12]. *)
Theorem X21_cell_is_a_tenth_of_a_degree (la ln la' ln' : Q) :
  -180 <= la <= 180 -> -180 <= ln <= 180 ->
  -180 <= la' <= 180 -> -180 <= ln' <= 180 ->
  (Server.cluster_key la ln = Server.cluster_key la' ln'
   <-> Math_round (to_double (la * 10)) = Math_round (to_double (la' * 10))
       /\ Math_round (to_double (ln * 10))
          = Math_round (to_double (ln' * 10)))
  /\ (Server.cluster_key la ln = Server.cluster_key la' ln' ->
      Qabs (la - la') < (1 # 10) + (1 # 1000000000000)
      /\ Qabs (ln - ln') < (1 # 10) + (1 # 1000000000000)).
Proof.
  intros Hla Hln Hla' Hln'. split.
  - split; [apply KeyFacts.cluster_key_inj|].
    intros [H1 H2]. unfold Server.cluster_key. rewrite H1, H2. reflexivity.
  - intros H. apply KeyFacts.cluster_key_inj in H. destruct H as [H1 H2].
    pose proof (CellFacts.round_window (to_double (la * 10))) as A.
    pose proof (CellFacts.round_window (to_double (la' * 10))) as A'.
    pose proof (CellFacts.round_window (to_double (ln * 10))) as B.
    pose proof (CellFacts.round_window (to_double (ln' * 10))) as B'.
    rewrite H1 in A. rewrite H2 in B.
    pose proof (CellFacts.tenfold_error la Hla) as Ea.
    pose proof (CellFacts.tenfold_error la' Hla') as Ea'.
    pose proof (CellFacts.tenfold_error ln Hln) as Eb.
    pose proof (CellFacts.tenfold_error ln' Hln') as Eb'.
    split; apply Qabs_Qlt_condition; split; lra.
Qed.

(** X21 at work: two corners of the cell of downtown Chicago. *)
Lemma X21_cell_is_a_tenth_of_a_degree_witness :
  Server.cluster_key 41.851 (-87.649) = Server.cluster_key 41.949 (-87.551)
  /\ Qabs (41.851 - 41.949) < (1 # 10) + (1 # 1000000000000).
Proof.
  assert (H : Server.cluster_key 41.851 (-87.649)
              = Server.cluster_key 41.949 (-87.551))
    by (vm_compute; reflexivity).
  split; [exact H|].
  refine (proj1 (proj2 (X21_cell_is_a_tenth_of_a_degree
                          41.851 (-87.649) 41.949 (-87.551) _ _ _ _) H));
    split; discriminate.
Defined.

Module BrowserCells.
Import Js Spec JsFacts GroupFacts.

Lemma cell_of_snoc {A : Type} (lat lng : A -> option Q) (k : string)
  (done : list A) (x : A) :
  cell_of lat lng k (done ++ [x])
  = (cell_of lat lng k done
     ++ (if in_cell k (lat x) (lng x) then [x] else []))%list.
Proof.
  unfold cell_of. rewrite filter_app. simpl.
  destruct (in_cell k (lat x) (lng x)); reflexivity.
Qed.

Lemma in_cell_located (k : string) (lat lng : option Q) (la ln : Q) :
  Server.located lat lng = Some (la, ln) ->
  in_cell k lat lng = String.eqb (Server.cluster_key la ln) k.
Proof. intros H. unfold in_cell. rewrite H. reflexivity. Qed.

Lemma in_cell_unlocated (k : string) (lat lng : option Q) :
  Server.located lat lng = None -> in_cell k lat lng = false.
Proof. intros H. unfold in_cell. rewrite H. reflexivity. Qed.

Lemma browser_grouped_add_incident (done : list Client.Incident)
  (assigned : list Client.Camera) (inc : Client.Incident)
  (m : Client.Clusters) :
  assigned = [] ->
  client_grouped done assigned m ->
  client_grouped (done ++ [inc]) assigned (Client.add_incident m inc).
Proof.
  intros -> H. unfold Client.add_incident.
  destruct (Server.located (Client.lat inc) (Client.lng inc))
    as [[la ln]|] eqn:Hloc.
  - destruct H as (Hnd & HP & HE). unfold client_grouped.
    apply (assign_step
             (fun k c =>
                Client.cl_incidents c = cell_of Client.lat Client.lng k done
                /\ Client.cl_cameras c
                   = cell_of Client.cam_lat Client.cam_lng k [])
             (fun k c =>
                Client.cl_incidents c
                = cell_of Client.lat Client.lng k (done ++ [inc])
                /\ Client.cl_cameras c
                   = cell_of Client.cam_lat Client.cam_lng k [])
             (fun k => cell_of Client.lat Client.lng k done = []
                       /\ cell_of Client.cam_lat Client.cam_lng k [] = [])
             (fun k => cell_of Client.lat Client.lng k (done ++ [inc]) = []
                       /\ cell_of Client.cam_lat Client.cam_lng k [] = []));
      try assumption.
    + intros c (H1 & H2).
      rewrite cell_of_snoc, (in_cell_located _ _ _ _ _ Hloc),
        String.eqb_refl. cbn. rewrite H1, H2. split; reflexivity.
    + intros (H1 & H2).
      rewrite cell_of_snoc, (in_cell_located _ _ _ _ _ Hloc),
        String.eqb_refl, H1. cbn. split; reflexivity.
    + intros k c Hne (H1 & H2).
      rewrite cell_of_snoc, (in_cell_located _ _ _ _ _ Hloc).
      assert (E : String.eqb (Server.cluster_key la ln) k = false)
        by (apply String.eqb_neq; congruence).
      rewrite E, app_nil_r. auto.
    + intros k Hne (H1 & H2).
      rewrite cell_of_snoc, (in_cell_located _ _ _ _ _ Hloc).
      assert (E : String.eqb (Server.cluster_key la ln) k = false)
        by (apply String.eqb_neq; congruence).
      rewrite E, app_nil_r. auto.
  - destruct H as (Hnd & HP & HE). split; [exact Hnd|].
    split; intros k; rewrite cell_of_snoc, (in_cell_unlocated _ _ _ Hloc),
      app_nil_r; [apply HP | apply HE].
Qed.

Lemma browser_grouped_add_camera (incidents : list Client.Incident)
  (done : list Client.Camera) (cam : Client.Camera) (m : Client.Clusters) :
  client_grouped incidents done m ->
  client_grouped incidents (done ++ [cam]) (Client.add_camera m cam).
Proof.
  intros H. unfold Client.add_camera.
  destruct (Server.located (Client.cam_lat cam) (Client.cam_lng cam))
    as [[la ln]|] eqn:Hloc.
  - destruct H as (Hnd & HP & HE). unfold client_grouped.
    apply (assign_step
             (fun k c =>
                Client.cl_incidents c
                = cell_of Client.lat Client.lng k incidents
                /\ Client.cl_cameras c
                   = cell_of Client.cam_lat Client.cam_lng k done)
             (fun k c =>
                Client.cl_incidents c
                = cell_of Client.lat Client.lng k incidents
                /\ Client.cl_cameras c
                   = cell_of Client.cam_lat Client.cam_lng k (done ++ [cam]))
             (fun k => cell_of Client.lat Client.lng k incidents = []
                       /\ cell_of Client.cam_lat Client.cam_lng k done = [])
             (fun k => cell_of Client.lat Client.lng k incidents = []
                       /\ cell_of Client.cam_lat Client.cam_lng k
                            (done ++ [cam]) = []));
      try assumption.
    + intros c (H1 & H2).
      rewrite cell_of_snoc, (in_cell_located _ _ _ _ _ Hloc),
        String.eqb_refl. cbn. rewrite H1, H2. split; reflexivity.
    + intros (H1 & H2).
      rewrite cell_of_snoc, (in_cell_located _ _ _ _ _ Hloc),
        String.eqb_refl, H1, H2. cbn. split; reflexivity.
    + intros k c Hne (H1 & H2).
      rewrite cell_of_snoc, (in_cell_located _ _ _ _ _ Hloc).
      assert (E : String.eqb (Server.cluster_key la ln) k = false)
        by (apply String.eqb_neq; congruence).
      rewrite E, app_nil_r. auto.
    + intros k Hne (H1 & H2).
      rewrite cell_of_snoc, (in_cell_located _ _ _ _ _ Hloc).
      assert (E : String.eqb (Server.cluster_key la ln) k = false)
        by (apply String.eqb_neq; congruence).
      rewrite E, app_nil_r. auto.
  - destruct H as (Hnd & HP & HE). split; [exact Hnd|].
    split; intros k; rewrite cell_of_snoc, (in_cell_unlocated _ _ _ Hloc),
      app_nil_r; [apply HP | apply HE].
Qed.

(** The clusters of the browser group the incidents and the trending
    cameras by cell. *)
Lemma browser_clusters_grouped (incidents : list Client.Incident)
  (cameras : list Client.Camera) :
  client_grouped incidents (Client.trending_cameras cameras)
    (Client.build_clusters incidents cameras).
Proof.
  unfold Client.build_clusters.
  apply (fold_left_invariant Client.add_camera
           (fun done m => client_grouped incidents done m)
           (fun done m a => browser_grouped_add_camera incidents done a m)
           (Client.trending_cameras cameras) []).
  apply (fold_left_invariant Client.add_incident
           (fun done m => client_grouped done [] m)
           (fun done m a => browser_grouped_add_incident done [] a m eq_refl)
           incidents []).
  split; [constructor|]. split; [intros k c []|].
  intros k _. split; reflexivity.
Qed.

Lemma browser_ranked_origin (incidents : list Client.Incident)
  (cameras : list Client.Camera) (h : Client.Hotspot) :
  In h (Client.ranked incidents cameras) ->
  exists key cluster,
    In (key, cluster) (Client.build_clusters incidents cameras)
    /\ h = Client.hotspot_of cluster
    /\ 20 < Client.intensity h.
Proof.
  unfold Client.ranked. rewrite sort_In. unfold Client.to_hotspots.
  rewrite in_flat_map. intros [[key cluster] [Hin H]]. simpl in H.
  destruct (Qltb 20 _) eqn:E; [|destruct H]. destruct H as [<-|[]].
  exists key, cluster. split; [exact Hin|]. split; [reflexivity|].
  apply Qltb_lt. exact E.
Qed.

Lemma intensity_above_20 (i c : nat) :
  20 < Qmin 100 (inject_Z (Z.of_nat (i * 20 + c * 10))) ->
  (3 <= 2 * i + c)%nat.
Proof.
  intros H.
  assert (H' : 20 < inject_Z (Z.of_nat (i * 20 + c * 10))).
  { eapply Qlt_le_trans; [exact H | apply Q.le_min_r]. }
  change 20 with (inject_Z 20) in H'. rewrite <- Zlt_Qlt in H'. lia.
Qed.

End BrowserCells.

(* ================================================================== *)
(** ** Hotspot Clusterer in the browser *)
(* ================================================================== *)

(** X22.  Every hotspot of the analysis in the browser stands for a cell:
    it counts the incidents of the list with truthy coordinates that round
    to the key of the cell and the cameras of the list with more than 50
    viewers that do, and its intensity is 20 per incident plus 10 per
    camera, cut at 100.  A cell becomes a hotspot only with two incidents,
    or one incident and one camera, or three cameras. *)
Theorem X22_browser_hotspot_counts_by_cell :
  forall clk incidents cameras,
    Forall (fun h =>
              (exists key,
                  Client.incidentCount h
                  = length (client_cell_incidents key incidents)
                  /\ Client.cameraCount h
                     = length (client_cell_cameras key cameras))
              /\ Client.intensity h
                 = Qmin 100
                     (inject_Z (Z.of_nat (Client.incidentCount h * 20
                                          + Client.cameraCount h * 10)))
              /\ (3 <= 2 * Client.incidentCount h + Client.cameraCount h)%nat)
      (Client.hotspots (Client.performLocalAnalysis clk incidents cameras)).
Proof.
  intros clk incidents cameras.
  rewrite ClustererFacts.client_hotspots.
  apply Forall_slice0, Forall_forall. intros h Hh.
  destruct (BrowserCells.browser_ranked_origin _ _ _ Hh)
    as (key & cluster & Hin & -> & Hlt).
  destruct (BrowserCells.browser_clusters_grouped incidents cameras)
    as (_ & HP & _).
  destruct (HP _ _ Hin) as (Hi & Hc).
  split; [|split].
  - exists key. simpl. rewrite Hi, Hc. split; reflexivity.
  - reflexivity.
  - apply BrowserCells.intensity_above_20. exact Hlt.
Qed.

(** X23.  The [topIncident] of a hotspot of the back end is the title of
    the incident of its cell that comes first in the request, whatever the
    priorities: 'High camera activity' stands in when that title is
    missing or empty, and when the cell holds cameras only. *)
Theorem X23_top_incident_is_first_received :
  forall clk incidents cameras news,
    Forall (fun h =>
              exists key,
                Server.incidentCount h = length (cell_incidents key incidents)
                /\ Server.topIncident h
                   = match cell_incidents key incidents with
                     | first :: _ =>
                         str_or (Server.in_title first) "High camera activity"
                     | [] => "High camera activity"
                     end)
      (Server.hotspots
         (Server.performAlgorithmicAnalysis clk incidents cameras news)).
Proof.
  intros clk incidents cameras news.
  rewrite ClustererFacts.server_hotspots.
  apply Forall_slice0, Forall_forall. intros h Hh.
  destruct (HotspotFacts.ranked_origin _ _ _ Hh)
    as (key & cluster & Hin & -> & _).
  destruct (ClusterContents.build_clusters_grouped incidents cameras)
    as (_ & HP & _).
  destruct (HP _ _ Hin) as (Hi & _ & _).
  exists key. simpl. rewrite Hi. split; reflexivity.
Qed.

(** A litter complaint received before a homicide in the same cell gives
    the hotspot its [topIncident]. *)
Example first_received_outranks_higher_priority :
  let clk := Server.mkClock 0 (fun _ => None) "2026-01-01T00:00:00.000Z" in
  let incidents :=
    [Some (Server.mkIncidentIn (Some 41.87) (Some (-87.63)) (Some 50)
             (Some "Litter"));
     Some (Server.mkIncidentIn (Some 41.88) (Some (-87.62)) (Some 100)
             (Some "HOMICIDE"))] in
  map Server.topIncident
    (Server.hotspots (Server.performAlgorithmicAnalysis clk incidents [] []))
  = ["Litter"].
Proof. reflexivity. Qed.

(** X24.  No cell is lost but by the cut to 20: when the level of a cell
    (its running total divided by the number of its records plus one, in
    double arithmetic, cut at 100) exceeds 30, the cell is among the
    hotspots the back end counts in its summary, with its counts and this
    level as intensity, and it is among the hotspots returned when no more
    than 20 cells are that hot. *)
Theorem X24_every_hot_cell_is_reported (clk : Server.Clock)
  (incidents : list (option Server.IncidentIn))
  (cameras : list (option Server.CameraIn))
  (news : list (option Server.NewsIn)) (key : string) :
  gt (cell_level key incidents cameras) 30 = true ->
  exists h,
    In h (Server.ranked incidents cameras)
    /\ Server.incidentCount h = length (cell_incidents key incidents)
    /\ Server.cameraCount h = length (cell_cameras key cameras)
    /\ cell_level key incidents cameras = Fin (Server.intensity h)
    /\ ((length (Server.ranked incidents cameras) <= 20)%nat ->
        In h (Server.hotspots
                (Server.performAlgorithmicAnalysis clk incidents cameras
                   news))).
Proof.
  intros Hgt.
  destruct (ClusterContents.build_clusters_grouped incidents cameras)
    as (_ & HP & HE).
  destruct (lookup key (Server.build_clusters incidents cameras))
    as [c|] eqn:El.
  - apply HotspotFacts.lookup_Some_In in El.
    destruct (HP _ _ El) as (Hi & Hc & _).
    pose proof (HotspotFacts.cluster_level _ _ _ _ El) as Hlevel.
    rewrite <- Hlevel in Hgt.
    assert (Hin : In (Server.hotspot_of c) (Server.ranked incidents cameras)).
    { unfold Server.ranked. apply sort_In. unfold Server.to_hotspots.
      apply in_flat_map. exists (key, c). split; [exact El|].
      cbn [snd]. rewrite Hgt. left. reflexivity. }
    exists (Server.hotspot_of c). split; [exact Hin|].
    split; [cbn; rewrite Hi; reflexivity|].
    split; [cbn; rewrite Hc; reflexivity|].
    split.
    + rewrite <- Hlevel.
      apply (proj1 (ClustererFacts.pushed_intensity c Hgt)).
    + intros Hlen. rewrite ClustererFacts.server_hotspots.
      unfold slice0. rewrite firstn_all2 by exact Hlen. exact Hin.
  - exfalso. destruct (HE _ El) as [Hi Hc].
    rewrite (HotspotFacts.level_of_empty_cell key incidents cameras Hi Hc)
      in Hgt.
    discriminate.
Qed.

(** X24 at work: two robberies in one cell. *)
Lemma X24_every_hot_cell_is_reported_witness :
  let clk := Server.mkClock 0 (fun _ => None) "2026-01-01T00:00:00.000Z" in
  let robbery :=
    Some (Server.mkIncidentIn (Some 41.87) (Some (-87.63)) (Some 95)
            (Some "ROBBERY")) in
  gt (cell_level "41.9,-87.6" [robbery; robbery] []) 30 = true
  /\ exists h,
       In h (Server.ranked [robbery; robbery] [])
       /\ Server.incidentCount h = 2%nat.
Proof.
  intros clk robbery.
  assert (H : gt (cell_level "41.9,-87.6" [robbery; robbery] []) 30 = true)
    by (vm_compute; reflexivity).
  split; [exact H|].
  destruct (X24_every_hot_cell_is_reported clk [robbery; robbery] [] []
              "41.9,-87.6" H) as (h & Hin & Hn & _).
  exists h. split; [exact Hin | exact Hn].
Defined.
